(** * SESACO: compliance aggregation and report rendering

    A shallow embedding of the reporting core of [streamlit_app.py]:
    the backend endpoint [generar_reporte_empresa] (the aggregator), the
    tier chain and the section percentage of [generate_pdf_report], the
    logo header and the chart blocks of the same function (with their
    temporary files), and the spreadsheet export of [reportes_page].

    Conventions.  Python integers are [Z]; a finite Python float is the
    rational it stands for, and every float operation rounds its exact
    result to the nearest double; a [dict] whose iteration order matters
    is an association list with unique keys, kept in insertion order; a
    JSON object read with [.get(key, default)] is a record of [option]
    fields; text is a string of UTF-8 bytes. *)

From Stdlib Require Import List String Ascii ZArith QArith Qround Qpower Qabs.
From Stdlib Require Import Lia Lqa Bool Sorted.
Import ListNotations.
Local Open Scope string_scope.
Local Open Scope Z_scope.

(** ** Python helpers *)

Module Py.

(** Insertion-ordered [dict] with string keys. *)
Definition dict (V : Type) := list (string * V).

Fixpoint get {V} (k : string) (d : dict V) : option V :=
  match d with
  | [] => None
  | (k', v) :: d' => if String.eqb k k' then Some v else get k d'
  end.

(** [k in d] *)
Definition mem {V} (k : string) (d : dict V) : bool :=
  match get k d with Some _ => true | None => false end.

(** [d[k] = v]: overwrite in place, or append a new key at the end. *)
Fixpoint set {V} (k : string) (v : V) (d : dict V) : dict V :=
  match d with
  | [] => [(k, v)]
  | (k', v') :: d' =>
      if String.eqb k k' then (k', v) :: d' else (k', v') :: set k v d'
  end.

(** [d[k][field] += 1] and the like: the value stored under [k] is
    updated in place.  On a missing key Python raises [KeyError]; every
    use below is preceded by the [if k not in d: d[k] = ...] guard, so
    the model leaves the dict unchanged there. *)
Fixpoint modify {V} (k : string) (f : V -> V) (d : dict V) : dict V :=
  match d with
  | [] => []
  | (k', v) :: d' =>
      if String.eqb k k' then (k', f v) :: d' else (k', v) :: modify k f d'
  end.

Definition keys {V} (d : dict V) : list string := map fst d.
Definition values {V} (d : dict V) : list V := map snd d.

(** [x.get(key, default)] on a JSON object field. *)
Definition get_or {A} (o : option A) (default : A) : A :=
  match o with Some a => a | None => default end.

(** [sum(...)] over integers. *)
Definition sum (l : list Z) : Z := fold_right Z.add 0 l.

(** A field summed over the values of a dict, as in
    [sum(s.get(field, 0) for s in d.values())]. *)
Definition total_de {V} (g : V -> Z) (d : dict V) : Z :=
  sum (map g (values d)).

(** *** Exceptions *)

(** The exceptions the modelled code can meet: Python's own, those of the
    PDF library, and whatever the imaging and plotting libraries raise. *)
Inductive excepcion :=
| TypeError
| ValueError
| ZeroDivisionError
| OverflowError
| FileNotFoundError
| FPDFException                   (* not enough horizontal space *)
| FPDFUnicodeEncodingException    (* a character outside latin-1 *)
| ErrorDeBiblioteca (mensaje : string).

(** What an evaluation gives: a value, or an exception raised. *)
Inductive salida (A : Type) : Type :=
| Val (a : A)
| Exc (e : excepcion).
Arguments Val {A} _.
Arguments Exc {A} _.

(** *** [datetime] *)

(** The wall-clock reading, in microseconds, and the UTC offset of an
    aware value; a naive value has no offset. *)
Record datetime := {
  reloj : Z;
  utcoffset : option Z
}.

Definition naive (t : Z) : datetime := {| reloj := t; utcoffset := None |}.

Definition aware (d : datetime) : bool :=
  match utcoffset d with Some _ => true | None => false end.

(** The point of time two values of the same kind are ordered by: the
    reading itself for naive values, the reading brought to UTC for aware
    ones. *)
Definition instante (d : datetime) : Z := reloj d - get_or (utcoffset d) 0.

(** [a > b]; [None] is the [TypeError] raised for a naive value against
    an aware one. *)
Definition datetime_gt (a b : datetime) : option bool :=
  match utcoffset a, utcoffset b with
  | None, None => Some (reloj b <? reloj a)
  | Some oa, Some ob => Some (reloj b - ob <? reloj a - oa)
  | _, _ => None
  end.

(** [max(...)] over a non-empty sequence: the first item is the maximum
    so far, and a later item replaces it when it is greater. *)
Fixpoint max_desde (m : datetime) (l : list datetime) : option datetime :=
  match l with
  | [] => Some m
  | d :: l' =>
      match datetime_gt d m with
      | None => None
      | Some true => max_desde d l'
      | Some false => max_desde m l'
      end
  end.

(** *** Floats *)

(** Round half to even, on the exact value. *)
Definition round_half_even (q : Q) : Z :=
  let f := Qfloor q in
  match Qcompare (q - inject_Z f) (1 # 2) with
  | Lt => f
  | Gt => f + 1
  | Eq => if Z.even f then f else f + 1
  end.

Definition pow2 (k : Z) : Q := Qpower 2 k.

(** [floor(log2 q)] for a positive rational. *)
Definition ilog2 (q : Q) : Z :=
  let k := Z.log2 (Qnum q) - Z.log2 (Zpos (Qden q)) in
  if Qle_bool (pow2 k) q then k else k - 1.

(** The double nearest to a positive rational, ties to even: a mantissa
    of 53 bits, exponents from -1074 up (gradual underflow). *)
Definition binary64_pos (q : Q) : Q :=
  let e := Z.max (ilog2 q - 52) (-1074) in
  (inject_Z (round_half_even (q / pow2 e)) * pow2 e)%Q.

(** The double nearest to a rational, before the range check. *)
Definition binary64 (q : Q) : Q :=
  match Qcompare q 0 with
  | Eq => 0%Q
  | Gt => binary64_pos q
  | Lt => (- binary64_pos (- q))%Q
  end.

(** The rounded value leaves the range of the finite doubles. *)
Definition desborda (q : Q) : bool :=
  Qle_bool (pow2 1024) (Qabs (binary64 q)).

(** A float: a finite double, by its exact value, or an infinity. *)
Inductive float :=
| Finito (q : Q)
| Infinito (negativo : bool).

(** [a / b] on integers: the quotient rounded once to the nearest double;
    [ZeroDivisionError] when [b = 0], [OverflowError] when the quotient
    is too large for a float. *)
Definition truediv (a b : Z) : salida Q :=
  if b =? 0 then Exc ZeroDivisionError
  else if desborda (inject_Z a / inject_Z b) then Exc OverflowError
  else Val (binary64 (inject_Z a / inject_Z b)).

(** [a * b] on finite floats: the product rounded to the nearest double,
    an infinity when it leaves the range. *)
Definition fmul (a b : Q) : float :=
  if desborda (a * b) then Infinito (negb (Qle_bool 0 (a * b)))
  else Finito (binary64 (a * b)).

(** [round(x, 2)] on a finite float: the exact value of [x] is rounded
    half to even to two decimals, and the double nearest to that decimal
    is returned. *)
Definition round2_finito (x : Q) : Q :=
  binary64 (inject_Z (round_half_even (x * 100)) / 100).

(** [round(x, 2)]: an infinity is returned as it is. *)
Definition round2 (x : float) : float :=
  match x with
  | Finito q => Finito (round2_finito q)
  | Infinito s => Infinito s
  end.

(** [needle in haystack] on text. *)
Fixpoint contains (needle haystack : string) : bool :=
  if String.prefix needle haystack then true
  else match haystack with
       | EmptyString => false
       | String _ rest => contains needle rest
       end.

End Py.

(** ** Data model (pydantic models of the backend) *)

Record Empresa := {
  tipo : string;
  razon_social : string;
  ruc : string;
  actividad_economica : string;
  direccion : string;
  total_trabajadores : Z
}.

Record PreguntaVerificacion := {
  id : Z;
  seccion : string;
  categoria : string;
  pregunta : string;
  normativa : string;
  respuesta : option string;
  observaciones : option string
}.

Record FormularioVerificacion := {
  empresa_ruc : string;
  inspector_cedula : string;
  fecha : Py.datetime;
  preguntas : list PreguntaVerificacion
}.

(** [DATABASE]: companies by RUC, stored forms by form id. *)
Record Database := {
  empresas : Py.dict Empresa;
  formularios : Py.dict FormularioVerificacion
}.

(** The three radio labels of the checklist form, and the value the form
    submits for a question left without a selection. *)
Definition CUMPLE : string := "✅ Cumple".
Definition NO_CUMPLE : string := "❌ No cumple".
Definition NO_APLICA : string := "➖ No aplica".
Definition NO_SELECCIONADO : string := "No seleccionado".

(** [pregunta.respuesta == lit] on an [Optional[str]]. *)
Definition respuesta_es (lit : string) (p : PreguntaVerificacion) : bool :=
  match respuesta p with
  | Some r => String.eqb r lit
  | None => false
  end.

(** ** The aggregator: [generar_reporte_empresa] *)

Record SeccionStats := {
  total : Z;
  cumple : Z;
  no_cumple : Z;
  no_aplica : Z
}.

Record Estadisticas := {
  total_verificaciones : Z;
  ultima_verificacion : Py.datetime;
  cumplimiento_promedio : Q;
  secciones : Py.dict SeccionStats
}.

Record Reporte := {
  empresa : Empresa;
  estadisticas : Estadisticas;
  ultimo_formulario : FormularioVerificacion
}.

Record HTTPException := {
  status_code : Z;
  detail : string
}.

(** What an endpoint answers: a value, an [HTTPException] it raised
    itself, or an exception nothing handles (the framework answers with
    status 500). *)
Inductive resultado (A : Type) : Type :=
| Ok : A -> resultado A
| Raise : HTTPException -> resultado A
| Falla : Py.excepcion -> resultado A.
Arguments Ok {A} _.
Arguments Raise {A} _.
Arguments Falla {A} _.

Definition seccion_vacia : SeccionStats :=
  {| total := 0; cumple := 0; no_cumple := 0; no_aplica := 0 |}.

Definition inc_total (s : SeccionStats) : SeccionStats :=
  {| total := total s + 1; cumple := cumple s;
     no_cumple := no_cumple s; no_aplica := no_aplica s |}.
Definition inc_cumple (s : SeccionStats) : SeccionStats :=
  {| total := total s; cumple := cumple s + 1;
     no_cumple := no_cumple s; no_aplica := no_aplica s |}.
Definition inc_no_cumple (s : SeccionStats) : SeccionStats :=
  {| total := total s; cumple := cumple s;
     no_cumple := no_cumple s + 1; no_aplica := no_aplica s |}.
Definition inc_no_aplica (s : SeccionStats) : SeccionStats :=
  {| total := total s; cumple := cumple s;
     no_cumple := no_cumple s; no_aplica := no_aplica s + 1 |}.

(** The mutable locals of the double loop. *)
Record Acumulador := {
  preguntas_totales : Z;
  cumplimientos_totales : Z;
  acc_secciones : Py.dict SeccionStats
}.

Definition acumulador_inicial : Acumulador :=
  {| preguntas_totales := 0; cumplimientos_totales := 0; acc_secciones := [] |}.

(** Body of [for pregunta in formulario.preguntas]. *)
Definition procesar_pregunta (a : Acumulador) (p : PreguntaVerificacion)
  : Acumulador :=
  let c := if respuesta_es CUMPLE p
           then cumplimientos_totales a + 1 else cumplimientos_totales a in
  let n := preguntas_totales a + 1 in
  let s0 := acc_secciones a in
  let s1 := if negb (Py.mem (seccion p) s0)
            then Py.set (seccion p) seccion_vacia s0 else s0 in
  let s2 := Py.modify (seccion p) inc_total s1 in
  let s3 := if respuesta_es CUMPLE p then Py.modify (seccion p) inc_cumple s2
            else if respuesta_es NO_CUMPLE p
                 then Py.modify (seccion p) inc_no_cumple s2
                 else Py.modify (seccion p) inc_no_aplica s2 in
  {| preguntas_totales := n; cumplimientos_totales := c; acc_secciones := s3 |}.

(** Body of [for formulario in formularios]. *)
Definition procesar_formulario (a : Acumulador) (f : FormularioVerificacion)
  : Acumulador :=
  fold_left procesar_pregunta (preguntas f) a.

Definition procesar_formularios (fs : list FormularioVerificacion) : Acumulador :=
  fold_left procesar_formulario fs acumulador_inicial.

(** [round((cumplimientos_totales / preguntas_totales) * 100, 2)] under the
    guard [preguntas_totales > 0]; the initial value [0] otherwise. *)
Definition promedio (a : Acumulador) : Py.salida Py.float :=
  if preguntas_totales a >? 0
  then match Py.truediv (cumplimientos_totales a) (preguntas_totales a) with
       | Py.Val q => Py.Val (Py.round2 (Py.fmul q 100))
       | Py.Exc e => Py.Exc e
       end
  else Py.Val (Py.Finito 0).

(** The forms of one company, in storage order. *)
Definition formularios_de (db : Database) (empresa_ruc' : string)
  : list FormularioVerificacion :=
  filter (fun f => String.eqb (empresa_ruc f) empresa_ruc')
         (Py.values (formularios db)).

Definition EMPRESA_NO_ENCONTRADA : HTTPException :=
  {| status_code := 404; detail := "Empresa no encontrada" |}.
Definition NO_HAY_FORMULARIOS : HTTPException :=
  {| status_code := 404; detail := "No hay formularios para esta empresa" |}.

(** The date of the last verification is taken first ([max] raises
    [TypeError] on a naive date against an aware one), then the loops
    run, then the ratio is computed; an infinite ratio could not be
    written to the JSON response. *)
Definition generar_reporte_empresa (db : Database) (empresa_ruc' : string)
  : resultado Reporte :=
  match Py.get empresa_ruc' (empresas db) with
  | None => Raise EMPRESA_NO_ENCONTRADA
  | Some e =>
      match formularios_de db empresa_ruc' with
      | [] => Raise NO_HAY_FORMULARIOS
      | f0 :: rest =>
          let fs := f0 :: rest in
          match Py.max_desde (fecha f0) (map fecha rest) with
          | None => Falla Py.TypeError
          | Some ultima =>
              let a := procesar_formularios fs in
              match promedio a with
              | Py.Exc ex => Falla ex
              | Py.Val (Py.Infinito _) => Falla Py.ValueError
              | Py.Val (Py.Finito q) =>
                  Ok {| empresa := e;
                        estadisticas :=
                          {| total_verificaciones := Z.of_nat (List.length fs);
                             ultima_verificacion := ultima;
                             cumplimiento_promedio := q;
                             secciones := acc_secciones a |};
                        ultimo_formulario := last fs f0 |}
              end
          end
      end
  end.

(** ** Vocabulary for the statements about the aggregator *)

(** Every question of every form, in processing order. *)
Definition todas_las_preguntas (fs : list FormularioVerificacion)
  : list PreguntaVerificacion :=
  flat_map preguntas fs.

Definition en_seccion (s : string) (p : PreguntaVerificacion) : bool :=
  String.eqb (seccion p) s.

(** The status field is absent ([respuesta] is [None]). *)
Definition sin_respuesta (p : PreguntaVerificacion) : bool :=
  match respuesta p with None => true | Some _ => false end.

(** The answer falls in the [else] branch of the status chain. *)
Definition es_otro (p : PreguntaVerificacion) : bool :=
  negb (respuesta_es CUMPLE p) && negb (respuesta_es NO_CUMPLE p).

Definition contar (P : PreguntaVerificacion -> bool)
  (qs : list PreguntaVerificacion) : Z :=
  Z.of_nat (List.length (filter P qs)).

(** The counts of section [s] over a list of questions. *)
Definition cuentas (s : string) (qs : list PreguntaVerificacion) : SeccionStats :=
  {| total := contar (en_seccion s) qs;
     cumple := contar (fun p => en_seccion s p && respuesta_es CUMPLE p) qs;
     no_cumple := contar (fun p => en_seccion s p && respuesta_es NO_CUMPLE p) qs;
     no_aplica := contar (fun p => en_seccion s p && es_otro p) qs |}.

(** The entry of section [s]: present exactly when a question names it. *)
Definition resumen (s : string) (qs : list PreguntaVerificacion)
  : option SeccionStats :=
  if existsb (en_seccion s) qs then Some (cuentas s qs) else None.

(** The three buckets add up to the total, and none is negative. *)
Definition bien_formada (d : SeccionStats) : Prop :=
  total d = cumple d + no_cumple d + no_aplica d /\
  0 <= cumple d /\ 0 <= no_cumple d /\ 0 <= no_aplica d.

(** Section statistics computed from a list of forms. *)
Definition secciones_de (fs : list FormularioVerificacion) : Py.dict SeccionStats :=
  acc_secciones (procesar_formularios fs).

(** What one iteration does to the entry of the question's own section. *)
Definition contar_en (p : PreguntaVerificacion) (d : SeccionStats) : SeccionStats :=
  if respuesta_es CUMPLE p then inc_cumple (inc_total d)
  else if respuesta_es NO_CUMPLE p then inc_no_cumple (inc_total d)
       else inc_no_aplica (inc_total d).

(** The overall ratio as the loop's two counters give it: the quotient,
    the product and the rounding are each a float operation. *)
Definition ratio_de (cumplen n : Z) : Q :=
  if n >? 0
  then Py.round2_finito
         (Py.binary64 (Py.binary64 (inject_Z cumplen / inject_Z n) * 100))
  else 0.

(** The dates are all naive or all aware, so any two of them compare. *)
Definition fechas_comparables (l : list Py.datetime) : bool :=
  match l with
  | [] => true
  | m :: l' => forallb (fun d => Bool.eqb (Py.aware d) (Py.aware m)) l'
  end.

(** ** Sample data *)

Definition RUC_DEMO : string := "1790012345001".

Definition empresa_demo : Empresa :=
  {| tipo := "Privada"; razon_social := "ACME S.A."; ruc := RUC_DEMO;
     actividad_economica := "Construccion"; direccion := "Quito";
     total_trabajadores := 25 |}.

Definition pregunta_demo (n : Z) (s : string) (r : option string)
  : PreguntaVerificacion :=
  {| id := n; seccion := s; categoria := "Gestion"; pregunta := "Pregunta";
     normativa := "Decreto 255"; respuesta := r; observaciones := None |}.

Definition formulario_demo (t : Z) (qs : list PreguntaVerificacion)
  : FormularioVerificacion :=
  {| empresa_ruc := RUC_DEMO; inspector_cedula := "1722212253";
     fecha := Py.naive t; preguntas := qs |}.

Definition db_demo (fs : list (string * FormularioVerificacion)) : Database :=
  {| empresas := [(RUC_DEMO, empresa_demo)]; formularios := fs |}.

(** Two verifications of the same company: the question complied at the
    first visit and does not at the second. *)
Definition visita_1 : FormularioVerificacion :=
  formulario_demo 1 [pregunta_demo 1 "A" (Some CUMPLE)].
Definition visita_2 : FormularioVerificacion :=
  formulario_demo 2 [pregunta_demo 1 "A" (Some NO_CUMPLE)].
Definition db_dos_visitas : Database :=
  db_demo [("f1", visita_1); ("f2", visita_2)].

(** The same two visits, the later one stored first. *)
Definition db_visitas_desordenadas : Database :=
  db_demo [("f2", visita_2); ("f1", visita_1)].

(** A visit whose date carries a UTC offset (here, none of difference),
    stored next to one whose date is naive. *)
Definition visita_con_zona : FormularioVerificacion :=
  {| empresa_ruc := RUC_DEMO; inspector_cedula := "1722212253";
     fecha := {| Py.reloj := 2; Py.utcoffset := Some 0 |};
     preguntas := [pregunta_demo 1 "A" (Some CUMPLE)] |}.
Definition db_fechas_mixtas : Database :=
  db_demo [("f1", visita_1); ("f2", visita_con_zona)].

(** One form whose only question carries no status at all. *)
Definition visita_sin_respuesta : FormularioVerificacion :=
  formulario_demo 1 [pregunta_demo 1 "A" None].

(** Two sections of three questions: four comply, one does not, one is
    not applicable. *)
Definition visita_escenario_a : FormularioVerificacion :=
  formulario_demo 1
    [pregunta_demo 1 "A" (Some CUMPLE); pregunta_demo 2 "A" (Some CUMPLE);
     pregunta_demo 3 "A" (Some NO_CUMPLE);
     pregunta_demo 4 "B" (Some CUMPLE); pregunta_demo 5 "B" (Some CUMPLE);
     pregunta_demo 6 "B" (Some NO_APLICA)].
Definition db_escenario_a : Database := db_demo [("f1", visita_escenario_a)].

(** A stored form that lists no question at all. *)
Definition visita_vacia : FormularioVerificacion := formulario_demo 1 [].
Definition db_visita_vacia : Database := db_demo [("f1", visita_vacia)].

(** ** The renderer's inputs (JSON objects read with [.get]) *)

Record DatosSeccion := {
  d_total : option Z;
  d_cumple : option Z;
  d_no_cumple : option Z;
  d_no_aplica : option Z
}.

Record EstadisticasJson := {
  j_cumplimiento_promedio : option Q;
  j_secciones : option (Py.dict DatosSeccion)
}.

Record EmpresaJson := {
  e_razon_social : option string;
  e_ruc : option string;
  e_direccion : option string;
  e_actividad_economica : option string;
  e_total_trabajadores : option Z;
  e_tipo : option string
}.

(** [st.session_state.get('user_info', {})] *)
Record UserInfo := {
  u_nombre : option string;
  u_cedula : option string
}.

(** The response body of the endpoint, as the front end reads it back. *)
Definition datos_json (s : SeccionStats) : DatosSeccion :=
  {| d_total := Some (total s); d_cumple := Some (cumple s);
     d_no_cumple := Some (no_cumple s); d_no_aplica := Some (no_aplica s) |}.

Definition estadisticas_json (e : Estadisticas) : EstadisticasJson :=
  {| j_cumplimiento_promedio := Some (cumplimiento_promedio e);
     j_secciones := Some (map (fun kv => (fst kv, datos_json (snd kv)))
                              (secciones e)) |}.

Definition empresa_json (e : Empresa) : EmpresaJson :=
  {| e_razon_social := Some (razon_social e); e_ruc := Some (ruc e);
     e_direccion := Some (direccion e);
     e_actividad_economica := Some (actividad_economica e);
     e_total_trabajadores := Some (total_trabajadores e);
     e_tipo := Some (tipo e) |}.

(** ** The tier chain of [generate_pdf_report] *)

Inductive Estado := EXCELENTE | ACEPTABLE | INSUFICIENTE.

(** [if cumplimiento >= 80: ... elif cumplimiento >= 50: ... else: ...] *)
Definition estado_de (cumplimiento : Q) : Estado :=
  if Qle_bool 80 cumplimiento then EXCELENTE
  else if Qle_bool 50 cumplimiento then ACEPTABLE
       else INSUFICIENTE.

Definition nombre_estado (e : Estado) : string :=
  match e with
  | EXCELENTE => "EXCELENTE"
  | ACEPTABLE => "ACEPTABLE"
  | INSUFICIENTE => "INSUFICIENTE"
  end.

(** [estado.lower()] *)
Definition nombre_estado_lower (e : Estado) : string :=
  match e with
  | EXCELENTE => "excelente"
  | ACEPTABLE => "aceptable"
  | INSUFICIENTE => "insuficiente"
  end.

Definition color_estado (e : Estado) : Z * Z * Z :=
  match e with
  | EXCELENTE => (0, 107, 63)
  | ACEPTABLE => (255, 165, 0)
  | INSUFICIENTE => (220, 20, 60)
  end.

Definition conclusion (e : Estado) : string :=
  match e with
  | EXCELENTE => "La empresa muestra un alto nivel de cumplimiento con las normativas de seguridad y salud en el trabajo."
  | ACEPTABLE => "La empresa tiene un nivel de cumplimiento aceptable pero con oportunidades de mejora identificadas."
  | INSUFICIENTE => "Se han identificado deficiencias importantes que requieren atención inmediata."
  end.

(** The second chain on the same thresholds, which picks the
    recommendations; the result names the list by the tier it belongs to. *)
Definition recomendaciones_de (cumplimiento : Q) : Estado :=
  if Qle_bool 80 cumplimiento then EXCELENTE
  else if Qle_bool 50 cumplimiento then ACEPTABLE
       else INSUFICIENTE.

(** ** The section percentage *)

Definition total_aplicable (d : DatosSeccion) : Z :=
  Py.get_or (d_total d) 0 - Py.get_or (d_no_aplica d) 0.

(** [(datos.get("cumple", 0) / total_aplicable) * 100 if total_aplicable > 0 else 0]:
    the division is an integer true division, the product a float
    product; the [else] branch gives the integer 0, which is shown as the
    float 0 is. *)
Definition porcentaje (d : DatosSeccion) : Py.salida Py.float :=
  if total_aplicable d >? 0
  then match Py.truediv (Py.get_or (d_cumple d) 0) (total_aplicable d) with
       | Py.Val q => Py.Val (Py.fmul q 100)
       | Py.Exc e => Py.Exc e
       end
  else Py.Val (Py.Finito 0).

(** ** The document renderer: [generate_pdf_report]

    The PDF object is the list of the content calls made on it, in order,
    together with the abscissa of its cursor.  Font and colour calls, cell
    borders and alignment are left out; page breaks inserted by the layout
    engine are not modelled.  The text calls of the PDF library raise as
    the library does with a core font: on a character outside latin-1,
    and, for [multi_cell], when no width is left for a character.  What
    the imaging and plotting libraries do is an input of the model
    ([Entorno]): whether an uploaded logo decodes, and whether a chart
    fails while it is drawn, saved or embedded. *)

Module Render.

(** Text as the report composes it. *)
Inductive Texto :=
| T (s : string)
| TCat (a b : Texto)
| TInt (z : Z)                (* str(n) *)
| TPct1 (x : Py.float)        (* f"{x:.1f}" *)
| TTitle (s : string)         (* s.replace("_", " ").title() *)
| TUpper (s : string)         (* s.replace("_", " ").upper() *)
| TEspacios (s : string)      (* s.replace("_", " ") *)
| THoy                        (* datetime.now().strftime('%d/%m/%Y') *)
| TStr100 (e : Py.excepcion). (* str(e)[:100] *)

Inductive Figura :=
| FigPie (sizes : list Z) (titulo : Texto)
| FigBarras (etiquetas : list Texto) (porcentajes : list Py.float).

(** An uploaded file: the bytes of [getvalue()]. *)
Record Upload := { getvalue : list Byte.byte }.

Inductive Imagen :=
| ImgLogo (u : Upload)                    (* the logo re-encoded as JPEG *)
| ImgArchivo (ruta : nat) (f : Figura).   (* a chart read back from disk *)

Inductive PosY := YAuto | YFijo (y : Z) | YActual.

Inductive Op :=
| OpAddPage
| OpSetY (y : Z)
| OpImage (img : Imagen) (x : Z) (y : PosY) (w : Z)
| OpText (x y : Z) (txt : Texto)
| OpCell (w h : Z) (txt : Texto)
| OpMultiCell (w h : Z) (txt : Texto)
| OpLn (h : Z)
| OpLine.

(** The charts of one report. *)
Inductive Grafico := GResumen | GBarras | GSeccion (s : string).

Inductive Etapa := AlDibujar | AlGuardar | AlInsertar.

(** The last two fields answer for Python's case mappings on text that is
    not ASCII: whether the section name, with its underscores replaced,
    still fits latin-1 after [title()] and after [upper()]. *)
Record Entorno := {
  decodifica : Upload -> bool;
  falla : Grafico -> option Etapa;
  title_latin1 : string -> bool;
  upper_latin1 : string -> bool
}.

(** A line written to the standard output: its fixed text and the
    exception whose message follows. *)
Definition Linea : Type := string * Py.excepcion.

Record Mundo := {
  pdf : list Op;
  abscisa : Z;               (* abscissa of the cursor, in mm *)
  archivos : list nat;       (* temporary files present on disk *)
  siguiente : nat;           (* source of fresh temporary names *)
  stdout : list Linea
}.

Definition M (A : Type) : Type := Mundo -> Py.salida A * Mundo.

Definition ret {A} (a : A) : M A := fun w => (Py.Val a, w).

Definition bind {A B} (m : M A) (f : A -> M B) : M B :=
  fun w => match m w with
           | (Py.Val a, w') => f a w'
           | (Py.Exc e, w') => (Py.Exc e, w')
           end.

Definition raise {A} (e : Py.excepcion) : M A := fun w => (Py.Exc e, w).

(** [try: body except Exception as e: handler(e)]; what the body did to the
    world before it raised stays done. *)
Definition try_except {A} (body : M A) (handler : Py.excepcion -> M A) : M A :=
  fun w => match body w with
           | (Py.Val a, w') => (Py.Val a, w')
           | (Py.Exc e, w') => handler e w'
           end.

Notation "x <- m ;; k" := (bind m (fun x => k))
  (at level 61, m at next level, right associativity).
Notation "m ;; k" := (bind m (fun _ => k))
  (at level 61, right associativity).

Fixpoint for_each {X} (l : list X) (f : X -> M unit) : M unit :=
  match l with
  | [] => ret tt
  | x :: l' => f x ;; for_each l' f
  end.

(** The value of a pure evaluation, or the exception it raised. *)
Definition evaluar {A} (r : Py.salida A) : M A :=
  match r with
  | Py.Val a => ret a
  | Py.Exc e => raise e
  end.

Definition print (prefijo : string) (e : Py.excepcion) : M unit :=
  fun w => (Py.Val tt, {| pdf := pdf w; abscisa := abscisa w; archivos := archivos w;
                          siguiente := siguiente w;
                          stdout := stdout w ++ [(prefijo, e)] |}).

(** *** The calls on the PDF object *)

(** A4 in millimetres with the default margins: the text area runs from
    abscissa 10 to abscissa 200. *)
Definition l_margin : Z := 10.
Definition borde_derecho : Z := 200.

(** The margin kept on either side of the text inside a cell. *)
Definition c_margin : Z := 1.

(** A content call is recorded and the cursor moves to [x']. *)
Definition registrar (o : Op) (x' : Z) : M unit :=
  fun w => (Py.Val tt, {| pdf := pdf w ++ [o]; abscisa := x'; archivos := archivos w;
                          siguiente := siguiente w; stdout := stdout w |}).

(** UTF-8: the bytes of a code point up to U+00FF are all below 0xC4. *)
Fixpoint es_latin1 (s : string) : bool :=
  match s with
  | EmptyString => true
  | String c s' => (nat_of_ascii c <? 196)%nat && es_latin1 s'
  end.

Fixpoint es_ascii (s : string) : bool :=
  match s with
  | EmptyString => true
  | String c s' => (nat_of_ascii c <? 128)%nat && es_ascii s'
  end.

(** A byte that starts a code point (the others, 0x80 to 0xBF, continue
    one). *)
Definition inicia_caracter (c : ascii) : bool :=
  let n := nat_of_ascii c in ((n <? 128) || (192 <=? n))%nat.

(** The first [n] code points of a text. *)
Fixpoint primeros (n : nat) (s : string) : string :=
  match s with
  | EmptyString => EmptyString
  | String c s' =>
      if inicia_caracter c
      then match n with
           | O => EmptyString
           | S n' => String c (primeros n' s')
           end
      else String c (primeros n s')
  end.

(** The text holds a character other than the space and the line feed
    (and other than those in [blancos]). *)
Fixpoint con_tinta (blancos : list ascii) (s : string) : bool :=
  match s with
  | EmptyString => false
  | String c s' =>
      negb (existsb (Ascii.eqb c) (" " :: "010" :: blancos)%char)
      || con_tinta blancos s'
  end.

(** The text can be written with a core font: none of its characters lies
    outside latin-1.  The message of the encoding exception quotes the
    character that could not be written. *)
Fixpoint codificable (env : Entorno) (t : Texto) : bool :=
  match t with
  | T s => es_latin1 s
  | TCat a b => codificable env a && codificable env b
  | TInt _ | TPct1 _ | THoy => true
  | TTitle s => es_ascii s || title_latin1 env s
  | TUpper s => es_ascii s || upper_latin1 env s
  | TEspacios s => es_latin1 s
  | TStr100 e =>
      match e with
      | Py.FPDFUnicodeEncodingException => false
      | Py.ErrorDeBiblioteca m => es_latin1 (primeros 100 m)
      | _ => true
      end
  end.

(** The text has something to draw: a character that is neither a space
    nor a line feed. *)
Fixpoint tiene_tinta (t : Texto) : bool :=
  match t with
  | T s => con_tinta [] s
  | TCat a b => tiene_tinta a || tiene_tinta b
  | TInt _ | TPct1 _ | THoy => true
  | TTitle s | TUpper s | TEspacios s => con_tinta ["_"%char] s
  | TStr100 e =>
      match e with
      | Py.ErrorDeBiblioteca m => con_tinta [] (primeros 100 m)
      | _ => true
      end
  end.

(** [new_x]: where the cursor goes after a cell. *)
Inductive XPos := RIGHT | LMARGIN.

(** The width of a cell: [w = 0] extends it to the right margin. *)
Definition ancho_de (w : Z) (m : Mundo) : Z :=
  if w =? 0 then borde_derecho - abscisa m else w.

Definition x_tras (new_x : XPos) (w : Z) (m : Mundo) : Z :=
  match new_x with
  | LMARGIN => l_margin
  | RIGHT => abscisa m + ancho_de w m
  end.

(** [pdf.cell(w, h, txt, new_x=...)] *)
Definition cell (env : Entorno) (w h : Z) (txt : Texto) (new_x : XPos) : M unit :=
  fun m =>
    if codificable env txt
    then registrar (OpCell w h txt) (x_tras new_x w m) m
    else (Py.Exc Py.FPDFUnicodeEncodingException, m).

(** [pdf.multi_cell(w, h, txt, new_x=...)]: the text is encoded first,
    then broken into lines; a character to draw that finds no room
    between the cell margins raises.  In this report the width is 190 or
    130 mm, or none at all. *)
Definition multi_cell (env : Entorno) (w h : Z) (txt : Texto) (new_x : XPos)
  : M unit :=
  fun m =>
    if codificable env txt
    then if (ancho_de w m <=? 2 * c_margin) && tiene_tinta txt
         then (Py.Exc Py.FPDFException, m)
         else registrar (OpMultiCell w h txt) (x_tras new_x w m) m
    else (Py.Exc Py.FPDFUnicodeEncodingException, m).

(** [pdf.text(x, y, txt)]: the cursor stays. *)
Definition text (env : Entorno) (x' y' : Z) (txt : Texto) : M unit :=
  fun m =>
    if codificable env txt
    then registrar (OpText x' y' txt) (abscisa m) m
    else (Py.Exc Py.FPDFUnicodeEncodingException, m).

(** [pdf.ln(h)], [pdf.add_page()] and [pdf.set_y(y)] bring the cursor
    back to the left margin. *)
Definition ln (h : Z) : M unit := registrar (OpLn h) l_margin.
Definition add_page : M unit := registrar OpAddPage l_margin.
Definition set_y (y' : Z) : M unit := registrar (OpSetY y') l_margin.

(** [pdf.line(...)] and [pdf.image(...)] leave the abscissa alone. *)
Definition line : M unit := fun m => registrar OpLine (abscisa m) m.
Definition image (img : Imagen) (x' : Z) (y' : PosY) (w : Z) : M unit :=
  fun m => registrar (OpImage img x' y' w) (abscisa m) m.

(** [pdf = FPDF()] *)
Definition nuevo_pdf : M unit :=
  fun w => (Py.Val tt, {| pdf := []; abscisa := l_margin; archivos := archivos w;
                          siguiente := siguiente w; stdout := stdout w |}).

(** [Image.open(...)], [convert("RGB")] and [save(..., format='JPEG')]. *)
Definition procesar_imagen (env : Entorno) (u : Upload) : M Imagen :=
  if decodifica env u then ret (ImgLogo u)
  else raise (Py.ErrorDeBiblioteca "UnidentifiedImageError").

(** [with tempfile.NamedTemporaryFile(delete=False, suffix='.png')]: the
    file is created under a fresh name and stays on disk when the block
    is left. *)
Definition NamedTemporaryFile : M nat :=
  fun w => (Py.Val (siguiente w),
            {| pdf := pdf w; abscisa := abscisa w; archivos := archivos w ++ [siguiente w];
               siguiente := S (siguiente w); stdout := stdout w |}).

Definition quitar (n : nat) (l : list nat) : list nat :=
  filter (fun m => negb (Nat.eqb m n)) l.

(** [os.unlink(path)] *)
Definition unlink (n : nat) : M unit :=
  fun w => if existsb (Nat.eqb n) (archivos w)
           then (Py.Val tt, {| pdf := pdf w; abscisa := abscisa w;
                               archivos := quitar n (archivos w);
                               siguiente := siguiente w; stdout := stdout w |})
           else (Py.Exc Py.FileNotFoundError, w).

Definition etapa_eqb (a b : Etapa) : bool :=
  match a, b with
  | AlDibujar, AlDibujar | AlGuardar, AlGuardar | AlInsertar, AlInsertar => true
  | _, _ => false
  end.

(** A plotting or embedding step of chart [g] that the environment may fail. *)
Definition paso (env : Entorno) (g : Grafico) (e : Etapa) : M unit :=
  match falla env g with
  | Some e' => if etapa_eqb e e'
               then raise (Py.ErrorDeBiblioteca "ChartError") else ret tt
  | None => ret tt
  end.

(** [plt.subplots], [ax.pie] or [ax.barh], titles and labels. *)
Definition dibujar (env : Entorno) (g : Grafico) : M unit := paso env g AlDibujar.

(** [plt.savefig(tmp_path, ...)] then [plt.close()]. *)
Definition savefig (env : Entorno) (g : Grafico) (ruta : nat) : M unit :=
  paso env g AlGuardar.

(** [pdf.image(tmp_path, x=..., w=...)] *)
Definition image_archivo (env : Entorno) (g : Grafico) (ruta : nat) (f : Figura)
  (x' : Z) (y' : PosY) (w : Z) : M unit :=
  paso env g AlInsertar ;; image (ImgArchivo ruta f) x' y' w.

Definition secciones_json (est : EstadisticasJson) : Py.dict DatosSeccion :=
  Py.get_or (j_secciones est) [].

Definition suma (campo : DatosSeccion -> option Z) (est : EstadisticasJson) : Z :=
  Py.sum (map (fun d => Py.get_or (campo d) 0) (Py.values (secciones_json est))).

(** *** Header: the two logo slots and the title *)

(** One logo slot: nothing is drawn when no file was uploaded; an upload
    that cannot be processed is replaced by [alternativo] as plain text. *)
Definition logo (env : Entorno) (nombre : string) (subido : option Upload)
  (x' : Z) (alternativo : Texto) : M unit :=
  match subido with
  | None => ret tt
  | Some u =>
      try_except
        (img <- procesar_imagen env u ;;
         image img x' (YFijo 8) 30)
        (fun e =>
           print ("Error procesando logo " ++ nombre ++ ": ") e ;;
           text env x' 10 alternativo)
  end.

Definition encabezado (env : Entorno) (empresa : EmpresaJson)
  (logo_empresa logo_sesaco : option Upload) : M unit :=
  set_y 10 ;;
  logo env "SESACO" logo_sesaco 10 (T "SESACO") ;;
  logo env "empresa" logo_empresa 170
       (T (Py.get_or (e_razon_social empresa) "EMPRESA")) ;;
  cell env 0 10 (T "INFORME DE VERIFICACIÓN SST") LMARGIN ;;
  cell env 0 8 (T (Py.get_or (e_razon_social empresa) "")) LMARGIN ;;
  cell env 0 8 (TCat (T "RUC: ") (T (Py.get_or (e_ruc empresa) ""))) LMARGIN ;;
  ln 10.

(** *** General information *)

Definition info_data (empresa : EmpresaJson) (user : UserInfo)
  : list (string * Texto) :=
  [ ("Fecha de Inspección", THoy);
    ("Dirección", T (Py.get_or (e_direccion empresa) "N/A"));
    ("Actividad Económica", T (Py.get_or (e_actividad_economica empresa) "N/A"));
    ("Total Trabajadores",
     match e_total_trabajadores empresa with
     | Some n => TInt n
     | None => T "N/A"
     end);
    ("Tipo de Empresa", T (Py.get_or (e_tipo empresa) "N/A"));
    ("Inspector", T (Py.get_or (u_nombre user) "N/A"));
    ("Cédula Inspector", T (Py.get_or (u_cedula user) "N/A")) ].

Definition informacion_general (env : Entorno) (empresa : EmpresaJson)
  (user : UserInfo) : M unit :=
  cell env 0 8 (T "INFORMACIÓN GENERAL") LMARGIN ;;
  cell env 60 8 (T "Campo") RIGHT ;;
  cell env 0 8 (T "Valor") LMARGIN ;;
  for_each (info_data empresa user)
    (fun item => cell env 60 8 (T (fst item)) RIGHT ;;
                 multi_cell env 0 8 (snd item) LMARGIN) ;;
  ln 10.

(** *** Chart blocks *)

(** The [try]/[except] block around one chart: the figure is drawn, saved
    to a fresh temporary file, embedded, and the file is unlinked; any
    failure on the way is replaced by a line of text, after which the
    cursor is left at the right margin. *)
Definition cuerpo_grafico (env : Entorno) (g : Grafico) (f : M Figura)
  (x' : Z) (y' : PosY) (w : Z) (despues : M unit) : M unit :=
  fig <- f ;;
  dibujar env g ;;
  tmp_path <- NamedTemporaryFile ;;
  savefig env g tmp_path ;;
  image_archivo env g tmp_path fig x' y' w ;;
  despues ;;
  unlink tmp_path.

Definition bloque_grafico (env : Entorno) (g : Grafico) (f : M Figura)
  (x' : Z) (y' : PosY) (w : Z) (despues : M unit)
  (aviso_log : string) (aviso_pdf : string) : M unit :=
  try_except
    (cuerpo_grafico env g f x' y' w despues)
    (fun e =>
       print (aviso_log ++ ": ") e ;;
       multi_cell env 0 5 (T aviso_pdf) RIGHT).

Definition figura_resumen (est : EstadisticasJson) : Figura :=
  FigPie [suma d_cumple est; suma d_no_cumple est; suma d_no_aplica est]
         (T "Distribución General de Cumplimiento").

(** The loop that fills [secciones] and [porcentajes] for the bar chart. *)
Fixpoint series_barras (l : Py.dict DatosSeccion) : M (list Texto * list Py.float) :=
  match l with
  | [] => ret ([], [])
  | (s, d) :: l' =>
      q <- evaluar (porcentaje d) ;;
      r <- series_barras l' ;;
      ret (TTitle s :: fst r, q :: snd r)
  end.

Definition figura_barras (est : EstadisticasJson) : M Figura :=
  r <- series_barras (secciones_json est) ;;
  ret (FigBarras (fst r) (snd r)).

Definition figura_seccion (s : string) (d : DatosSeccion) : Figura :=
  FigPie [Py.get_or (d_cumple d) 0; Py.get_or (d_no_cumple d) 0;
          Py.get_or (d_no_aplica d) 0]
         (TCat (T "Distribución en ") (TEspacios s)).

(** *** Executive summary *)

Definition resumen_ejecutivo (env : Entorno) (est : EstadisticasJson) : M unit :=
  let cumplimiento := Py.get_or (j_cumplimiento_promedio est) 0%Q in
  let estado := estado_de cumplimiento in
  cell env 0 8 (T "RESUMEN EJECUTIVO") LMARGIN ;;
  cell env 0 8 (TCat (T "ESTADO GENERAL: ")
               (TCat (T (nombre_estado estado))
               (TCat (T " (") (TCat (TPct1 (Py.Finito cumplimiento)) (T "%)")))))
       LMARGIN ;;
  bloque_grafico env GResumen (ret (figura_resumen est)) 55 YAuto 100
    (ln 5 ;;
     cell env 0 5 (T "Figura 1: Distribución general de cumplimiento") LMARGIN)
    "Error al generar gráfico" "No se pudo generar el gráfico de resumen" ;;
  multi_cell env 0 5
    (TCat (T (conclusion estado))
    (TCat (T " El nivel de cumplimiento general es ")
    (TCat (T (nombre_estado_lower estado))
    (TCat (T " con un ") (TCat (TPct1 (Py.Finito cumplimiento))
    (TCat (T "% de conformidad. Se evaluaron ")
    (TCat (TInt (suma d_total est))
    (TCat (T " ítems en total, identificando ")
    (TCat (TInt (suma d_no_cumple est))
          (T " no conformidades que requieren atención."))))))))))
    RIGHT ;;
  ln 10.

(** *** Detailed statistics *)

Definition fila_tabla (env : Entorno) (s : string) (d : DatosSeccion)
  (q : Py.float) : M unit :=
  cell env 70 8 (TTitle s) RIGHT ;;
  cell env 30 8 (TInt (Py.get_or (d_total d) 0)) RIGHT ;;
  cell env 30 8 (TInt (Py.get_or (d_cumple d) 0)) RIGHT ;;
  cell env 30 8 (TInt (Py.get_or (d_no_cumple d) 0)) RIGHT ;;
  cell env 30 8 (TCat (TPct1 q) (T "%")) LMARGIN.

Definition estadisticas_detalladas (env : Entorno) (est : EstadisticasJson) : M unit :=
  cell env 0 8 (T "ESTADÍSTICAS DETALLADAS") LMARGIN ;;
  bloque_grafico env GBarras (figura_barras est) 30 YAuto 150
    (ln 5 ;;
     cell env 0 5 (T "Figura 2: Cumplimiento por área de verificación") LMARGIN)
    "Error al generar gráfico de barras" "No se pudo generar el gráfico por áreas" ;;
  cell env 70 8 (T "ÁREA") RIGHT ;;
  cell env 30 8 (T "TOTAL") RIGHT ;;
  cell env 30 8 (T "CUMPLE") RIGHT ;;
  cell env 30 8 (T "NO CUMPLE") RIGHT ;;
  cell env 30 8 (T "% CUMPL.") LMARGIN ;;
  for_each (secciones_json est)
    (fun sd => q <- evaluar (porcentaje (snd sd)) ;;
               fila_tabla env (fst sd) (snd sd) q) ;;
  ln 10.

(** *** Detail per section *)

(** [p.get('observaciones')] is truthy. *)
Definition con_observaciones (p : PreguntaVerificacion) : option string :=
  match observaciones p with
  | Some "" => None
  | o => o
  end.

Definition preguntas_no_cumplen (preguntas : list PreguntaVerificacion)
  (s : string) : list PreguntaVerificacion :=
  filter (fun p => String.eqb (seccion p) s && respuesta_es NO_CUMPLE p) preguntas.

(** [enumerate(l, 1)] *)
Fixpoint enumerate {X} (n : Z) (l : list X) : list (Z * X) :=
  match l with
  | [] => []
  | x :: l' => (n, x) :: enumerate (n + 1) l'
  end.

(** One listed non-conformity: its two (or three) paragraphs are written
    one after the other, the cursor being left at the right margin by
    each. *)
Definition no_conformidad (env : Entorno) (ip : Z * PreguntaVerificacion) : M unit :=
  multi_cell env 0 6 (TCat (TInt (fst ip))
                     (TCat (T ". ") (T (pregunta (snd ip))))) RIGHT ;;
  multi_cell env 0 5 (TCat (T "Normativa: ") (T (normativa (snd ip)))) RIGHT ;;
  match con_observaciones (snd ip) with
  | Some o => multi_cell env 0 5 (TCat (T "Observación: ") (T o)) RIGHT
  | None => ret tt
  end ;;
  ln 2.

Definition no_conformidades (env : Entorno) (preguntas : list PreguntaVerificacion)
  (s : string) : M unit :=
  match preguntas_no_cumplen preguntas s with
  | [] => ret tt
  | l =>
      cell env 0 8 (TCat (T "No conformidades encontradas (")
                   (TCat (TInt (Z.of_nat (List.length l))) (T "):"))) LMARGIN ;;
      for_each (enumerate 1 l) (no_conformidad env)
  end.

(** [list(d.keys()).index(k)]: position of the first entry under [k]. *)
Fixpoint index (k : string) (ks : list string) : Z :=
  match ks with
  | [] => 0
  | k' :: ks' => if String.eqb k k' then 0 else 1 + index k ks'
  end.

(** The table of indicators of one section. *)
Definition indicadores (env : Entorno) (d : DatosSeccion) : M unit :=
  cell env 60 8 (T "INDICADOR") RIGHT ;;
  cell env 30 8 (T "VALOR") LMARGIN ;;
  cell env 60 8 (T "Total de ítems") RIGHT ;;
  cell env 30 8 (TInt (Py.get_or (d_total d) 0)) LMARGIN ;;
  cell env 60 8 (T "No aplica") RIGHT ;;
  cell env 30 8 (TInt (Py.get_or (d_no_aplica d) 0)) LMARGIN ;;
  cell env 60 8 (T "Ítems evaluados") RIGHT ;;
  cell env 30 8 (TInt (total_aplicable d)) LMARGIN ;;
  cell env 60 8 (T "Cumple") RIGHT ;;
  cell env 30 8 (TInt (Py.get_or (d_cumple d) 0)) LMARGIN ;;
  cell env 60 8 (T "No cumple") RIGHT ;;
  cell env 30 8 (TInt (Py.get_or (d_no_cumple d) 0)) LMARGIN ;;
  ln 5.

Definition detalle_seccion (env : Entorno) (est : EstadisticasJson)
  (preguntas : list PreguntaVerificacion) (sd : string * DatosSeccion) : M unit :=
  let s := fst sd in
  let d := snd sd in
  (if index s (Py.keys (secciones_json est)) >? 0 then add_page else ret tt) ;;
  cell env 0 8 (TUpper s) LMARGIN ;;
  q <- evaluar (porcentaje d) ;;
  bloque_grafico env (GSeccion s) (ret (figura_seccion s d)) 140 YActual 60
    (ret tt)
    "Error al generar gráfico de sección"
    "No se pudo generar el gráfico de esta sección" ;;
  cell env 0 8 (TCat (T "Porcentaje de cumplimiento: ")
               (TCat (TPct1 q) (T "%"))) LMARGIN ;;
  indicadores env d ;;
  no_conformidades env preguntas s ;;
  ln 5.

Definition detalle_por_seccion (env : Entorno) (est : EstadisticasJson)
  (preguntas : list PreguntaVerificacion) : M unit :=
  cell env 0 8 (T "DETALLE POR SECCIÓN") LMARGIN ;;
  for_each (secciones_json est) (detalle_seccion env est preguntas).

(** *** Closing blocks *)

Definition texto_recomendaciones (e : Estado) : string :=
  match e with
  | EXCELENTE =>
      "1. Mantener las buenas prácticas implementadas 2. Realizar revisiones periódicas del sistema de gestión 3. Continuar con el programa de capacitaciones 4. Documentar lecciones aprendidas 5. Considerar certificaciones voluntarias"
  | ACEPTABLE =>
      "1. Priorizar la corrección de las no conformidades críticas 2. Implementar un plan de mejora continua 3. Capacitar al personal en las áreas con menor cumplimiento 4. Programar una re-inspección en 3 meses 5. Asignar recursos específicos para las mejoras"
  | INSUFICIENTE =>
      "1. Elaborar un plan de acción correctivo urgente 2. Asignar recursos para abordar las deficiencias 3. Solicitar asesoría especializada si es necesario 4. Programar una re-inspección en 1 mes 5. Capacitar intensivamente al personal 6. Revisar asignación de responsabilidades"
  end.

(** [s or default] on text. *)
Definition o_bien (s default : string) : string :=
  match s with
  | "" => default
  | _ => s
  end.

(** The five lines under the rule: each cell leaves the cursor at its
    right end. *)
Definition pie (env : Entorno) : M unit :=
  line ;;
  ln 5 ;;
  cell env 0 5 (T "SESACO - Seguridad Industrial S.A.") RIGHT ;;
  ln 4 ;;
  cell env 0 5 (T "Teléfono: 0987497886 / 0984326251") RIGHT ;;
  ln 4 ;;
  cell env 0 5 (T "Quito - Ecuador") RIGHT ;;
  ln 4 ;;
  cell env 0 5 (T "Email: info@sesaco.com.ec") RIGHT ;;
  ln 4 ;;
  cell env 0 5 (T "www.sesaco.com.ec") RIGHT.

Definition cierre (env : Entorno) (empresa : EmpresaJson) (est : EstadisticasJson)
  (observaciones_generales : string) (user : UserInfo) : M unit :=
  let cumplimiento := Py.get_or (j_cumplimiento_promedio est) 0%Q in
  let estado := estado_de cumplimiento in
  add_page ;;
  cell env 0 8 (T "OBSERVACIONES GENERALES") LMARGIN ;;
  multi_cell env 0 5
    (T (o_bien observaciones_generales
               "No se registraron observaciones generales.")) RIGHT ;;
  ln 10 ;;
  cell env 0 8 (T "RECOMENDACIONES") LMARGIN ;;
  multi_cell env 0 5
    (T (texto_recomendaciones (recomendaciones_de cumplimiento))) RIGHT ;;
  ln 10 ;;
  cell env 0 8 (T "CONCLUSIONES") LMARGIN ;;
  multi_cell env 0 5
    (TCat (T "De acuerdo a los resultados obtenidos en la verificación, el nivel de cumplimiento general de ")
    (TCat (T (Py.get_or (e_razon_social empresa) ""))
    (TCat (T " con las normativas de seguridad y salud en el trabajo es ")
    (TCat (T (nombre_estado_lower estado))
    (TCat (T " (") (TCat (TPct1 (Py.Finito cumplimiento)) (TCat (T "%). ")
    (TCat (T (conclusion estado))
          (T " Se recomienda dar seguimiento a las acciones correctivas identificadas y mantener un proceso de mejora continua en el sistema de gestión de seguridad y salud ocupacional.")))))))))
    RIGHT ;;
  ln 15 ;;
  cell env 0 8 (T "FIRMA Y SELLO DEL INSPECTOR") LMARGIN ;;
  ln 20 ;;
  cell env 80 8 (TCat (T "Nombre: ") (T (Py.get_or (u_nombre user) ""))) LMARGIN ;;
  cell env 80 8 (T "Cédula: _________________________") LMARGIN ;;
  cell env 80 8 (T "Firma:  _________________________") LMARGIN ;;
  ln 20 ;;
  cell env 0 8 (TCat (T "Fecha: ") THoy) LMARGIN ;;
  ln 30 ;;
  pie env.

(** *** The whole report *)

(** What follows the header. *)
Definition resto (env : Entorno) (empresa : EmpresaJson) (est : EstadisticasJson)
  (preguntas : list PreguntaVerificacion) (observaciones_generales : string)
  (user : UserInfo) : M unit :=
  informacion_general env empresa user ;;
  resumen_ejecutivo env est ;;
  estadisticas_detalladas env est ;;
  detalle_por_seccion env est preguntas ;;
  cierre env empresa est observaciones_generales user.

(** The body of the outer [try]. *)
Definition cuerpo (env : Entorno) (empresa : EmpresaJson) (est : EstadisticasJson)
  (preguntas : list PreguntaVerificacion) (observaciones_generales : string)
  (logo_empresa logo_sesaco : option Upload) (user : UserInfo) : M unit :=
  nuevo_pdf ;;
  add_page ;;
  encabezado env empresa logo_empresa logo_sesaco ;;
  resto env empresa est preguntas observaciones_generales user.

(** The handler of the outer [try]: a one-page error notice. *)
Definition pdf_de_error (env : Entorno) (e : Py.excepcion) : M unit :=
  print "Error grave al generar PDF: " e ;;
  nuevo_pdf ;;
  add_page ;;
  cell env 0 10 (T "Error al generar el reporte") LMARGIN ;;
  cell env 0 10 (TCat (T "Detalles: ") (TStr100 e)) LMARGIN.

(** [generate_pdf_report]: the finished document ([pdf.output]) and the
    state the call leaves behind; an exception of the handler leaves the
    function. *)
Definition generate_pdf_report (env : Entorno) (empresa : EmpresaJson)
  (est : EstadisticasJson) (preguntas : list PreguntaVerificacion)
  (observaciones_generales : string)
  (logo_empresa logo_sesaco : option Upload) (user : UserInfo)
  (w : Mundo) : Py.salida (list Op) * Mundo :=
  (try_except
     (cuerpo env empresa est preguntas observaciones_generales
             logo_empresa logo_sesaco user)
     (pdf_de_error env) ;;
   (fun w' => (Py.Val (pdf w'), w'))) w.

(** The one-page error notice. *)
Definition aviso_de_error (e : Py.excepcion) : list Op :=
  [ OpAddPage;
    OpCell 0 10 (T "Error al generar el reporte");
    OpCell 0 10 (TCat (T "Detalles: ") (TStr100 e)) ].



Definition mundo_inicial : Mundo :=
  {| pdf := []; abscisa := l_margin; archivos := []; siguiente := 0; stdout := [] |}.

(** Every library call works, and case mappings keep text in latin-1. *)
Definition todo_bien : Entorno :=
  {| decodifica := fun _ => true; falla := fun _ => None;
     title_latin1 := fun _ => true; upper_latin1 := fun _ => true |}.

End Render.

(** ** The section percentage on the page: [reportes_page]

    The bar chart and the table of sections that the page shows under
    the report downloads compute the percentage of each section as the
    PDF does. *)

Module Pagina.

(** A row of [secciones_data]. *)
Record FilaSeccion := {
  f_seccion : Render.Texto;
  f_total : Z;
  f_cumple : Z;
  f_no_cumple : Z;
  f_no_aplica : Z;
  f_porcentaje : Render.Texto       (* f"{porcentaje:.1f}%" *)
}.


(** The loop that fills [secciones] and [porcentajes]. *)
Fixpoint series_barras (l : Py.dict DatosSeccion)
  : Py.salida (list Render.Texto * list Py.float) :=
  match l with
  | [] => Py.Val ([], [])
  | (s, d) :: l' =>
      match porcentaje d with
      | Py.Exc e => Py.Exc e
      | Py.Val q =>
          match series_barras l' with
          | Py.Exc e => Py.Exc e
          | Py.Val r => Py.Val (Render.TTitle s :: fst r, q :: snd r)
          end
      end
  end.




(** The row of a section with percentage [p]. *)
Definition fila_de (sd : string * DatosSeccion) (p : Py.float) : FilaSeccion :=
  {| f_seccion := Render.TTitle (fst sd);
     f_total := Py.get_or (d_total (snd sd)) 0;
     f_cumple := Py.get_or (d_cumple (snd sd)) 0;
     f_no_cumple := Py.get_or (d_no_cumple (snd sd)) 0;
     f_no_aplica := Py.get_or (d_no_aplica (snd sd)) 0;
     f_porcentaje := Render.TCat (Render.TPct1 p) (Render.T "%") |}.

End Pagina.

(** ** The spreadsheet export of [reportes_page]

    The workbook is the data frame written to the sheet (a header row,
    then one row per entry of [data]) and the conditional formats
    registered on it.  Column widths are not modelled.  Which format a
    cell ends up with is decided by the spreadsheet application when the
    file is opened: a text rule with the criterion [containing] holds for
    a cell whose text contains the rule's value, letter case ignored; an
    empty cell has no text. *)

Module Excel.

Record Fila := {
  Seccion : Render.Texto;
  Categoria : string;
  Pregunta : string;
  Normativa : string;
  Cumplimiento : option string;
  Observaciones : option string
}.

(** The dict appended to [data] for one question. *)
Definition fila_de (p : PreguntaVerificacion) : Fila :=
  {| Seccion := Render.TTitle (seccion p);
     Categoria := categoria p;
     Pregunta := pregunta p;
     Normativa := normativa p;
     Cumplimiento := respuesta p;
     Observaciones := observaciones p |}.

Inductive Formato := format_green | format_red | format_gray.

(** [worksheet.conditional_format('E2:E1000', {...})] *)
Record Regla := {
  columna : string;
  primera_fila : Z;
  ultima_fila : Z;
  criteria : string;
  value : string;
  format : Formato
}.

Record Hoja := {
  columnas : list string;
  filas : list Fila;
  formatos_condicionales : list Regla
}.

(** [pd.DataFrame(data)]: the columns are the keys of the row dicts, so an
    empty [data] gives a frame without columns. *)
Definition columnas_de (data : list Fila) : list string :=
  match data with
  | [] => []
  | _ => ["Sección"; "Categoría"; "Pregunta"; "Normativa"; "Cumplimiento";
          "Observaciones"]
  end.

Definition exportar_excel (ultimo_formulario : FormularioVerificacion) : Hoja :=
  let data := map fila_de (preguntas ultimo_formulario) in
  {| columnas := columnas_de data;
     filas := data;
     formatos_condicionales :=
       [ {| columna := "E"; primera_fila := 2; ultima_fila := 1000;
            criteria := "containing"; value := CUMPLE; format := format_green |};
         {| columna := "E"; primera_fila := 2; ultima_fila := 1000;
            criteria := "containing"; value := NO_CUMPLE; format := format_red |};
         {| columna := "E"; primera_fila := 2; ultima_fila := 1000;
            criteria := "containing"; value := NO_APLICA; format := format_gray |} ] |}.

(** Letter case is ignored on the ASCII letters. *)
Definition minuscula (c : ascii) : ascii :=
  let n := nat_of_ascii c in
  if ((65 <=? n) && (n <=? 90))%nat then ascii_of_nat (n + 32) else c.

Fixpoint minusculas (s : string) : string :=
  match s with
  | EmptyString => EmptyString
  | String c s' => String (minuscula c) (minusculas s')
  end.

Definition contiene_texto (valor celda : string) : bool :=
  Py.contains (minusculas valor) (minusculas celda).

(** The sheet row of the [i]-th data row: row 1 holds the header. *)
Definition fila_hoja (i : nat) : Z := Z.of_nat i + 2.

(** The rule holds for the status cell (column E) of data row [i]. *)
Definition dispara (r : Regla) (i : nat) (celda : option string) : bool :=
  String.eqb (columna r) "E" &&
  (primera_fila r <=? fila_hoja i) && (fila_hoja i <=? ultima_fila r) &&
  match celda with
  | Some s => contiene_texto (value r) s
  | None => false
  end.

(** The formats of the rules that hold for data row [i]. *)
Definition estilos (h : Hoja) (i : nat) : list Formato :=
  match nth_error (filas h) i with
  | Some f => map format (filter (fun r => dispara r i (Cumplimiento f))
                                 (formatos_condicionales h))
  | None => []
  end.

End Excel.

(** A form with a single question left without a selection, as the
    checklist page submits it. *)
Definition visita_no_seleccionado : FormularioVerificacion :=
  formulario_demo 1 [pregunta_demo 1 "A" (Some NO_SELECCIONADO)].


Definition visita_tres_respuestas : FormularioVerificacion :=
  formulario_demo 1
    [pregunta_demo 1 "A" (Some CUMPLE); pregunta_demo 2 "A" (Some NO_CUMPLE);
     pregunta_demo 3 "B" (Some NO_APLICA)].

(** A visit without non-conformities: section A with two compliant
    answers and one that is not applicable, section B with one compliant
    answer. *)
Definition visita_conforme : FormularioVerificacion :=
  formulario_demo 1
    [pregunta_demo 1 "A" (Some CUMPLE); pregunta_demo 2 "A" (Some CUMPLE);
     pregunta_demo 3 "A" (Some NO_APLICA); pregunta_demo 4 "B" (Some CUMPLE)].
Definition db_conforme : Database := db_demo [("f1", visita_conforme)].

(** ** Vocabulary for the statements about the renderer *)

Module RenderSpec.
Import Render.




(** [m] never returns: it raises from every state. *)
Definition nunca_termina {A} (m : M A) : Prop :=
  forall w, exists e, fst (m w) = Py.Exc e.


(** When [m] returns, the calls it appended to the document are as [S]
    describes. *)
Definition escribe (S : list Op -> Prop) {A} (m : M A) : Prop :=
  forall w a, fst (m w) = Py.Val a ->
    exists ops, pdf (snd (m w)) = (pdf w ++ ops)%list /\ S ops.


(** The exceptions that can leave the body of the report. *)
Definition del_cuerpo (e : Py.excepcion) : Prop :=
  e = Py.FPDFException \/ e = Py.FPDFUnicodeEncodingException \/
  e = Py.OverflowError.



(** The calls of the header after the slots. *)
Definition titulo (empresa : EmpresaJson) : list Op :=
  [ OpCell 0 10 (T "INFORME DE VERIFICACIÓN SST");
    OpCell 0 8 (T (Py.get_or (e_razon_social empresa) ""));
    OpCell 0 8 (TCat (T "RUC: ") (T (Py.get_or (e_ruc empresa) "")));
    OpLn 10 ].









(** The summary chart cannot be embedded; everything else works. *)
Definition falla_al_insertar : Entorno :=
  {| decodifica := fun _ => true;
     falla := fun g => match g with
                       | GResumen => Some AlInsertar
                       | _ => None
                       end;
     title_latin1 := fun _ => true; upper_latin1 := fun _ => true |}.

(** The bar chart cannot be embedded; everything else works. *)
Definition fallan_las_barras : Entorno :=
  {| decodifica := fun _ => true;
     falla := fun g => match g with
                       | GBarras => Some AlInsertar
                       | _ => None
                       end;
     title_latin1 := fun _ => true; upper_latin1 := fun _ => true |}.

Definition usuario_demo : UserInfo :=
  {| u_nombre := Some "Inspector Principal"; u_cedula := Some "1722212253" |}.

(** The statistics of the report of [db_escenario_a]. *)
Definition estadisticas_demo : EstadisticasJson :=
  estadisticas_json
    {| total_verificaciones := 1; ultima_verificacion := Py.naive 1;
       cumplimiento_promedio := Py.binary64 (6667 # 100);
       secciones := secciones_de [visita_escenario_a] |}.

(** The statistics of the report of [db_conforme]. *)
Definition estadisticas_conforme : EstadisticasJson :=
  estadisticas_json
    {| total_verificaciones := 1; ultima_verificacion := Py.naive 1;
       cumplimiento_promedio := Py.binary64 75;
       secciones := secciones_de [visita_conforme] |}.






End RenderSpec.

(** ** The other endpoints of the backend *)

Module Backend.

Definition EMPRESA_YA_REGISTRADA : HTTPException :=
  {| status_code := 400; detail := "Empresa ya registrada" |}.

(** [GET /empresas/] *)
Definition listar_empresas (db : Database) : list Empresa :=
  Py.values (empresas db).

(** [GET /empresas/{ruc}] *)
Definition buscar_empresa (db : Database) (ruc' : string) : resultado Empresa :=
  match Py.get ruc' (empresas db) with
  | Some e => Ok e
  | None => Raise EMPRESA_NO_ENCONTRADA
  end.

(** [POST /empresas/]: the response and the database afterwards. *)
Definition crear_empresa (db : Database) (e : Empresa)
  : resultado Empresa * Database :=
  if Py.mem (ruc e) (empresas db)
  then (Raise EMPRESA_YA_REGISTRADA, db)
  else (Ok e, {| empresas := Py.set (ruc e) e (empresas db);
                 formularios := formularios db |}).

(** The body of [POST /formularios/] as a client sends it: [fecha] may be
    left out. *)
Record FormularioBody := {
  b_empresa_ruc : string;
  b_inspector_cedula : string;
  b_fecha : option Py.datetime;
  b_preguntas : list PreguntaVerificacion
}.

Section Formularios.

(** [datetime.isoformat], and the value of [datetime.now()] when the class
    [FormularioVerificacion] was defined: the default of its field [fecha]
    is computed once, at start-up. *)
Variable isoformat : Py.datetime -> string.
Variable fecha_por_defecto : Py.datetime.

(** The model object built from the request body; a missing [fecha]
    takes the default. *)
Definition parsear_formulario (b : FormularioBody) : FormularioVerificacion :=
  {| empresa_ruc := b_empresa_ruc b;
     inspector_cedula := b_inspector_cedula b;
     fecha := Py.get_or (b_fecha b) fecha_por_defecto;
     preguntas := b_preguntas b |}.

(** [f"{formulario.empresa_ruc}_{formulario.fecha.isoformat()}"] *)
Definition formulario_id (f : FormularioVerificacion) : string :=
  empresa_ruc f ++ "_" ++ isoformat (fecha f).

(** [POST /formularios/]: the inspector is the caller, whatever the body
    says; the form is stored under its id, over any form already there. *)
Definition guardar_formulario (db : Database) (b : FormularioBody)
  (cedula : string) : FormularioVerificacion * Database :=
  let f := parsear_formulario b in
  let f' := {| empresa_ruc := empresa_ruc f; inspector_cedula := cedula;
               fecha := fecha f; preguntas := preguntas f |} in
  (f', {| empresas := empresas db;
          formularios := Py.set (formulario_id f') f' (formularios db) |}).

End Formularios.

(** [GET /formularios/{empresa_ruc}] *)
Definition obtener_formularios_empresa (db : Database) (empresa_ruc' : string)
  : list FormularioVerificacion :=
  filter (fun f => String.eqb (empresa_ruc f) empresa_ruc')
         (Py.values (formularios db)).

(** [GET /matriz-riesgos/{empresa_ruc}] *)
Definition obtener_matriz_riesgos (db : Database) (empresa_ruc' : string)
  : list FormularioVerificacion :=
  filter (fun f => String.eqb (empresa_ruc f) empresa_ruc')
         (Py.values (formularios db)).

(** *** Authentication *)

Record Usuario := {
  cedula : string;
  hashed_password : string;
  nombre : string;
  rol : string
}.

Record Token := {
  access_token : string;
  token_type : string;
  t_nombre : string;
  t_rol : string
}.

Definition CREDENCIALES_INCORRECTAS : HTTPException :=
  {| status_code := 401; detail := "Cédula o contraseña incorrecta" |}.
Definition USUARIO_NO_ENCONTRADO : HTTPException :=
  {| status_code := 404; detail := "Usuario no encontrado" |}.

Definition get_usuario (usuarios : Py.dict Usuario) (cedula' : string)
  : option Usuario :=
  Py.get cedula' usuarios.

Section Autenticacion.

(** [pwd_context.verify(plain_password, hashed_password)] *)
Variable verificar_password : string -> string -> bool.

(** [POST /token] *)
Definition login (usuarios : Py.dict Usuario) (username password : string)
  : resultado Token :=
  match get_usuario usuarios username with
  | None => Raise CREDENCIALES_INCORRECTAS
  | Some u =>
      if negb (verificar_password password (hashed_password u))
      then Raise CREDENCIALES_INCORRECTAS
      else Ok {| access_token := cedula u; token_type := "bearer";
                 t_nombre := nombre u; t_rol := rol u |}
  end.

End Autenticacion.

(** [GET /usuarios/me]: the bearer token is read as a cédula. *)
Definition read_usuario_actual (usuarios : Py.dict Usuario) (token : string)
  : resultado Usuario :=
  match get_usuario usuarios token with
  | Some u => Ok u
  | None => Raise USUARIO_NO_ENCONTRADO
  end.

(** Every user is stored under their own cédula, as the initial
    [DATABASE] has it. *)
Definition usuarios_coherentes (usuarios : Py.dict Usuario) : Prop :=
  forall k u, Py.get k usuarios = Some u -> cedula u = k.

Definition usuarios_iniciales (hash : string) : Py.dict Usuario :=
  [("1722212253",
    {| cedula := "1722212253"; hashed_password := hash;
       nombre := "Inspector Principal"; rol := "admin" |})].

End Backend.

(** ** The structure of the checklist: [obtener_estructura_formulario] *)

Module Estructura.

(** [cargar_preguntas()["preguntas"]]: the questions of the JSON file, and
    none when the file is missing ([None]). *)
Definition cargar_preguntas (archivo : option (list PreguntaVerificacion))
  : list PreguntaVerificacion :=
  match archivo with
  | Some qs => qs
  | None => []
  end.

(** sections -> categories -> questions *)
Definition estructura_t : Type := Py.dict (Py.dict (list PreguntaVerificacion)).

(** Body of [for p in preguntas]. *)
Definition agregar_pregunta (estructura : estructura_t) (p : PreguntaVerificacion)
  : estructura_t :=
  let e1 := if negb (Py.mem (seccion p) estructura)
            then Py.set (seccion p) [] estructura else estructura in
  let e2 := Py.modify (seccion p)
              (fun cats => if negb (Py.mem (categoria p) cats)
                           then Py.set (categoria p) [] cats else cats) e1 in
  Py.modify (seccion p)
    (Py.modify (categoria p) (fun l => (l ++ [p])%list)) e2.

Definition obtener_estructura_formulario
  (archivo : option (list PreguntaVerificacion)) : estructura_t :=
  fold_left agregar_pregunta (cargar_preguntas archivo) [].

(** [estructura[s][c]], when both keys are there. *)
Definition grupo (s c : string) (estructura : estructura_t)
  : option (list PreguntaVerificacion) :=
  match Py.get s estructura with
  | Some cats => Py.get c cats
  | None => None
  end.

Definition en_grupo (s c : string) (p : PreguntaVerificacion) : bool :=
  String.eqb (seccion p) s && String.eqb (categoria p) c.

(** The number of questions held in the whole structure. *)
Definition cuantas (estructura : estructura_t) : Z :=
  Py.total_de (Py.total_de (fun l : list PreguntaVerificacion =>
                              Z.of_nat (List.length l))) estructura.

(** What one round of the loop does to the category dict of the
    question's section: an entry for the category made sure of, then the
    question appended to it. *)
Definition anotar (p : PreguntaVerificacion)
  (cats : Py.dict (list PreguntaVerificacion)) : Py.dict (list PreguntaVerificacion) :=
  Py.modify (categoria p) (fun l => (l ++ [p])%list)
    (if negb (Py.mem (categoria p) cats) then Py.set (categoria p) [] cats else cats).

End Estructura.

(** ** [safe_text]

    Text is a list of code points here, since the function cuts by
    characters and replaces characters outside ASCII. *)

Module SafeText.

Definition str : Type := list N.

(** The [replacements] dict, in its order: accented letters and their
    plain counterparts. *)
Definition replacements : list (N * N) :=
  [ (225, 97); (233, 101); (237, 105); (243, 111); (250, 117);
    (193, 65); (201, 69); (205, 73); (211, 79); (218, 85);
    (241, 110); (209, 78); (252, 117); (220, 85) ]%N.

(** [text.replace(orig, repl)] for one-character [orig] and [repl]. *)
Definition replace (orig repl : N) (text : str) : str :=
  map (fun c => if (c =? orig)%N then repl else c) text.

(** The characters [str.strip()] removes. *)
Definition isspace (c : N) : bool :=
  ((9 <=? c) && (c <=? 13) || (28 <=? c) && (c <=? 32) ||
   (c =? 133) || (c =? 160) || (c =? 5760) ||
   (8192 <=? c) && (c <=? 8202) || (c =? 8232) || (c =? 8233) ||
   (c =? 8239) || (c =? 8287) || (c =? 12288))%N.

Fixpoint lstrip (text : str) : str :=
  match text with
  | [] => []
  | c :: rest => if isspace c then lstrip rest else text
  end.

Definition rstrip (text : str) : str := rev (lstrip (rev text)).

Definition strip (text : str) : str := lstrip (rstrip text).

(** [text[:n]]: the first [n] characters, or all but the last [-n] when [n]
    is negative. *)
Definition hasta (n : Z) (text : str) : str :=
  if n <? 0
  then firstn (Z.to_nat (Z.of_nat (List.length text) + n)) text
  else firstn (Z.to_nat n) text.

(** [None] gives the empty text; the [except] branch is not reached for
    text. *)
Definition safe_text (text : option str) (max_length : Z) : str :=
  match text with
  | None => []
  | Some t =>
      let t' := fold_left (fun acc kv => replace (fst kv) (snd kv) acc)
                          replacements t in
      strip (hasta max_length t')
  end.

(** The letter is one of those the table replaces. *)
Definition acentuada (c : N) : bool :=
  existsb (fun kv => (c =? fst kv)%N) replacements.

(** What the table does to one character. *)
Definition sin_acento (c : N) : N :=
  fold_left (fun c kv => if (c =? fst kv)%N then snd kv else c) replacements c.

End SafeText.

(** ** Submitting the checklist: [formulario_verificacion_page]

    The part of the page that runs when the form is submitted.  Widget
    keys and question ids are taken to be ASCII text. *)

Module Formulario.

Record PreguntaCatalogo := {
  q_id : string;
  q_normativa : string;
  q_pregunta : string;
  q_requisitos : string
}.

Record SeccionCatalogo := {
  title : string;
  questions : list PreguntaCatalogo
}.

(** [PREGUNTAS_SST]: section name -> title and questions. *)
Definition catalogo : Type := Py.dict SeccionCatalogo.

(** [st.session_state]: the value of each widget by its key; a radio
    without a selection holds [None]. *)
Definition session_state : Type := Py.dict (option string).

(** [st.session_state.get(key, default)] *)
Definition session_get (ses : session_state) (key default : string)
  : option string :=
  match Py.get key ses with
  | Some v => v
  | None => Some default
  end.

(** [str.isdigit] on an ASCII character. *)
Definition isdigit (c : ascii) : bool :=
  let n := nat_of_ascii c in ((48 <=? n) && (n <=? 57))%nat.

(** [''.join(filter(str.isdigit, s))] *)
Fixpoint solo_digitos (s : string) : string :=
  match s with
  | EmptyString => EmptyString
  | String c s' => if isdigit c then String c (solo_digitos s')
                   else solo_digitos s'
  end.

(** The value of a string of decimal digits, read from the left. *)
Fixpoint valor (s : string) (acc : Z) : Z :=
  match s with
  | EmptyString => acc
  | String c s' => valor s' (10 * acc + Z.of_nat (nat_of_ascii c - 48))
  end.

(** [int(s)] on a string of digits: [None] is the [ValueError] raised for
    the empty string and for more digits than the interpreter converts
    (4300). *)
Definition int_de_digitos (s : string) : option Z :=
  match s with
  | EmptyString => None
  | _ => if (4300 <? String.length s)%nat then None else Some (valor s 0)
  end.

(** [int(''.join(filter(str.isdigit, pregunta["id"])))] *)
Definition id_numerico (id' : string) : option Z :=
  int_de_digitos (solo_digitos id').

(** One entry of [preguntas_respuestas]. *)
Definition construir_pregunta (ses : session_state) (seccion' : string)
  (datos_seccion : SeccionCatalogo) (p : PreguntaCatalogo)
  : option PreguntaVerificacion :=
  let respuesta' := session_get ses ("opcion_" ++ q_id p) "No seleccionado" in
  match id_numerico (q_id p) with
  | None => None
  | Some n =>
      Some {| id := n;
              seccion := seccion';
              categoria := title datos_seccion;
              pregunta := q_pregunta p;
              normativa := q_normativa p;
              respuesta := respuesta';
              observaciones := session_get ses ("obs_" ++ q_id p) "" |}
  end.

(** A loop that stops at the first exception. *)
Fixpoint recorrer {A B} (f : A -> option B) (l : list A) : option (list B) :=
  match l with
  | [] => Some []
  | x :: l' =>
      match f x with
      | None => None
      | Some y => match recorrer f l' with
                  | None => None
                  | Some ys => Some (y :: ys)
                  end
      end
  end.

(** The two nested loops over [PREGUNTAS_SST.items()]. *)
Definition preguntas_respuestas (ses : session_state) (cat : catalogo)
  : option (list PreguntaVerificacion) :=
  match recorrer (fun kv => recorrer (construir_pregunta ses (fst kv) (snd kv))
                                     (questions (snd kv))) cat with
  | None => None
  | Some grupos => Some (List.concat grupos)
  end.

(** The JSON body posted to [/formularios/]: it carries no date. *)
Definition construir_formulario (ses : session_state) (cat : catalogo)
  (empresa_ruc' cedula' : string) : option Backend.FormularioBody :=
  match preguntas_respuestas ses cat with
  | None => None
  | Some qs => Some {| Backend.b_empresa_ruc := empresa_ruc';
                       Backend.b_inspector_cedula := cedula';
                       Backend.b_fecha := None;
                       Backend.b_preguntas := qs |}
  end.

(** Every id of the catalog has a digit, and not too many. *)
Definition ids_validos (cat : catalogo) : Prop :=
  forall kv p, In kv cat -> In p (questions (snd kv)) ->
               exists n, id_numerico (q_id p) = Some n.

(** No radio of the catalog has a selection. *)
Definition sin_seleccion (ses : session_state) (cat : catalogo) : Prop :=
  forall kv p, In kv cat -> In p (questions (snd kv)) ->
               Py.get ("opcion_" ++ q_id p) ses = None \/
               Py.get ("opcion_" ++ q_id p) ses = Some None.

(** The number of questions the catalog lists under sections named [s]. *)
Definition preguntas_en (s : string) (cat : catalogo) : Z :=
  Py.sum (map (fun kv => if String.eqb (fst kv) s
                         then Z.of_nat (List.length (questions (snd kv)))
                         else 0) cat).

Definition catalogo_demo : catalogo :=
  [ ("Gestion Administrativa",
     {| title := "Gestión Administrativa";
        questions := [ {| q_id := "ga1"; q_normativa := "Art. 4";
                          q_pregunta := "¿Cuenta con responsable?";
                          q_requisitos := "" |};
                       {| q_id := "ga2"; q_normativa := "Art. 5";
                          q_pregunta := "¿Cuenta con reglamento?";
                          q_requisitos := "" |} ] |});
    ("Gestion Tecnica",
     {| title := "Gestión Técnica";
        questions := [ {| q_id := "gt1"; q_normativa := "Art. 9";
                          q_pregunta := "¿Cuenta con matriz?";
                          q_requisitos := "" |} ] |}) ].

End Formulario.

(** ** Vocabulary for the statements about temporary files *)

Module Archivos.
Import Render.

(** Every file on disk was named before: the next temporary name is new. *)
Definition fresco (w : Mundo) : Prop :=
  Forall (fun n => (n < siguiente w)%nat) (archivos w).

(** No chart fails once its temporary file exists. *)
Definition sin_fallo_tardio (env : Entorno) : Prop :=
  forall g, falla env g = None \/ falla env g = Some AlDibujar.

(** [m] neither creates nor removes a file. *)
Definition inerte {A} (m : M A) : Prop :=
  forall w, archivos (snd (m w)) = archivos w /\
            siguiente (snd (m w)) = siguiente w.

(** [m] returns normally and neither creates nor removes a file. *)
Definition quieto (m : M unit) : Prop :=
  forall w, fst (m w) = Py.Val tt /\
            archivos (snd (m w)) = archivos w /\
            siguiente (snd (m w)) = siguiente w.

(** [m] removes no file that was there, leaves behind only files it
    created, and leaves none when [ok] holds. *)
Definition deja (ok : Prop) {A} (m : M A) : Prop :=
  forall w, fresco w ->
    exists nuevos,
      archivos (snd (m w)) = (archivos w ++ nuevos)%list /\
      Forall (fun n => (siguiente w <= n < siguiente (snd (m w)))%nat) nuevos /\
      (siguiente w <= siguiente (snd (m w)))%nat /\
      (ok -> nuevos = []).

End Archivos.

(** ** Facts about the insertion-ordered dict *)

Module PyFacts.
Import Py.

Section Dict.
Variable V : Type.
Implicit Types (d : dict V) (k : string) (v : V) (f : V -> V).

Lemma get_set_eq k v d : get k (set k v d) = Some v.
Proof.
  induction d as [|[k' v'] d IH]; simpl.
  - now rewrite String.eqb_refl.
  - destruct (String.eqb k k') eqn:E; simpl; rewrite E; auto.
Qed.

Lemma get_set_neq k k' v d : k <> k' -> get k (set k' v d) = get k d.
Proof.
  intros N. induction d as [|[k0 v0] d IH]; simpl.
  - apply String.eqb_neq in N. now rewrite N.
  - destruct (String.eqb k' k0) eqn:E; simpl.
    + apply String.eqb_eq in E; subst k0.
      apply String.eqb_neq in N. now rewrite N.
    + now rewrite IH.
Qed.

Lemma get_modify_eq k f d : get k (modify k f d) = option_map f (get k d).
Proof.
  induction d as [|[k' v'] d IH]; simpl; auto.
  destruct (String.eqb k k') eqn:E; simpl; rewrite E; auto.
Qed.

Lemma get_modify_neq k k' f d : k <> k' -> get k (modify k' f d) = get k d.
Proof.
  intros N. induction d as [|[k0 v0] d IH]; simpl; auto.
  destruct (String.eqb k' k0) eqn:E; simpl.
  - apply String.eqb_eq in E; subst k0.
    apply String.eqb_neq in N. now rewrite N.
  - now rewrite IH.
Qed.

Lemma modify_modify k f g d :
  modify k f (modify k g d) = modify k (fun v => f (g v)) d.
Proof.
  induction d as [|[k' v'] d IH]; simpl; auto.
  destruct (String.eqb k k') eqn:E; simpl; rewrite E; congruence.
Qed.

Lemma mem_set k v d : mem k (set k v d) = true.
Proof. unfold mem. now rewrite get_set_eq. Qed.

Lemma Forall_set (P : V -> Prop) k v d :
  P v -> Forall (fun kv => P (snd kv)) d ->
  Forall (fun kv => P (snd kv)) (set k v d).
Proof.
  intros Pv H. induction H as [|[k' v'] d Hx Hd IH]; simpl.
  - now repeat constructor.
  - destruct (String.eqb k k'); constructor; auto.
Qed.

Lemma Forall_modify (P : V -> Prop) k f d :
  (forall v, P v -> P (f v)) -> Forall (fun kv => P (snd kv)) d ->
  Forall (fun kv => P (snd kv)) (modify k f d).
Proof.
  intros Pf H. induction H as [|[k' v'] d Hx Hd IH]; simpl.
  - constructor.
  - destruct (String.eqb k k'); constructor; simpl in *; auto.
Qed.

Lemma total_de_set_new (g : V -> Z) k v d :
  mem k d = false -> total_de g (set k v d) = total_de g d + g v.
Proof.
  unfold mem, total_de, values.
  induction d as [|[k' v'] d IH]; simpl; intros M.
  - lia.
  - destruct (String.eqb k k') eqn:E; [discriminate|].
    simpl. rewrite IH by exact M. lia.
Qed.

Lemma total_de_modify (g : V -> Z) (delta : Z) k f d :
  mem k d = true -> (forall v, g (f v) = g v + delta) ->
  total_de g (modify k f d) = total_de g d + delta.
Proof.
  unfold mem, total_de, values.
  induction d as [|[k' v'] d IH]; simpl; intros M G.
  - discriminate.
  - destruct (String.eqb k k') eqn:E; simpl.
    + rewrite G. lia.
    + rewrite IH by assumption. lia.
Qed.

Lemma mem_modify k k' f d : mem k (modify k' f d) = mem k d.
Proof.
  unfold mem. destruct (string_dec k k') as [->|N].
  - rewrite get_modify_eq. now destruct (get k' d).
  - now rewrite get_modify_neq.
Qed.

End Dict.

(** [a > b] is decided on the points of time, between dates of one kind. *)
Lemma datetime_gt_instante (a b : datetime) (r : bool) :
  datetime_gt a b = Some r -> r = (instante b <? instante a).
Proof.
  unfold datetime_gt, instante.
  destruct (utcoffset a), (utcoffset b); cbn [get_or]; intros [= <-];
    now rewrite ?Z.sub_0_r.
Qed.

Lemma datetime_gt_aware (a b : datetime) (r : bool) :
  datetime_gt a b = Some r -> aware a = aware b.
Proof.
  unfold datetime_gt, aware.
  destruct (utcoffset a), (utcoffset b); intros [= <-]; reflexivity.
Qed.

Lemma datetime_gt_Some (a b : datetime) :
  aware a = aware b -> exists r, datetime_gt a b = Some r.
Proof.
  unfold datetime_gt, aware.
  destruct (utcoffset a), (utcoffset b); intros H; try discriminate;
    eexists; reflexivity.
Qed.

(** The maximum is found exactly when every date is of the kind of the
    first. *)
Lemma max_desde_Some (l : list datetime) :
  forall m,
    (forall d, In d l -> aware d = aware m) ->
    exists u, max_desde m l = Some u /\ In u (m :: l) /\
              instante m <= instante u /\
              (forall d, In d l -> instante d <= instante u).
Proof.
  induction l as [|d l IH]; intros m H.
  - exists m. cbn. repeat split; [now left|lia|contradiction].
  - cbn [max_desde].
    destruct (datetime_gt_Some d m (H d (or_introl eq_refl))) as [r G].
    rewrite G. pose proof (datetime_gt_instante _ _ _ G) as R.
    destruct r.
    + destruct (IH d) as (u & M & I & L & A).
      { intros d' Hd'. rewrite (H d' (or_intror Hd')).
        symmetry. apply H. now left. }
      symmetry in R. apply Z.ltb_lt in R.
      exists u. split; [exact M|]. split; [now right|]. split; [lia|].
      intros d' [<-|Hd']; [exact L|now apply A].
    + destruct (IH m) as (u & M & I & L & A).
      { intros d' Hd'. apply H. now right. }
      symmetry in R. apply Z.ltb_ge in R.
      exists u. split; [exact M|].
      split; [destruct I as [I|I]; [now left|right; now right]|].
      split; [exact L|].
      intros d' [<-|Hd']; [lia|now apply A].
Qed.

Lemma max_desde_inv (l : list datetime) :
  forall m u, max_desde m l = Some u ->
              forall d, In d l -> aware d = aware m.
Proof.
  induction l as [|d l IH]; intros m u M d' Hd'; [contradiction|].
  cbn [max_desde] in M.
  destruct (datetime_gt d m) as [[|]|] eqn:G; [| |discriminate];
    pose proof (datetime_gt_aware _ _ _ G) as K;
    destruct Hd' as [<-|Hd']; try exact K.
  - rewrite <- K. now apply (IH d u).
  - now apply (IH m u).
Qed.

(** Two first items of one kind that stand for the same point of time
    lead to maxima of which one is found when the other is; this is the
    step of the proof for ordered histories, where the later item wins
    or ties. *)
Lemma max_desde_mismo_instante (l : list datetime) :
  forall a b,
    instante a = instante b -> aware a = aware b ->
    option_map instante (max_desde a l) = option_map instante (max_desde b l).
Proof.
  induction l as [|d l IH]; intros a b E K; [cbn; now rewrite E|].
  cbn [max_desde].
  destruct (datetime_gt d a) as [ra|] eqn:Ga, (datetime_gt d b) as [rb|] eqn:Gb.
  - pose proof (datetime_gt_instante _ _ _ Ga) as Ra.
    pose proof (datetime_gt_instante _ _ _ Gb) as Rb.
    rewrite E in Ra. rewrite <- Rb in Ra. subst rb.
    destruct ra; [reflexivity|now apply IH].
  - exfalso. pose proof (datetime_gt_aware _ _ _ Ga) as A.
    destruct (datetime_gt_Some d b) as [r G]; [congruence|congruence].
  - exfalso. pose proof (datetime_gt_aware _ _ _ Gb) as A.
    destruct (datetime_gt_Some d a) as [r G]; [congruence|congruence].
  - reflexivity.
Qed.

End PyFacts.

(** ** The aggregator loop *)

Module Agregador.
Import Py PyFacts.

Lemma contar_snoc P qs p :
  contar P (qs ++ [p]) = contar P qs + (if P p then 1 else 0).
Proof.
  unfold contar. rewrite filter_app, length_app. simpl.
  destruct (P p); simpl; lia.
Qed.

Lemma contar_nonneg P qs : 0 <= contar P qs.
Proof. unfold contar. lia. Qed.

Lemma contar_le_length P qs : contar P qs <= Z.of_nat (List.length qs).
Proof. unfold contar. pose proof (filter_length_le P qs). lia. Qed.

Lemma contar_absent (P Q : PreguntaVerificacion -> bool) qs :
  existsb P qs = false -> contar (fun p => P p && Q p) qs = 0.
Proof.
  unfold contar. induction qs as [|p qs IH]; simpl; auto.
  intros H. apply orb_false_iff in H as [Hp Hq].
  rewrite Hp. simpl. auto.
Qed.

Lemma contar_absent' P qs : existsb P qs = false -> contar P qs = 0.
Proof.
  unfold contar. induction qs as [|p qs IH]; simpl; auto.
  intros H. apply orb_false_iff in H as [Hp Hq]. rewrite Hp. auto.
Qed.

Lemma cuentas_absent s qs :
  existsb (en_seccion s) qs = false -> cuentas s qs = seccion_vacia.
Proof.
  intros H. unfold cuentas, seccion_vacia.
  rewrite (contar_absent' _ _ H), !(contar_absent _ _ _ H). reflexivity.
Qed.

(** The two literals tested by the chain are different strings, so the
    [elif] branch is reached by every [NO_CUMPLE] answer. *)
Lemma cumple_excluye_no_cumple p :
  respuesta_es CUMPLE p = true -> respuesta_es NO_CUMPLE p = false.
Proof.
  unfold respuesta_es. destruct (respuesta p) as [r|]; auto.
  intros H. apply String.eqb_eq in H. subst r. reflexivity.
Qed.

Lemma cuentas_snoc s qs p :
  cuentas s (qs ++ [p]) =
  if en_seccion s p then contar_en p (cuentas s qs) else cuentas s qs.
Proof.
  unfold cuentas, contar_en, es_otro. rewrite !contar_snoc.
  destruct (en_seccion s p); simpl.
  - destruct (respuesta_es CUMPLE p) eqn:C.
    + rewrite (cumple_excluye_no_cumple _ C). simpl.
      unfold inc_cumple, inc_total; simpl. f_equal; lia.
    + destruct (respuesta_es NO_CUMPLE p); simpl;
        unfold inc_no_cumple, inc_no_aplica, inc_total; simpl; f_equal; lia.
  - f_equal; lia.
Qed.

Lemma get_procesar_pregunta_otra s a p :
  seccion p <> s ->
  get s (acc_secciones (procesar_pregunta a p)) = get s (acc_secciones a).
Proof.
  intros N. assert (N' : s <> seccion p) by congruence.
  unfold procesar_pregunta; simpl.
  destruct (respuesta_es CUMPLE p); [|destruct (respuesta_es NO_CUMPLE p)];
    rewrite !get_modify_neq by exact N';
    destruct (negb (mem (seccion p) (acc_secciones a)));
    try rewrite get_set_neq by exact N'; reflexivity.
Qed.

Lemma get_procesar_pregunta_propia a p :
  get (seccion p) (acc_secciones (procesar_pregunta a p)) =
  Some (contar_en p (get_or (get (seccion p) (acc_secciones a)) seccion_vacia)).
Proof.
  unfold procesar_pregunta, contar_en, mem; simpl.
  destruct (respuesta_es CUMPLE p); [|destruct (respuesta_es NO_CUMPLE p)];
    rewrite !get_modify_eq;
    destruct (get (seccion p) (acc_secciones a)) as [v|] eqn:G; simpl;
    rewrite ?G, ?get_set_eq; reflexivity.
Qed.

(** The entry of a section after the loop has run over [qs]. *)
Lemma get_fold_procesar s qs :
  get s (acc_secciones (fold_left procesar_pregunta qs acumulador_inicial)) =
  resumen s qs.
Proof.
  induction qs as [|p qs IH] using rev_ind; [reflexivity|].
  rewrite fold_left_app.
  change (fold_left procesar_pregunta [p] ?a) with (procesar_pregunta a p).
  unfold resumen in *. rewrite existsb_app, cuentas_snoc.
  cbn [existsb]. rewrite orb_false_r.
  destruct (en_seccion s p) eqn:E; unfold en_seccion in E.
  - apply String.eqb_eq in E. subst s.
    rewrite get_procesar_pregunta_propia, IH, orb_true_r.
    destruct (existsb (en_seccion (seccion p)) qs) eqn:X; simpl; auto.
    now rewrite (cuentas_absent _ _ X).
  - apply String.eqb_neq in E.
    rewrite get_procesar_pregunta_otra by exact E.
    rewrite IH, orb_false_r. reflexivity.
Qed.

Lemma procesar_formularios_plano fs :
  procesar_formularios fs =
  fold_left procesar_pregunta (todas_las_preguntas fs) acumulador_inicial.
Proof.
  unfold procesar_formularios, todas_las_preguntas.
  generalize acumulador_inicial.
  induction fs as [|f fs IH]; simpl; intros a; auto.
  rewrite fold_left_app. apply IH.
Qed.

Lemma get_secciones_de s fs :
  get s (secciones_de fs) = resumen s (todas_las_preguntas fs).
Proof.
  unfold secciones_de. rewrite procesar_formularios_plano.
  apply get_fold_procesar.
Qed.

(** The two global counters. *)
Lemma contadores_fold qs :
  let a := fold_left procesar_pregunta qs acumulador_inicial in
  preguntas_totales a = Z.of_nat (List.length qs) /\
  cumplimientos_totales a = contar (respuesta_es CUMPLE) qs.
Proof.
  induction qs as [|p qs IH] using rev_ind; [split; reflexivity|].
  cbv zeta in *. rewrite fold_left_app, length_app, contar_snoc. simpl.
  destruct IH as [-> ->]. split; [lia|].
  destruct (respuesta_es CUMPLE p); lia.
Qed.

Lemma procesar_pregunta_contar_en a p :
  acc_secciones (procesar_pregunta a p) =
  modify (seccion p) (contar_en p)
    (if negb (mem (seccion p) (acc_secciones a))
     then set (seccion p) seccion_vacia (acc_secciones a)
     else acc_secciones a).
Proof.
  unfold procesar_pregunta, contar_en; simpl.
  destruct (respuesta_es CUMPLE p); [|destruct (respuesta_es NO_CUMPLE p)];
    now rewrite modify_modify.
Qed.

(** One iteration adds the question to the totals summed over sections. *)
Lemma totales_procesar_pregunta a p :
  let a' := procesar_pregunta a p in
  total_de total (acc_secciones a') = total_de total (acc_secciones a) + 1 /\
  total_de cumple (acc_secciones a') =
    total_de cumple (acc_secciones a) + (if respuesta_es CUMPLE p then 1 else 0).
Proof.
  cbv zeta. rewrite procesar_pregunta_contar_en.
  set (s0 := acc_secciones a).
  set (s1 := if negb (mem (seccion p) s0)
             then set (seccion p) seccion_vacia s0 else s0).
  assert (M1 : mem (seccion p) s1 = true).
  { subst s1. destruct (mem (seccion p) s0) eqn:M; simpl; auto.
    apply mem_set. }
  assert (T1 : forall g, g seccion_vacia = 0 -> total_de g s1 = total_de g s0).
  { intros g G. subst s1. destruct (mem (seccion p) s0) eqn:M; simpl; auto.
    rewrite total_de_set_new by exact M. lia. }
  assert (GT : forall v, total (contar_en p v) = total v + 1).
  { intros v. unfold contar_en.
    destruct (respuesta_es CUMPLE p); [|destruct (respuesta_es NO_CUMPLE p)];
      reflexivity. }
  assert (GC : forall v, cumple (contar_en p v) =
                         cumple v + (if respuesta_es CUMPLE p then 1 else 0)).
  { intros v. unfold contar_en.
    destruct (respuesta_es CUMPLE p); [|destruct (respuesta_es NO_CUMPLE p)];
      simpl; lia. }
  rewrite (@total_de_modify _ total _ _ _ _ M1 GT).
  rewrite (@total_de_modify _ cumple _ _ _ _ M1 GC).
  rewrite !T1 by reflexivity. split; reflexivity.
Qed.

(** The global counters are the per-section counters summed up. *)
Lemma totales_fold qs :
  let a := fold_left procesar_pregunta qs acumulador_inicial in
  total_de total (acc_secciones a) = preguntas_totales a /\
  total_de cumple (acc_secciones a) = cumplimientos_totales a.
Proof.
  induction qs as [|p qs IH] using rev_ind; [split; reflexivity|].
  cbv zeta in *. rewrite fold_left_app.
  change (fold_left procesar_pregunta [p] ?a) with (procesar_pregunta a p).
  destruct (totales_procesar_pregunta
              (fold_left procesar_pregunta qs acumulador_inicial) p) as [T C].
  destruct IH as [IT IC]. rewrite T, C, IT, IC.
  unfold procesar_pregunta; simpl. split; [lia|].
  destruct (respuesta_es CUMPLE p); lia.
Qed.

Lemma bien_formada_contar_en p d : bien_formada d -> bien_formada (contar_en p d).
Proof.
  unfold bien_formada, contar_en.
  destruct (respuesta_es CUMPLE p); [|destruct (respuesta_es NO_CUMPLE p)];
    simpl; lia.
Qed.

Lemma bien_formadas_fold qs :
  Forall (fun kv => bien_formada (snd kv))
    (acc_secciones (fold_left procesar_pregunta qs acumulador_inicial)).
Proof.
  induction qs as [|p qs IH] using rev_ind; [constructor|].
  rewrite fold_left_app.
  change (fold_left procesar_pregunta [p] ?a) with (procesar_pregunta a p).
  rewrite procesar_pregunta_contar_en.
  apply Forall_modify; [apply bien_formada_contar_en|].
  destruct (negb _); auto.
  apply Forall_set; auto. unfold bien_formada; simpl; lia.
Qed.

End Agregador.

(** ** Rounding *)

Module Redondeo.
Import Py.

Lemma round_half_even_bounds (q : Q) (lo hi : Z) :
  (inject_Z lo <= q)%Q -> (q <= inject_Z hi)%Q ->
  lo <= round_half_even q <= hi.
Proof.
  intros L H. unfold round_half_even.
  assert (Fl : lo <= Qfloor q).
  { rewrite <- (Qfloor_Z lo). now apply Qfloor_resp_le. }
  assert (Fh : Qfloor q <= hi).
  { rewrite <- (Qfloor_Z hi). now apply Qfloor_resp_le. }
  destruct (Qcompare (q - inject_Z (Qfloor q)) (1 # 2)) eqn:C; try lia.
  - destruct (Z.even (Qfloor q)); try lia.
    apply Qeq_alt in C.
    destruct (Z.eq_dec (Qfloor q) hi) as [E|]; [|lia].
    rewrite E in C. exfalso. lra.
  - apply Qgt_alt in C.
    destruct (Z.eq_dec (Qfloor q) hi) as [E|]; [|lia].
    rewrite E in C. exfalso. lra.
Qed.

Lemma round_half_even_le (q : Q) (hi : Z) :
  (q <= inject_Z hi)%Q -> round_half_even q <= hi.
Proof.
  intros H. unfold round_half_even.
  assert (Fh : Qfloor q <= hi).
  { rewrite <- (Qfloor_Z hi). now apply Qfloor_resp_le. }
  destruct (Qcompare (q - inject_Z (Qfloor q)) (1 # 2)) eqn:C; try lia.
  - destruct (Z.even (Qfloor q)); try lia.
    apply Qeq_alt in C.
    destruct (Z.eq_dec (Qfloor q) hi) as [E|]; [|lia].
    rewrite E in C. exfalso. lra.
  - apply Qgt_alt in C.
    destruct (Z.eq_dec (Qfloor q) hi) as [E|]; [|lia].
    rewrite E in C. exfalso. lra.
Qed.

Lemma round_half_even_ge (q : Q) (lo : Z) :
  (inject_Z lo <= q)%Q -> lo <= round_half_even q.
Proof.
  intros H. unfold round_half_even.
  assert (Fl : lo <= Qfloor q).
  { rewrite <- (Qfloor_Z lo). now apply Qfloor_resp_le. }
  destruct (Qcompare (q - inject_Z (Qfloor q)) (1 # 2)); try lia.
  destruct (Z.even (Qfloor q)); lia.
Qed.

Lemma pow2_pos (k : Z) : (0 < pow2 k)%Q.
Proof. apply Qpower_0_lt. reflexivity. Qed.

Lemma pow2_Z (k : Z) : 0 <= k -> (pow2 k == inject_Z (2 ^ k))%Q.
Proof. intros H. unfold pow2. now rewrite Zpower_Qpower. Qed.

Lemma pow2_resta (n m : Z) : (pow2 (n - m) == pow2 n / pow2 m)%Q.
Proof. unfold pow2. apply Qpower_minus. discriminate. Qed.

Lemma pow2_suma (n m : Z) : (pow2 (n + m) == pow2 n * pow2 m)%Q.
Proof. unfold pow2. apply Qpower_plus. discriminate. Qed.

(** [ilog2] is a lower estimate: [2 ^ ilog2 q <= q]. *)
Lemma ilog2_inferior (q : Q) : (0 < q)%Q -> (pow2 (ilog2 q) <= q)%Q.
Proof.
  intros Hq. unfold ilog2. cbv zeta.
  set (la := Z.log2 (Qnum q)). set (lb := Z.log2 (Zpos (Qden q))).
  destruct (Qle_bool (pow2 (la - lb)) q) eqn:E; [now apply Qle_bool_iff|].
  assert (Ha : 0 < Qnum q).
  { destruct q as [a b]. unfold Qlt in Hq. simpl in *. lia. }
  destruct (Z.log2_spec (Qnum q) Ha) as [A1 _].
  destruct (Z.log2_spec (Zpos (Qden q)) (Pos2Z.is_pos _)) as [_ B2].
  fold la in A1. fold lb in B2.
  assert (La : 0 <= la) by apply Z.log2_nonneg.
  assert (Lb : 0 <= lb) by apply Z.log2_nonneg.
  replace (la - lb - 1) with (la - (lb + 1)) by lia.
  rewrite pow2_resta, (pow2_Z la La), (pow2_Z (lb + 1)) by lia.
  assert (P : (0 < inject_Z (2 ^ (lb + 1)))%Q).
  { change 0%Q with (inject_Z 0). rewrite <- Zlt_Qlt. apply Z.pow_pos_nonneg; lia. }
  apply Qle_shift_div_r; [exact P|].
  destruct q as [a b]. unfold Qle, Qmult, inject_Z. simpl in *.
  rewrite !Z.mul_1_r.
  change (Z.succ lb) with (lb + 1) in B2. nia.
Qed.

(** The exponent of a rational below [2 ^ t]. *)
Lemma ilog2_superior (q : Q) (t : Z) :
  (0 < q)%Q -> (q < pow2 t)%Q -> ilog2 q < t.
Proof.
  intros Hq Ht. pose proof (ilog2_inferior q Hq) as L.
  apply (Qpower_lt_compat_l_inv 2); [|reflexivity].
  eapply Qle_lt_trans; [exact L|exact Ht].
Qed.

(** Rounding does not step over a number of the grid: a bound of the form
    [K * 2 ^ j], with [j] at or above the exponent of [q], is kept. *)
Lemma binary64_pos_superior (q : Q) (K j : Z) :
  (0 < q)%Q -> (q <= inject_Z K * pow2 j)%Q ->
  -1074 <= j -> ilog2 q - 52 <= j ->
  (binary64_pos q <= inject_Z K * pow2 j)%Q.
Proof.
  intros Hq Hle J1 J2. unfold binary64_pos. cbv zeta.
  set (e := Z.max (ilog2 q - 52) (-1074)).
  assert (Ee : e <= j) by (unfold e; lia).
  assert (Pe : (0 < pow2 e)%Q) by apply pow2_pos.
  assert (D : (pow2 j == inject_Z (2 ^ (j - e)) * pow2 e)%Q).
  { rewrite <- pow2_Z by lia. rewrite <- pow2_suma.
    replace (j - e + e) with j by lia. reflexivity. }
  assert (R : round_half_even (q / pow2 e) <= K * 2 ^ (j - e)).
  { apply round_half_even_le. apply Qle_shift_div_r; [exact Pe|].
    rewrite inject_Z_mult, <- Qmult_assoc, <- D. exact Hle. }
  rewrite D, Qmult_assoc, <- inject_Z_mult.
  apply Qmult_le_compat_r; [|now apply Qlt_le_weak].
  now rewrite <- Zle_Qle.
Qed.

Lemma binary64_pos_inferior (q : Q) : (0 <= q)%Q -> (0 <= binary64_pos q)%Q.
Proof.
  intros Hq. unfold binary64_pos. cbv zeta.
  set (e := Z.max (ilog2 q - 52) (-1074)).
  assert (Pe : (0 < pow2 e)%Q) by apply pow2_pos.
  apply Qmult_le_0_compat; [|now apply Qlt_le_weak].
  change 0%Q with (inject_Z 0). rewrite <- Zle_Qle.
  apply round_half_even_ge. apply Qle_shift_div_l; [exact Pe|].
  change (inject_Z 0) with 0%Q. lra.
Qed.

(** A rational between 0 and an integer [K] below [2 ^ 53] rounds to a
    double between 0 and [K]. *)
Lemma binary64_cota (q : Q) (K : Z) :
  (0 <= q)%Q -> (q <= inject_Z K)%Q -> K < 2 ^ 53 ->
  (0 <= binary64 q)%Q /\ (binary64 q <= inject_Z K)%Q.
Proof.
  intros H0 HK K53. unfold binary64.
  destruct (Qcompare q 0) eqn:C.
  - apply Qeq_alt in C. split; [apply Qle_refl|]. lra.
  - apply Qlt_alt in C. exfalso. lra.
  - apply Qgt_alt in C. split; [now apply binary64_pos_inferior|].
    assert (E : (inject_Z K == inject_Z K * pow2 0)%Q)
      by (unfold pow2; simpl; ring).
    rewrite E. apply binary64_pos_superior; [exact C| now rewrite <- E|lia|].
    assert (L : ilog2 q < 53); [|lia].
    apply ilog2_superior; [exact C|].
    rewrite pow2_Z by lia. eapply Qle_lt_trans; [exact HK|].
    now rewrite <- Zlt_Qlt.
Qed.

Lemma binary64_cero (q : Q) : (q == 0)%Q -> binary64 q = 0%Q.
Proof.
  intros H. unfold binary64. apply Qeq_alt in H. now rewrite H.
Qed.

(** Such a value stays within the range of the doubles. *)
Lemma sin_desborde (q : Q) (K : Z) :
  (0 <= q)%Q -> (q <= inject_Z K)%Q -> K < 2 ^ 53 -> desborda q = false.
Proof.
  intros H0 HK K53. destruct (binary64_cota q K H0 HK K53) as [A B].
  unfold desborda. rewrite (Qabs_pos _ A).
  destruct (Qle_bool (pow2 1024) (binary64 q)) eqn:E; [|reflexivity].
  apply Qle_bool_iff in E. rewrite pow2_Z in E by lia.
  assert (inject_Z K < inject_Z (2 ^ 1024))%Q.
  { rewrite <- Zlt_Qlt. eapply Z.lt_le_trans; [exact K53|].
    apply Z.pow_le_mono_r; lia. }
  exfalso. lra.
Qed.

Lemma round2_finito_cota (x : Q) :
  (0 <= x)%Q -> (x <= 100)%Q ->
  (0 <= round2_finito x)%Q /\ (round2_finito x <= 100)%Q.
Proof.
  intros L H. unfold round2_finito.
  assert (A : 0 <= round_half_even (x * 100))
    by (apply round_half_even_ge; change (inject_Z 0) with 0%Q; lra).
  assert (B : round_half_even (x * 100) <= 10000)
    by (apply round_half_even_le; change (inject_Z 10000) with 10000%Q; lra).
  set (r := round_half_even (x * 100)) in *.
  assert (0 <= inject_Z r)%Q by (change 0%Q with (inject_Z 0); now rewrite <- Zle_Qle).
  assert (inject_Z r <= 10000)%Q
    by (change 10000%Q with (inject_Z 10000); now rewrite <- Zle_Qle).
  assert (Q0 : (0 <= inject_Z r / 100)%Q) by (apply Qle_shift_div_l; lra).
  assert (Q1 : (inject_Z r / 100 <= inject_Z 100)%Q).
  { apply Qle_shift_div_r; [lra|]. change (inject_Z 100) with 100%Q. lra. }
  exact (binary64_cota _ 100 Q0 Q1 eq_refl).
Qed.

Lemma cociente_cota (c n : Z) :
  0 <= c <= n -> 0 < n ->
  (0 <= inject_Z c / inject_Z n)%Q /\ (inject_Z c / inject_Z n <= inject_Z 1)%Q.
Proof.
  intros [C0 Cn] N.
  assert (Hn : (0 < inject_Z n)%Q)
    by (change 0%Q with (inject_Z 0); now rewrite <- Zlt_Qlt).
  assert (Hc : (0 <= inject_Z c)%Q)
    by (change 0%Q with (inject_Z 0); now rewrite <- Zle_Qle).
  assert (Hcn : (inject_Z c <= inject_Z n)%Q) by now rewrite <- Zle_Qle.
  split.
  - apply Qle_shift_div_l; [exact Hn | lra].
  - apply Qle_shift_div_r; [exact Hn |]. change (inject_Z 1) with 1%Q. lra.
Qed.

(** The integer division of a count by a larger count: no exception, and
    a double between 0 and 1. *)
Lemma truediv_cota (c n : Z) :
  0 <= c <= n -> 0 < n ->
  truediv c n = Val (binary64 (inject_Z c / inject_Z n)) /\
  (0 <= binary64 (inject_Z c / inject_Z n))%Q /\
  (binary64 (inject_Z c / inject_Z n) <= 1)%Q.
Proof.
  intros C N. destruct (cociente_cota c n C N) as [A B].
  unfold truediv.
  destruct (n =? 0) eqn:Z0; [apply Z.eqb_eq in Z0; lia|].
  rewrite (sin_desborde _ 1 A B eq_refl).
  split; [reflexivity|]. exact (binary64_cota _ 1 A B eq_refl).
Qed.

(** A double between 0 and 1 times 100: finite, between 0 and 100. *)
Lemma fmul_cota (q : Q) :
  (0 <= q)%Q -> (q <= 1)%Q ->
  fmul q 100 = Finito (binary64 (q * 100)) /\
  (0 <= binary64 (q * 100))%Q /\ (binary64 (q * 100) <= 100)%Q.
Proof.
  intros A B.
  assert (A' : (0 <= q * 100)%Q) by lra.
  assert (B' : (q * 100 <= inject_Z 100)%Q)
    by (change (inject_Z 100) with 100%Q; lra).
  unfold fmul. rewrite (sin_desborde _ 100 A' B' eq_refl).
  split; [reflexivity|]. exact (binary64_cota _ 100 A' B' eq_refl).
Qed.

Lemma ratio_de_bounds (c n : Z) :
  0 <= c <= n -> (0 <= ratio_de c n)%Q /\ (ratio_de c n <= 100)%Q.
Proof.
  intros H. unfold ratio_de. destruct (n >? 0) eqn:N.
  - apply Z.gtb_lt in N.
    destruct (truediv_cota c n H N) as (_ & A & B).
    destruct (fmul_cota _ A B) as (_ & A' & B').
    now apply round2_finito_cota.
  - split; lra.
Qed.

(** 23 compliant answers out of 160: the product of the quotient by 100
    is the double just below 14.375, so the ratio is 14.37, where the
    exact quotient would round to 14.38. *)
Lemma ratio_de_23_160 :
  ratio_de 23 160 = binary64 (1437 # 100) /\
  (binary64 (binary64 (inject_Z 23 / inject_Z 160) * 100) < 14375 # 1000)%Q /\
  round_half_even (inject_Z 23 / inject_Z 160 * 100 * 100) = 1438.
Proof. vm_compute. repeat split. Qed.

End Redondeo.

(** ** The endpoint [generar_reporte_empresa] *)

Module Endpoint.
Import Py PyFacts Agregador Redondeo.

Lemma get_Some_In {V} (k : string) (v : V) (d : dict V) :
  get k d = Some v -> In (k, v) d.
Proof.
  induction d as [|[k' v'] d IH]; simpl; [discriminate|].
  destruct (String.eqb k k') eqn:E.
  - apply String.eqb_eq in E. intros [= ->]. subst. now left.
  - intros H. right. auto.
Qed.

Lemma contar_mono (P Q : PreguntaVerificacion -> bool) qs :
  (forall p, P p = true -> Q p = true) -> contar P qs <= contar Q qs.
Proof.
  intros PQ. unfold contar. induction qs as [|p qs IH]; simpl; [lia|].
  destruct (P p) eqn:E.
  - rewrite (PQ _ E). simpl. lia.
  - destruct (Q p); simpl; lia.
Qed.

(** With the compliant answers counted among all answers, the ratio is
    computed without an exception and is finite. *)
Lemma promedio_ratio a :
  0 <= cumplimientos_totales a <= preguntas_totales a ->
  promedio a =
  Val (Finito (ratio_de (cumplimientos_totales a) (preguntas_totales a))).
Proof.
  intros H. unfold promedio, ratio_de.
  destruct (preguntas_totales a >? 0) eqn:N; [|reflexivity].
  apply Z.gtb_lt in N.
  destruct (truediv_cota _ _ H N) as (-> & A & B).
  destruct (fmul_cota _ A B) as (-> & _). reflexivity.
Qed.

Lemma promedio_fold qs :
  promedio (fold_left procesar_pregunta qs acumulador_inicial) =
  Val (Finito (ratio_de (contar (respuesta_es CUMPLE) qs)
                        (Z.of_nat (List.length qs)))).
Proof.
  rewrite promedio_ratio; destruct (contadores_fold qs) as [-> ->];
    [reflexivity|].
  split; [apply contar_nonneg|apply contar_le_length].
Qed.

(** [l[-1]] of a non-empty list does not depend on the default. *)
Lemma last_cons_default {A} (l : list A) :
  forall x d d', last (x :: l) d = last (x :: l) d'.
Proof.
  induction l as [|y l IH]; intros x d d'; [reflexivity|].
  change (last (x :: y :: l) d) with (last (y :: l) d).
  change (last (x :: y :: l) d') with (last (y :: l) d').
  apply IH.
Qed.

(** In a history ordered by date the maximum stands for the same point
    of time as the date of the last form. *)
Lemma max_desde_sorted (rest : list FormularioVerificacion) :
  forall f0 u,
    Sorted (fun a b => instante (fecha a) <= instante (fecha b)) (f0 :: rest) ->
    max_desde (fecha f0) (map fecha rest) = Some u ->
    instante u = instante (fecha (last (f0 :: rest) f0)).
Proof.
  induction rest as [|f1 rest IH]; intros f0 u S M.
  - cbn in M. now injection M as <-.
  - inversion S as [|? ? S' H]; subst. inversion H as [|? ? L]; subst.
    cbn [map max_desde] in M.
    change (last (f0 :: f1 :: rest) f0) with (last (f1 :: rest) f0).
    rewrite (last_cons_default rest f1 f0 f1).
    destruct (datetime_gt (fecha f1) (fecha f0)) as [[|]|] eqn:G;
      [now apply IH| |discriminate].
    pose proof (datetime_gt_instante _ _ _ G) as R. symmetry in R.
    apply Z.ltb_ge in R.
    assert (E : instante (fecha f1) = instante (fecha f0)) by lia.
    pose proof (max_desde_mismo_instante (map fecha rest) _ _ E
                  (datetime_gt_aware _ _ _ G)) as Q.
    rewrite M in Q.
    destruct (max_desde (fecha f1) (map fecha rest)) as [u'|] eqn:M';
      [|discriminate].
    cbn in Q. injection Q as Q. rewrite <- Q. now apply IH.
Qed.

(** The answer of the endpoint for a registered company whose stored
    dates compare. *)
Lemma generar_reporte_empresa_ok db ruc' e f0 rest u :
  get ruc' (empresas db) = Some e ->
  formularios_de db ruc' = f0 :: rest ->
  max_desde (fecha f0) (map fecha rest) = Some u ->
  generar_reporte_empresa db ruc' =
  Ok {| empresa := e;
        estadisticas :=
          {| total_verificaciones := Z.of_nat (List.length (f0 :: rest));
             ultima_verificacion := u;
             cumplimiento_promedio :=
               ratio_de (contar (respuesta_es CUMPLE)
                                (todas_las_preguntas (f0 :: rest)))
                        (Z.of_nat (List.length (todas_las_preguntas (f0 :: rest))));
             secciones := secciones_de (f0 :: rest) |};
        ultimo_formulario := last (f0 :: rest) f0 |}.
Proof.
  intros E F M. unfold generar_reporte_empresa. rewrite E, F, M.
  cbv zeta. unfold secciones_de.
  rewrite procesar_formularios_plano, promedio_fold. reflexivity.
Qed.

(** [max] finds a latest date exactly when the dates compare. *)
Lemma max_desde_comparables (m : datetime) (l : list datetime) :
  fechas_comparables (m :: l) = true <-> exists u, max_desde m l = Some u.
Proof.
  cbn [fechas_comparables]. rewrite forallb_forall. split.
  - intros H. destruct (max_desde_Some l m) as (u & M & _).
    + intros d Hd. apply Bool.eqb_prop. now apply H.
    + now exists u.
  - intros [u M] d Hd. rewrite (max_desde_inv l m u M d Hd).
    apply Bool.eqb_reflx.
Qed.

Lemma max_desde_no_comparables (m : datetime) (l : list datetime) :
  fechas_comparables (m :: l) = false <-> max_desde m l = None.
Proof.
  pose proof (max_desde_comparables m l) as [A B]. split.
  - intros H. destruct (max_desde m l) as [u|] eqn:M; [|reflexivity].
    rewrite B in H by now exists u. discriminate.
  - intros M. destruct (fechas_comparables (m :: l)); [|reflexivity].
    destruct (A eq_refl) as [u Hu]. congruence.
Qed.

(** A successful call went through both guards and found a latest date. *)
Lemma generar_reporte_empresa_inv db ruc' r :
  generar_reporte_empresa db ruc' = Ok r ->
  exists e f0 rest u,
    get ruc' (empresas db) = Some e /\ formularios_de db ruc' = f0 :: rest /\
    max_desde (fecha f0) (map fecha rest) = Some u.
Proof.
  unfold generar_reporte_empresa.
  destruct (get ruc' (empresas db)) as [e|]; [|discriminate].
  destruct (formularios_de db ruc') as [|f0 rest]; [discriminate|].
  destruct (max_desde (fecha f0) (map fecha rest)) as [u|] eqn:Hu;
    [|discriminate].
  intros _. exists e, f0, rest, u. repeat split. exact Hu.
Qed.

(** With dates that do not compare the call fails. *)
Lemma generar_reporte_empresa_falla db ruc' e f0 rest :
  get ruc' (empresas db) = Some e ->
  formularios_de db ruc' = f0 :: rest ->
  max_desde (fecha f0) (map fecha rest) = None ->
  generar_reporte_empresa db ruc' = Falla TypeError.
Proof.
  intros E F M. unfold generar_reporte_empresa. now rewrite E, F, M.
Qed.

End Endpoint.

(** ** Statements about the aggregator *)

(** C1, as the specification states it, fails: the per-section counts and
    the overall ratio of a company with two stored verifications are not
    those of its most recent form.  The question complied at the first
    visit and does not at the second; the section reports two items, one
    of them compliant, and an overall ratio of 50, where the latest form
    alone gives one item, none compliant, and a ratio of 0. *)
Lemma C1_counterexample_two_visits :
  Sorted (fun a b => Py.instante (fecha a) <= Py.instante (fecha b))
         (formularios_de db_dos_visitas RUC_DEMO) /\
  exists r,
    generar_reporte_empresa db_dos_visitas RUC_DEMO = Ok r /\
    ultimo_formulario r = visita_2 /\
    secciones (estadisticas r) =
      [("A", {| total := 2; cumple := 1; no_cumple := 1; no_aplica := 0 |})] /\
    secciones_de [ultimo_formulario r] =
      [("A", {| total := 1; cumple := 0; no_cumple := 1; no_aplica := 0 |})] /\
    secciones (estadisticas r) <> secciones_de [ultimo_formulario r] /\
    (cumplimiento_promedio (estadisticas r) == 50)%Q /\
    promedio (procesar_formularios [ultimo_formulario r]) = Py.Val (Py.Finito 0).
Proof.
  split.
  { repeat constructor. cbn. lia. }
  rewrite (Endpoint.generar_reporte_empresa_ok
             db_dos_visitas RUC_DEMO empresa_demo visita_1 [visita_2]
             (Py.naive 2) eq_refl eq_refl eq_refl).
  eexists. split; [reflexivity|].
  cbn [ultimo_formulario estadisticas secciones cumplimiento_promedio].
  split; [reflexivity|]. split; [reflexivity|]. split; [reflexivity|].
  split; [discriminate|]. split; vm_compute; reflexivity.
Qed.

(** The form returned with the statistics is the one stored last, which
    need not be the most recent: with the later visit stored first, the
    earlier visit is returned while the date of the last verification is
    that of the later one. *)
Lemma ultimo_formulario_no_es_el_mas_reciente :
  exists r,
    generar_reporte_empresa db_visitas_desordenadas RUC_DEMO = Ok r /\
    ultimo_formulario r = visita_1 /\
    ultima_verificacion (estadisticas r) = fecha visita_2 /\
    Py.instante (fecha (ultimo_formulario r)) <
    Py.instante (ultima_verificacion (estadisticas r)).
Proof.
  rewrite (Endpoint.generar_reporte_empresa_ok
             db_visitas_desordenadas RUC_DEMO empresa_demo visita_2 [visita_1]
             (Py.naive 2) eq_refl eq_refl eq_refl).
  eexists. split; [reflexivity|]. repeat split.
Qed.

(** C1 (amended): for a registered company with a non-empty history whose
    dates compare (all naive or all with an offset),
    [generar_reporte_empresa] succeeds; the entry of every section and the
    overall ratio count every question of every stored form of the
    company, not only those of the latest one; [total_verificaciones] is
    the number of forms; [ultima_verificacion] is a date of the history
    that no other date of the history follows; [ultimo_formulario] is the
    form stored last, and in a history stored in the order of its dates
    no form is more recent than it. *)
Theorem C1_aggregate_reads_whole_history
  (db : Database) (ruc' : string) (e : Empresa)
  (f0 : FormularioVerificacion) (rest : list FormularioVerificacion) :
  Py.get ruc' (empresas db) = Some e ->
  formularios_de db ruc' = f0 :: rest ->
  fechas_comparables (map fecha (f0 :: rest)) = true ->
  exists r,
    generar_reporte_empresa db ruc' = Ok r /\
    (forall s, Py.get s (secciones (estadisticas r)) =
               resumen s (todas_las_preguntas (f0 :: rest))) /\
    cumplimiento_promedio (estadisticas r) =
      ratio_de (contar (respuesta_es CUMPLE) (todas_las_preguntas (f0 :: rest)))
               (Z.of_nat (List.length (todas_las_preguntas (f0 :: rest)))) /\
    total_verificaciones (estadisticas r) = Z.of_nat (List.length (f0 :: rest)) /\
    (forall f, In f (f0 :: rest) ->
               Py.instante (fecha f)
               <= Py.instante (ultima_verificacion (estadisticas r))) /\
    (exists f, In f (f0 :: rest) /\ ultima_verificacion (estadisticas r) = fecha f) /\
    ultimo_formulario r = last (f0 :: rest) f0 /\
    (Sorted (fun a b => Py.instante (fecha a) <= Py.instante (fecha b))
            (f0 :: rest) ->
     Py.instante (ultima_verificacion (estadisticas r))
     = Py.instante (fecha (ultimo_formulario r)) /\
     forall f, In f (f0 :: rest) ->
               Py.instante (fecha f)
               <= Py.instante (fecha (ultimo_formulario r))).
Proof.
  intros E F C.
  destruct (proj1 (Endpoint.max_desde_comparables (fecha f0) (map fecha rest)) C)
    as [u M].
  eexists. split; [apply (Endpoint.generar_reporte_empresa_ok _ _ _ _ _ _ E F M)|].
  cbn [estadisticas secciones cumplimiento_promedio total_verificaciones
       ultima_verificacion ultimo_formulario].
  destruct (PyFacts.max_desde_Some (map fecha rest) (fecha f0)) as (u' & M' & I & L & A).
  { intros d Hd. exact (PyFacts.max_desde_inv _ _ _ M d Hd). }
  rewrite M in M'. injection M' as <-.
  assert (U : forall f, In f (f0 :: rest) -> Py.instante (fecha f) <= Py.instante u).
  { intros f [<-|Hf]; [exact L|]. apply A. now apply in_map. }
  split; [intros s; apply Agregador.get_secciones_de|].
  split; [reflexivity|]. split; [reflexivity|]. split; [exact U|].
  split.
  { change (fecha f0 :: map fecha rest) with (map fecha (f0 :: rest)) in I.
    apply in_map_iff in I as (f & Hf & Hin). exists f. split; auto. }
  split; [reflexivity|].
  intros S. pose proof (Endpoint.max_desde_sorted rest f0 u S M) as Q.
  split; [exact Q|]. intros f Hf. rewrite <- Q. now apply U.
Qed.

Lemma C1_whole_history_witness :
  Py.get RUC_DEMO (empresas db_dos_visitas) = Some empresa_demo /\
  formularios_de db_dos_visitas RUC_DEMO = [visita_1; visita_2] /\
  fechas_comparables (map fecha [visita_1; visita_2]) = true /\
  exists r,
    generar_reporte_empresa db_dos_visitas RUC_DEMO = Ok r /\
    Py.get "A" (secciones (estadisticas r)) =
      Some {| total := 2; cumple := 1; no_cumple := 1; no_aplica := 0 |} /\
    total_verificaciones (estadisticas r) = 2 /\
    Py.instante (ultima_verificacion (estadisticas r)) = 2.
Proof.
  split; [reflexivity|]. split; [reflexivity|]. split; [reflexivity|].
  destruct (C1_aggregate_reads_whole_history
              db_dos_visitas RUC_DEMO empresa_demo visita_1 [visita_2]
              eq_refl eq_refl eq_refl)
    as (r & Hr & Hs & _ & Hn & _ & _ & Hu & Hsorted).
  exists r. split; [exact Hr|]. split; [rewrite Hs; reflexivity|].
  split; [rewrite Hn; reflexivity|].
  assert (S : Sorted (fun a b => Py.instante (fecha a) <= Py.instante (fecha b))
                     [visita_1; visita_2]).
  { apply Sorted_cons; [apply Sorted_cons; [apply Sorted_nil|apply HdRel_nil]|].
    apply HdRel_cons. cbn. lia. }
  destruct (Hsorted S) as [Q _]. rewrite Q, Hu. reflexivity.
Defined.

(** C2, as the specification states it, fails: an answer whose status
    field is absent is not set apart as unanswered.  It is counted in
    [no_aplica], so the remainder [total - (cumple + no_cumple + no_aplica)]
    is 0 in a section that holds one such answer. *)
Lemma C2_counterexample_absent_status :
  Py.get "A" (secciones_de [visita_sin_respuesta]) =
    Some {| total := 1; cumple := 0; no_cumple := 0; no_aplica := 1 |} /\
  contar (fun p => en_seccion "A" p && sin_respuesta p)
         (todas_las_preguntas [visita_sin_respuesta]) = 1 /\
  ~ (forall fs s d,
       Py.get s (secciones_de fs) = Some d ->
       total d - (cumple d + no_cumple d + no_aplica d) =
       contar (fun p => en_seccion s p && sin_respuesta p)
              (todas_las_preguntas fs)).
Proof.
  split; [reflexivity|]. split; [reflexivity|].
  intros H.
  specialize (H [visita_sin_respuesta] "A" _ eq_refl).
  vm_compute in H. discriminate.
Qed.

(** C2 (amended): every answer is counted in exactly one of three buckets:
    [cumple] when its status is the literal [CUMPLE], [no_cumple] when it
    is the literal [NO_CUMPLE], and [no_aplica] in every other case, an
    absent status included.  Hence every section entry satisfies
    [total = cumple + no_cumple + no_aplica] with non-negative counts, and
    no answer is left over as unanswered. *)
Theorem C2_three_way_classification
  (fs : list FormularioVerificacion) (s : string) (d : SeccionStats) :
  Py.get s (secciones_de fs) = Some d ->
  total d = contar (en_seccion s) (todas_las_preguntas fs) /\
  cumple d = contar (fun p => en_seccion s p && respuesta_es CUMPLE p)
                    (todas_las_preguntas fs) /\
  no_cumple d = contar (fun p => en_seccion s p && respuesta_es NO_CUMPLE p)
                       (todas_las_preguntas fs) /\
  no_aplica d = contar (fun p => en_seccion s p && es_otro p)
                       (todas_las_preguntas fs) /\
  contar (fun p => en_seccion s p && sin_respuesta p) (todas_las_preguntas fs)
    <= no_aplica d /\
  total d = cumple d + no_cumple d + no_aplica d /\
  0 <= cumple d /\ 0 <= no_cumple d /\ 0 <= no_aplica d /\
  (forall p,
     (respuesta_es CUMPLE p = true /\ respuesta_es NO_CUMPLE p = false /\
      es_otro p = false) \/
     (respuesta_es CUMPLE p = false /\ respuesta_es NO_CUMPLE p = true /\
      es_otro p = false) \/
     (respuesta_es CUMPLE p = false /\ respuesta_es NO_CUMPLE p = false /\
      es_otro p = true)).
Proof.
  intros G.
  assert (W : bien_formada d).
  { unfold secciones_de in G. rewrite Agregador.procesar_formularios_plano in G.
    apply Endpoint.get_Some_In in G.
    pose proof (Agregador.bien_formadas_fold (todas_las_preguntas fs)) as F.
    rewrite Forall_forall in F. exact (F _ G). }
  rewrite Agregador.get_secciones_de in G. unfold resumen in G.
  destruct (existsb (en_seccion s) (todas_las_preguntas fs)); [|discriminate].
  injection G as <-. cbn [total cumple no_cumple no_aplica cuentas] in *.
  destruct W as (W1 & W2 & W3 & W4).
  repeat (split; [first [reflexivity | assumption]|]).
  split.
  { apply Endpoint.contar_mono. intros p H.
    apply andb_true_iff in H as [H1 H2]. rewrite H1. unfold es_otro, respuesta_es.
    unfold sin_respuesta in H2. now destruct (respuesta p). }
  repeat (split; [assumption|]).
  intros p. unfold es_otro.
  destruct (respuesta_es CUMPLE p) eqn:C.
  - rewrite (Agregador.cumple_excluye_no_cumple _ C). auto.
  - destruct (respuesta_es NO_CUMPLE p); auto.
Qed.

Lemma C2_three_way_witness :
  Py.get "B" (secciones_de [visita_escenario_a]) =
    Some {| total := 3; cumple := 2; no_cumple := 0; no_aplica := 1 |} /\
  3 = 2 + 0 + 1.
Proof.
  split; [reflexivity|].
  exact (proj1 (proj2 (proj2 (proj2 (proj2 (proj2
    (C2_three_way_classification [visita_escenario_a] "B"
       {| total := 3; cumple := 2; no_cumple := 0; no_aplica := 1 |}
       eq_refl))))))).
Defined.

(** C3, as the specification states it, fails: the overall ratio is not
    taken against the applicable items.  With four compliant answers, one
    non-compliant and one not applicable, five items are applicable and
    [100 * 4 / 5] is 80, yet the reported ratio is 66.67 (the double
    nearest to it): the denominator counts the not-applicable answer as
    well. *)
Lemma C3_counterexample_applicable_denominator :
  exists r,
    generar_reporte_empresa db_escenario_a RUC_DEMO = Ok r /\
    Py.total_de cumple (secciones (estadisticas r)) = 4 /\
    Py.total_de total (secciones (estadisticas r))
      - Py.total_de no_aplica (secciones (estadisticas r)) = 5 /\
    cumplimiento_promedio (estadisticas r) = Py.binary64 (6667 # 100) /\
    (cumplimiento_promedio (estadisticas r) < 67)%Q /\
    ~ (cumplimiento_promedio (estadisticas r) ==
       100 * inject_Z (Py.total_de cumple (secciones (estadisticas r)))
       / inject_Z (Py.total_de total (secciones (estadisticas r))
                   - Py.total_de no_aplica (secciones (estadisticas r))))%Q.
Proof.
  rewrite (Endpoint.generar_reporte_empresa_ok
             db_escenario_a RUC_DEMO empresa_demo visita_escenario_a []
             (Py.naive 1) eq_refl eq_refl eq_refl).
  eexists. split; [reflexivity|].
  cbn [estadisticas secciones cumplimiento_promedio].
  split; [reflexivity|]. split; [reflexivity|].
  split; [vm_compute; reflexivity|].
  split; [vm_compute; reflexivity|]. vm_compute. discriminate.
Qed.

(** C3 (amended): for every statistics record the endpoint returns, the
    overall ratio is [round(sum of cumple / sum of total * 100, 2)] over
    all sections, each of the three operations being the float operation
    of the code (23 compliant answers out of 160 give 14.37, where the
    exact quotient 14.375 would round to 14.38), and 0 when no item was
    counted; the denominator is the number of all counted items, the
    not-applicable ones included; the ratio always lies between 0 and
    100. *)
Theorem C3_overall_ratio (db : Database) (ruc' : string) (r : Reporte) :
  generar_reporte_empresa db ruc' = Ok r ->
  0 <= Py.total_de cumple (secciones (estadisticas r))
    <= Py.total_de total (secciones (estadisticas r)) /\
  cumplimiento_promedio (estadisticas r) =
    (if Py.total_de total (secciones (estadisticas r)) >? 0
     then Py.round2_finito
            (Py.binary64
               (Py.binary64
                  (inject_Z (Py.total_de cumple (secciones (estadisticas r)))
                   / inject_Z (Py.total_de total (secciones (estadisticas r))))
                * 100))
     else 0%Q) /\
  (Py.total_de total (secciones (estadisticas r)) = 0 ->
   cumplimiento_promedio (estadisticas r) = 0%Q) /\
  (0 <= cumplimiento_promedio (estadisticas r))%Q /\
  (cumplimiento_promedio (estadisticas r) <= 100)%Q.
Proof.
  intros H.
  destruct (Endpoint.generar_reporte_empresa_inv _ _ _ H)
    as (e & f0 & rest & u & E & F & M).
  rewrite (Endpoint.generar_reporte_empresa_ok _ _ _ _ _ _ E F M) in H.
  injection H as <-.
  cbn [estadisticas secciones cumplimiento_promedio].
  unfold secciones_de.
  rewrite Agregador.procesar_formularios_plano.
  set (qs := todas_las_preguntas (f0 :: rest)).
  destruct (Agregador.totales_fold qs) as [-> ->].
  destruct (Agregador.contadores_fold qs) as [-> ->].
  assert (B : 0 <= contar (respuesta_es CUMPLE) qs <= Z.of_nat (List.length qs)).
  { split; [apply Agregador.contar_nonneg|apply Agregador.contar_le_length]. }
  split; [exact B|]. split; [reflexivity|].
  split.
  { intros Z0.
    change (ratio_de (contar (respuesta_es CUMPLE) qs)
                     (Z.of_nat (List.length qs)) = 0%Q).
    unfold ratio_de. now rewrite Z0. }
  apply (Redondeo.ratio_de_bounds _ _ B).
Qed.

Lemma C3_overall_ratio_witness :
  exists r,
    generar_reporte_empresa db_escenario_a RUC_DEMO = Ok r /\
    (0 <= cumplimiento_promedio (estadisticas r))%Q /\
    (cumplimiento_promedio (estadisticas r) <= 100)%Q.
Proof.
  eexists. split; [vm_compute; reflexivity|].
  refine (proj2 (proj2 (proj2
    (C3_overall_ratio db_escenario_a RUC_DEMO _ _)))).
  vm_compute. reflexivity.
Defined.

(** C6, as the specification states it, fails: the aggregator has no
    failure for an empty catalog.  A company whose stored form lists no
    question at all still gets a statistics record, with no section and an
    overall ratio of 0. *)
Lemma C6_counterexample_no_questions :
  formularios_de db_visita_vacia RUC_DEMO = [visita_vacia] /\
  todas_las_preguntas (formularios_de db_visita_vacia RUC_DEMO) = [] /\
  exists r,
    generar_reporte_empresa db_visita_vacia RUC_DEMO = Ok r /\
    secciones (estadisticas r) = [] /\
    cumplimiento_promedio (estadisticas r) = 0%Q /\
    total_verificaciones (estadisticas r) = 1.
Proof.
  split; [reflexivity|]. split; [reflexivity|].
  eexists. split; [reflexivity|]. repeat split.
Qed.

(** A history that holds a naive date and a date with an offset: the call
    raises [TypeError] and no statistics record is produced. *)
Lemma fechas_mixtas_TypeError :
  Py.get RUC_DEMO (empresas db_fechas_mixtas) = Some empresa_demo /\
  formularios_de db_fechas_mixtas RUC_DEMO = [visita_1; visita_con_zona] /\
  generar_reporte_empresa db_fechas_mixtas RUC_DEMO = Falla Py.TypeError.
Proof. repeat split. Qed.

(** C6 (amended): [generar_reporte_empresa] fails in exactly three cases.
    Two are reported to the caller as a 404 response: the company is not
    registered, or it is registered and no form is stored for it.  The
    third is an exception the endpoint does not handle: the company is
    registered, forms are stored for it, and their dates do not compare
    (a naive date next to one with an offset), so that [max] raises
    [TypeError].  In every other case a statistics record is returned,
    also when the stored forms list no question. *)
Theorem C6_failure_modes (db : Database) (ruc' : string) :
  (generar_reporte_empresa db ruc' = Raise EMPRESA_NO_ENCONTRADA <->
   Py.get ruc' (empresas db) = None) /\
  (generar_reporte_empresa db ruc' = Raise NO_HAY_FORMULARIOS <->
   Py.get ruc' (empresas db) <> None /\ formularios_de db ruc' = []) /\
  (generar_reporte_empresa db ruc' = Falla Py.TypeError <->
   Py.get ruc' (empresas db) <> None /\ formularios_de db ruc' <> [] /\
   fechas_comparables (map fecha (formularios_de db ruc')) = false) /\
  ((exists r, generar_reporte_empresa db ruc' = Ok r) <->
   Py.get ruc' (empresas db) <> None /\ formularios_de db ruc' <> [] /\
   fechas_comparables (map fecha (formularios_de db ruc')) = true) /\
  (forall x, generar_reporte_empresa db ruc' = Raise x -> status_code x = 404) /\
  (forall ex, generar_reporte_empresa db ruc' = Falla ex -> ex = Py.TypeError).
Proof.
  assert (D : EMPRESA_NO_ENCONTRADA <> NO_HAY_FORMULARIOS).
  { intros H. apply (f_equal detail) in H. discriminate H. }
  destruct (Py.get ruc' (empresas db)) as [e|] eqn:E;
    destruct (formularios_de db ruc') as [|f0 rest] eqn:F.
  - assert (R : generar_reporte_empresa db ruc' = Raise NO_HAY_FORMULARIOS)
      by (unfold generar_reporte_empresa; now rewrite E, F).
    rewrite R.
    split; [split; [intros [= H]; congruence | discriminate]|].
    split; [split; [intros _; split; [discriminate | reflexivity] | reflexivity]|].
    split; [split; [discriminate | intros (_ & H & _); congruence]|].
    split; [split; [intros [r H]; discriminate | intros (_ & H & _); congruence]|].
    split; [intros x [= <-]; reflexivity | discriminate].
  - destruct (fechas_comparables (map fecha (f0 :: rest))) eqn:C.
    + destruct (proj1 (Endpoint.max_desde_comparables
                         (fecha f0) (map fecha rest)) C) as [u M].
      rewrite (Endpoint.generar_reporte_empresa_ok _ _ _ _ _ _ E F M).
      split; [split; discriminate|].
      split; [split; [discriminate | intros [_ H]; discriminate]|].
      split; [split; [discriminate | intros (_ & _ & H); discriminate]|].
      split; [split; [intros _; repeat split; discriminate
                     | intros _; eexists; reflexivity]|].
      split; discriminate.
    + rewrite (Endpoint.generar_reporte_empresa_falla _ _ _ _ _ E F
                 (proj1 (Endpoint.max_desde_no_comparables
                           (fecha f0) (map fecha rest)) C)).
      split; [split; discriminate|].
      split; [split; [discriminate | intros [_ H]; discriminate]|].
      split; [split; [intros _; repeat split; discriminate | reflexivity]|].
      split; [split; [intros [r H]; discriminate
                     | intros (_ & _ & H); discriminate]|].
      split; [discriminate | intros ex [= <-]; reflexivity].
  - assert (R : generar_reporte_empresa db ruc' = Raise EMPRESA_NO_ENCONTRADA)
      by (unfold generar_reporte_empresa; now rewrite E).
    rewrite R.
    split; [split; reflexivity|].
    split; [split; [intros [= H]; congruence | intros [H _]; congruence]|].
    split; [split; [discriminate | intros [H _]; congruence]|].
    split; [split; [intros [r H]; discriminate | intros [H _]; congruence]|].
    split; [intros x [= <-]; reflexivity | discriminate].
  - assert (R : generar_reporte_empresa db ruc' = Raise EMPRESA_NO_ENCONTRADA)
      by (unfold generar_reporte_empresa; now rewrite E).
    rewrite R.
    split; [split; reflexivity|].
    split; [split; [intros [= H]; congruence | intros [H _]; congruence]|].
    split; [split; [discriminate | intros [H _]; congruence]|].
    split; [split; [intros [r H]; discriminate | intros [H _]; congruence]|].
    split; [intros x [= <-]; reflexivity | discriminate].
Qed.

(** ** Statements about the tier chain and the section percentage *)

(** C4: the tier chain is a total function of the ratio with inclusive
    lower bounds at 80 and 50: a ratio of at least 80 is EXCELENTE, a
    ratio of at least 50 and below 80 is ACEPTABLE, a ratio below 50 is
    INSUFICIENTE; exactly one tier is given to each ratio, and the chain
    that selects the recommendations agrees with it. *)
Theorem C4_classifier_thresholds (ratio : Q) :
  ((80 <= ratio)%Q -> estado_de ratio = EXCELENTE) /\
  ((50 <= ratio)%Q -> (ratio < 80)%Q -> estado_de ratio = ACEPTABLE) /\
  ((ratio < 50)%Q -> estado_de ratio = INSUFICIENTE) /\
  (estado_de ratio = EXCELENTE \/ estado_de ratio = ACEPTABLE \/
   estado_de ratio = INSUFICIENTE) /\
  recomendaciones_de ratio = estado_de ratio.
Proof.
  unfold estado_de, recomendaciones_de.
  destruct (Qle_bool 80 ratio) eqn:A; [|destruct (Qle_bool 50 ratio) eqn:B].
  - apply Qle_bool_iff in A.
    repeat split; auto; intros; exfalso; lra.
  - apply Qle_bool_iff in B.
    assert (~ (80 <= ratio)%Q) by (rewrite <- Qle_bool_iff; congruence).
    repeat split; auto; intros; exfalso; lra.
  - assert (~ (80 <= ratio)%Q) by (rewrite <- Qle_bool_iff; congruence).
    assert (~ (50 <= ratio)%Q) by (rewrite <- Qle_bool_iff; congruence).
    repeat split; auto; intros; exfalso; lra.
Qed.

Lemma C4_boundaries_witness :
  estado_de 80 = EXCELENTE /\
  estado_de (79999 # 1000) = ACEPTABLE /\
  estado_de 50 = ACEPTABLE /\
  estado_de (49999 # 1000) = INSUFICIENTE.
Proof.
  split; [apply (proj1 (C4_classifier_thresholds 80)); discriminate|].
  split; [apply (proj1 (proj2 (C4_classifier_thresholds (79999 # 1000))));
          [discriminate|reflexivity]|].
  split; [apply (proj1 (proj2 (C4_classifier_thresholds 50)));
          [discriminate|reflexivity]|].
  apply (proj1 (proj2 (proj2 (C4_classifier_thresholds (49999 # 1000))))).
  reflexivity.
Defined.

(** The entries the aggregator produces never have a negative applicable
    total. *)
Lemma total_aplicable_agregado (fs : list FormularioVerificacion)
  (s : string) (d : SeccionStats) :
  Py.get s (secciones_de fs) = Some d ->
  total_aplicable (datos_json d) = cumple d + no_cumple d /\
  0 <= total_aplicable (datos_json d).
Proof.
  intros G. unfold secciones_de in G.
  rewrite Agregador.procesar_formularios_plano in G.
  apply Endpoint.get_Some_In in G.
  pose proof (Agregador.bien_formadas_fold (todas_las_preguntas fs)) as F.
  rewrite Forall_forall in F. destruct (F _ G) as (E & A & B & C).
  unfold total_aplicable; simpl in *. lia.
Qed.

(** ** The section percentage *)

Module PorcentajeFacts.
Import Py Redondeo.

(** Without applicable items the percentage is 0: the division is not
    reached. *)
Lemma porcentaje_sin_aplicables (d : DatosSeccion) :
  total_aplicable d <= 0 -> porcentaje d = Val (Finito 0).
Proof.
  intros H. unfold porcentaje.
  destruct (total_aplicable d >? 0) eqn:G; [|reflexivity].
  apply Z.gtb_lt in G. lia.
Qed.



(** With the compliant items counted among the applicable ones, as the
    aggregator counts them, the percentage is a finite value between 0
    and 100. *)
Lemma porcentaje_en_rango (d : DatosSeccion) :
  0 < total_aplicable d ->
  0 <= get_or (d_cumple d) 0 <= total_aplicable d ->
  porcentaje d =
    Val (Finito (binary64
                   (binary64 (inject_Z (get_or (d_cumple d) 0)
                              / inject_Z (total_aplicable d)) * 100))) /\
  (0 <= binary64 (binary64 (inject_Z (get_or (d_cumple d) 0%Z)
                            / inject_Z (total_aplicable d)) * 100))%Q /\
  (binary64 (binary64 (inject_Z (get_or (d_cumple d) 0%Z)
                       / inject_Z (total_aplicable d)) * 100) <= 100)%Q.
Proof.
  intros T C. unfold porcentaje.
  destruct (total_aplicable d >? 0) eqn:G; [|rewrite Z.gtb_ltb in G; apply Z.ltb_ge in G; lia].
  destruct (truediv_cota _ _ C T) as (-> & A & B).
  destruct (fmul_cota _ A B) as (-> & A' & B'). auto.
Qed.

End PorcentajeFacts.

(** ** Statements about the spreadsheet export *)

Module ExcelFacts.
Import Excel.

Lemma estilos_exportar (f : FormularioVerificacion) (i : nat) (p : PreguntaVerificacion) :
  nth_error (preguntas f) i = Some p ->
  estilos (exportar_excel f) i =
  map format (filter (fun r => dispara r i (respuesta p))
                     (formatos_condicionales (exportar_excel f))).
Proof.
  intros H. unfold estilos. cbn [filas exportar_excel].
  rewrite nth_error_map, H. reflexivity.
Qed.

Lemma en_rango (i : nat) :
  (i < 999)%nat -> ((2 <=? fila_hoja i) && (fila_hoja i <=? 1000)) = true.
Proof.
  intros H. unfold fila_hoja. apply andb_true_iff.
  split; apply Z.leb_le; lia.
Qed.


(** The styles of a row inside the range depend on its status text only. *)
Lemma estilos_en_rango (f : FormularioVerificacion) (i : nat) (p : PreguntaVerificacion) :
  nth_error (preguntas f) i = Some p -> (i < 999)%nat ->
  estilos (exportar_excel f) i =
  match respuesta p with
  | Some s =>
      ((if contiene_texto CUMPLE s then [format_green] else []) ++
       (if contiene_texto NO_CUMPLE s then [format_red] else []) ++
       (if contiene_texto NO_APLICA s then [format_gray] else []))%list
  | None => []
  end.
Proof.
  intros H R. rewrite (estilos_exportar _ _ _ H).
  pose proof (en_rango _ R) as E. apply andb_true_iff in E as [E1 E2].
  cbn [formatos_condicionales exportar_excel filter]. unfold dispara.
  cbn [columna primera_fila ultima_fila value]. rewrite E1, E2.
  destruct (respuesta p) as [s|]; [|reflexivity].
  cbn [String.eqb Ascii.eqb Bool.eqb andb].
  destruct (contiene_texto CUMPLE s), (contiene_texto NO_CUMPLE s),
    (contiene_texto NO_APLICA s); reflexivity.
Qed.

End ExcelFacts.

(** C8, as the specification states it, fails: a question that was left
    without a selection is exported as a row too, and none of the three
    rules holds for it. *)
Lemma C8_counterexample_unanswered_row :
  respuesta_es CUMPLE (pregunta_demo 1 "A" (Some NO_SELECCIONADO)) = false /\
  respuesta_es NO_CUMPLE (pregunta_demo 1 "A" (Some NO_SELECCIONADO)) = false /\
  respuesta_es NO_APLICA (pregunta_demo 1 "A" (Some NO_SELECCIONADO)) = false /\
  Excel.filas (Excel.exportar_excel visita_no_seleccionado) =
    [Excel.fila_de (pregunta_demo 1 "A" (Some NO_SELECCIONADO))] /\
  Excel.estilos (Excel.exportar_excel visita_no_seleccionado) 0 = [].
Proof. repeat split. Qed.

(** C8 (amended): the export has exactly one row per question of the
    latest form, answered or not, in the order of the form, under the six
    columns Sección, Categoría, Pregunta, Normativa, Cumplimiento and
    Observaciones; for a row within sheet rows 2 to 1000 whose status is
    one of the three radio labels exactly one rule holds: the green one
    for CUMPLE, the red one for NO_CUMPLE, the grey one for NO_APLICA. *)
Theorem C8_rows_and_styles (f : FormularioVerificacion) :
  List.length (Excel.filas (Excel.exportar_excel f)) = List.length (preguntas f) /\
  (forall i p, nth_error (preguntas f) i = Some p ->
               nth_error (Excel.filas (Excel.exportar_excel f)) i =
               Some (Excel.fila_de p)) /\
  (preguntas f <> [] ->
   Excel.columnas (Excel.exportar_excel f) =
   ["Sección"; "Categoría"; "Pregunta"; "Normativa"; "Cumplimiento";
    "Observaciones"]) /\
  (forall i p, nth_error (preguntas f) i = Some p -> (i < 999)%nat ->
     (respuesta p = Some CUMPLE ->
      Excel.estilos (Excel.exportar_excel f) i = [Excel.format_green]) /\
     (respuesta p = Some NO_CUMPLE ->
      Excel.estilos (Excel.exportar_excel f) i = [Excel.format_red]) /\
     (respuesta p = Some NO_APLICA ->
      Excel.estilos (Excel.exportar_excel f) i = [Excel.format_gray])).
Proof.
  split; [cbn; apply length_map|].
  split; [intros i p H; cbn; rewrite nth_error_map, H; reflexivity|].
  split.
  { intros H. cbn. destruct (preguntas f); [congruence|reflexivity]. }
  intros i p H R.
  rewrite (ExcelFacts.estilos_en_rango _ _ _ H R).
  repeat split; intros ->; reflexivity.
Qed.

Lemma C8_three_rows_witness :
  Excel.estilos (Excel.exportar_excel visita_tres_respuestas) 0 = [Excel.format_green] /\
  Excel.estilos (Excel.exportar_excel visita_tres_respuestas) 1 = [Excel.format_red] /\
  Excel.estilos (Excel.exportar_excel visita_tres_respuestas) 2 = [Excel.format_gray].
Proof.
  pose proof (proj2 (proj2 (proj2 (C8_rows_and_styles visita_tres_respuestas)))) as H.
  split; [apply (proj1 (H 0%nat _ eq_refl ltac:(lia))); reflexivity|].
  split; [apply (proj1 (proj2 (H 1%nat _ eq_refl ltac:(lia)))); reflexivity|].
  apply (proj2 (proj2 (H 2%nat _ eq_refl ltac:(lia)))); reflexivity.
Defined.




(** ** The renderer's monad *)

Module RenderFacts.
Import Render RenderSpec.

Section Reglas.
Variable P : Op -> Prop.


























End Reglas.



(** *** Computations that never return *)




(** *** What a computation that returns has written *)


Lemma escribe_nunca (S : list Op -> Prop) {A} (m : M A) :
  nunca_termina m -> escribe S m.
Proof.
  intros H w a Ha. destruct (H w) as [e He]. congruence.
Qed.











(** *** Rows of calls in the document *)








End RenderFacts.

(** ** The blocks of the report *)

Module Informe.
Import Render RenderSpec RenderFacts.


Ltac excepcion := first [exact I | unfold del_cuerpo; auto].


Section Bloques.
Variable env : Entorno.
Variable est : EstadisticasJson.











(** *** The percentage of a section in the table and in the detail *)






(** *** A listed non-conformity *)





End Bloques.

End Informe.

(** ** The header and the whole report *)

Module Documento.
Import Render RenderSpec RenderFacts.

















End Documento.

(** ** The percentages on the page *)

Module PaginaFacts.
Import Pagina.



End PaginaFacts.

(** ** Statements about the document renderer *)

(** The sample statistics are those the endpoint returns for the sample
    databases. *)
Lemma estadisticas_de_muestra :
  (exists r,
     generar_reporte_empresa db_escenario_a RUC_DEMO = Ok r /\
     estadisticas_json (estadisticas r) = RenderSpec.estadisticas_demo /\
     preguntas (ultimo_formulario r) = preguntas visita_escenario_a) /\
  (exists r,
     generar_reporte_empresa db_conforme RUC_DEMO = Ok r /\
     estadisticas_json (estadisticas r) = RenderSpec.estadisticas_conforme /\
     preguntas (ultimo_formulario r) = preguntas visita_conforme).
Proof.
  split; eexists; (split; [vm_compute; reflexivity|]);
    split; vm_compute; reflexivity.
Qed.







(** What one chart block leaves on disk: nothing new when the chart goes
    through or fails while it is drawn, and its temporary file when saving
    the figure or embedding it fails. *)
Lemma bloque_grafico_archivos env g fig x y w a1 a2 (m : Render.Mundo) :
  ~ In (Render.siguiente m) (Render.archivos m) ->
  Render.archivos
    (snd (Render.bloque_grafico env g (Render.ret fig) x y w
            (Render.ret tt) a1 a2 m)) =
  match Render.falla env g with
  | None | Some Render.AlDibujar => Render.archivos m
  | Some _ => (Render.archivos m ++ [Render.siguiente m])%list
  end.
Proof.
  intros Fresh.
  assert (Q : Render.quitar (Render.siguiente m)
                (Render.archivos m ++ [Render.siguiente m]) = Render.archivos m).
  { unfold Render.quitar. rewrite filter_app. simpl.
    rewrite Nat.eqb_refl. simpl. rewrite app_nil_r.
    apply forallb_filter_id. apply forallb_forall. intros n Hn.
    apply negb_true_iff, Nat.eqb_neq. intros ->. contradiction. }
  assert (X : existsb (Nat.eqb (Render.siguiente m))
                (Render.archivos m ++ [Render.siguiente m]) = true).
  { rewrite existsb_app. simpl. now rewrite Nat.eqb_refl, orb_true_r. }
  unfold Render.bloque_grafico, Render.try_except, Render.cuerpo_grafico,
    Render.dibujar, Render.savefig, Render.image_archivo, Render.paso.
  destruct (Render.falla env g) as [[| |]|];
    cbv [Render.bind Render.ret Render.raise Render.NamedTemporaryFile
         Render.image Render.registrar Render.unlink Render.etapa_eqb
         Render.print Render.multi_cell];
    cbn [fst snd Render.pdf Render.abscisa Render.archivos Render.siguiente
         Render.stdout].
  1-3: destruct (Render.codificable env _); [destruct (_ && _)|]; reflexivity.
  rewrite X. cbn [snd Render.archivos]. exact Q.
Qed.

(** With every chart going through, a call leaves no file behind. *)
Lemma sin_fallos_no_quedan_archivos :
  Render.archivos
    (snd (Render.generate_pdf_report Render.todo_bien
            (empresa_json empresa_demo) RenderSpec.estadisticas_conforme
            (preguntas visita_conforme) "" None None
            RenderSpec.usuario_demo Render.mundo_inicial)) = [].
Proof. vm_compute. reflexivity. Qed.

(** C9 (the code leaves the file behind): in a run where embedding the
    bar chart fails, the line of text that replaces the chart is written
    and the call returns the finished report, but the temporary file of
    that chart is still on disk afterwards; the charts that went through
    left none.  In a run where embedding the summary chart fails, the
    call returns the error notice, and the temporary file of that chart
    is still on disk as well. *)
Theorem C9_temp_file_left_on_embed_failure :
  (exists ops w',
     Render.generate_pdf_report RenderSpec.fallan_las_barras
       (empresa_json empresa_demo) RenderSpec.estadisticas_conforme
       (preguntas visita_conforme) "" None None
       RenderSpec.usuario_demo Render.mundo_inicial = (Py.Val ops, w') /\
     In (Render.OpMultiCell 0 5
           (Render.T "No se pudo generar el gráfico por áreas")) ops /\
     In (Render.OpCell 0 5 (Render.T "www.sesaco.com.ec")) ops /\
     Render.archivos Render.mundo_inicial = [] /\
     Render.archivos w' = [1%nat] /\
     Render.siguiente w' = 4%nat) /\
  (exists w',
     Render.generate_pdf_report RenderSpec.falla_al_insertar
       (empresa_json empresa_demo) RenderSpec.estadisticas_conforme
       (preguntas visita_conforme) "" None None
       RenderSpec.usuario_demo Render.mundo_inicial =
     (Py.Val (Render.aviso_de_error Py.FPDFException), w') /\
     Render.archivos w' = [0%nat] /\
     Render.siguiente w' = 1%nat).
Proof.
  split.
  - eexists _, _. split; [vm_compute; reflexivity|].
    split; [repeat (first [left; reflexivity | right])|].
    split; [repeat (first [left; reflexivity | right])|].
    repeat split.
  - eexists. split; [vm_compute; reflexivity|]. split; reflexivity.
Qed.

(** ** The registry of companies and the store of forms *)

Module BackendFacts.
Import Py PyFacts Backend.

Lemma mem_get_none {V} (k : string) (d : dict V) :
  get k d = None -> mem k d = false.
Proof. unfold mem. now intros ->. Qed.

Lemma mem_get_some {V} (k : string) (d : dict V) (v : V) :
  get k d = Some v -> mem k d = true.
Proof. unfold mem. now intros ->. Qed.

Lemma values_set_new {V} (k : string) (v : V) (d : dict V) :
  get k d = None -> values (set k v d) = (values d ++ [v])%list.
Proof.
  unfold values. induction d as [|[k' v'] d IH]; simpl; [reflexivity|].
  destruct (String.eqb k k'); [discriminate|].
  intros H. simpl. now rewrite IH.
Qed.

Lemma get_values_In {V} (k : string) (v : V) (d : dict V) :
  get k d = Some v -> In v (values d).
Proof.
  unfold values. induction d as [|[k' v'] d IH]; simpl; [discriminate|].
  destruct (String.eqb k k').
  - intros [= ->]. now left.
  - intros H. right. auto.
Qed.

(** Filtering the values after an assignment, when no value passed the
    filter before. *)
Lemma filter_set_primero {V} (P : V -> bool) (k : string) (v : V) (d : dict V) :
  P v = true -> filter P (values d) = [] -> filter P (values (set k v d)) = [v].
Proof.
  unfold values. intros Pv. induction d as [|[k' v'] d IH]; simpl.
  - now rewrite Pv.
  - destruct (P v') eqn:E; [discriminate|]. intros H.
    destruct (String.eqb k k'); simpl.
    + now rewrite Pv, H.
    + rewrite E. auto.
Qed.

(** Filtering the values after the only value that passed the filter was
    overwritten under its key. *)
Lemma filter_set_reemplazo {V} (P : V -> bool) (k : string) (v0 v : V) (d : dict V) :
  get k d = Some v0 -> P v0 = true -> P v = true ->
  filter P (values d) = [v0] -> filter P (values (set k v d)) = [v].
Proof.
  intros G P0 Pv. unfold values.
  induction d as [|[k' v'] d IH]; simpl in *; [discriminate|].
  destruct (String.eqb k k') eqn:E; simpl.
  - injection G as ->. rewrite P0, Pv. now intros [= ->].
  - destruct (P v') eqn:E'.
    + intros [= -> H]. exfalso.
      pose proof (get_values_In _ _ _ G) as I.
      assert (I' : In v0 (filter P (map snd d))) by (apply filter_In; auto).
      rewrite H in I'. destruct I'.
    + auto.
Qed.

(** What one save leaves in the database. *)
Lemma guardar_formulario_hechos
  (isoformat : Py.datetime -> string) (fecha_por_defecto : Py.datetime)
  (db : Database) (b : FormularioBody) (cedula' : string) :
  Py.get (formulario_id isoformat
            (fst (guardar_formulario isoformat fecha_por_defecto db b cedula')))
         (formularios (snd (guardar_formulario isoformat fecha_por_defecto db b cedula')))
    = Some (fst (guardar_formulario isoformat fecha_por_defecto db b cedula')) /\
  In (fst (guardar_formulario isoformat fecha_por_defecto db b cedula'))
     (obtener_formularios_empresa
        (snd (guardar_formulario isoformat fecha_por_defecto db b cedula'))
        (b_empresa_ruc b)) /\
  empresas (snd (guardar_formulario isoformat fecha_por_defecto db b cedula'))
    = empresas db.
Proof.
  unfold guardar_formulario. cbv zeta. cbn [fst snd formularios empresas].
  split; [apply PyFacts.get_set_eq|]. split; [|reflexivity].
  unfold obtener_formularios_empresa. cbn [formularios].
  apply filter_In. split.
  - eapply get_values_In. apply PyFacts.get_set_eq.
  - cbn. apply String.eqb_refl.
Qed.

End BackendFacts.

(** ** Properties of the company endpoints *)

(** X1: Registering a company under a RUC that is not taken succeeds, the
    company can be looked up by its RUC straight away, it comes last in
    the listing, and the stored forms are untouched. *)
Theorem crear_buscar_empresa (db : Database) (e : Empresa) :
  Py.get (ruc e) (empresas db) = None ->
  fst (Backend.crear_empresa db e) = Ok e /\
  Backend.buscar_empresa (snd (Backend.crear_empresa db e)) (ruc e) = Ok e /\
  Backend.listar_empresas (snd (Backend.crear_empresa db e)) =
    (Backend.listar_empresas db ++ [e])%list /\
  formularios (snd (Backend.crear_empresa db e)) = formularios db.
Proof.
  intros H. unfold Backend.crear_empresa.
  rewrite (BackendFacts.mem_get_none _ _ H). cbn [fst snd].
  unfold Backend.buscar_empresa, Backend.listar_empresas. cbn [empresas formularios].
  rewrite PyFacts.get_set_eq, (BackendFacts.values_set_new _ _ _ H).
  repeat split.
Qed.

Lemma crear_buscar_empresa_witness :
  Py.get (ruc empresa_demo) (empresas {| empresas := []; formularios := [] |}) = None /\
  Backend.buscar_empresa
    (snd (Backend.crear_empresa {| empresas := []; formularios := [] |} empresa_demo))
    RUC_DEMO = Ok empresa_demo.
Proof.
  split; [reflexivity|].
  exact (proj1 (proj2 (crear_buscar_empresa
                         {| empresas := []; formularios := [] |} empresa_demo eq_refl))).
Defined.

(** X2: A second registration under a RUC that is taken is refused with
    status 400; the database is left as it was, so the company registered
    first is the one still found under that RUC. *)
Theorem crear_empresa_duplicada (db : Database) (e e0 : Empresa) :
  Py.get (ruc e) (empresas db) = Some e0 ->
  Backend.crear_empresa db e = (Raise Backend.EMPRESA_YA_REGISTRADA, db) /\
  status_code Backend.EMPRESA_YA_REGISTRADA = 400 /\
  Backend.buscar_empresa (snd (Backend.crear_empresa db e)) (ruc e) = Ok e0.
Proof.
  intros H. unfold Backend.crear_empresa.
  rewrite (BackendFacts.mem_get_some _ _ _ H). cbn [snd].
  unfold Backend.buscar_empresa. rewrite H. repeat split.
Qed.

Lemma crear_empresa_duplicada_witness :
  Backend.crear_empresa db_dos_visitas
    {| tipo := "Pública"; razon_social := "OTRA"; ruc := RUC_DEMO;
       actividad_economica := ""; direccion := ""; total_trabajadores := 1 |} =
  (Raise Backend.EMPRESA_YA_REGISTRADA, db_dos_visitas).
Proof.
  exact (proj1 (crear_empresa_duplicada db_dos_visitas
                  {| tipo := "Pública"; razon_social := "OTRA"; ruc := RUC_DEMO;
                     actividad_economica := ""; direccion := "";
                     total_trabajadores := 1 |} empresa_demo eq_refl)).
Defined.

(** X3: Registering a company changes nothing for any other RUC: the lookup
    and the report of every other company are the same before and after,
    whether the registration went through or not. *)
Theorem crear_empresa_no_toca_otras (db : Database) (e : Empresa) (ruc' : string) :
  ruc' <> ruc e ->
  Backend.buscar_empresa (snd (Backend.crear_empresa db e)) ruc' =
    Backend.buscar_empresa db ruc' /\
  generar_reporte_empresa (snd (Backend.crear_empresa db e)) ruc' =
    generar_reporte_empresa db ruc'.
Proof.
  intros N. unfold Backend.crear_empresa.
  destruct (Py.mem (ruc e) (empresas db)); cbn [snd]; [split; reflexivity|].
  unfold Backend.buscar_empresa, generar_reporte_empresa, formularios_de.
  cbn [empresas formularios]. rewrite (PyFacts.get_set_neq _ _ _ _ _ N).
  split; reflexivity.
Qed.

Lemma crear_empresa_no_toca_otras_witness :
  generar_reporte_empresa
    (snd (Backend.crear_empresa db_dos_visitas
            {| tipo := "Pública"; razon_social := "OTRA"; ruc := "0990000000001";
               actividad_economica := ""; direccion := ""; total_trabajadores := 1 |}))
    RUC_DEMO =
  generar_reporte_empresa db_dos_visitas RUC_DEMO.
Proof.
  apply (crear_empresa_no_toca_otras db_dos_visitas
           {| tipo := "Pública"; razon_social := "OTRA"; ruc := "0990000000001";
              actividad_economica := ""; direccion := ""; total_trabajadores := 1 |}
           RUC_DEMO).
  discriminate.
Defined.

(** ** Properties of the form endpoints *)

(** X4: A saved form is attributed to the caller, whatever inspector the body
    names; it is stored under its id, it is among the forms returned for
    its company (and in the risk matrix, which is the same list), and the
    registry of companies is untouched.  The company need not exist. *)
Theorem guardar_obtener_formulario
  (isoformat : Py.datetime -> string) (fecha_por_defecto : Py.datetime)
  (db : Database) (b : Backend.FormularioBody) (cedula : string) :
  inspector_cedula (fst (Backend.guardar_formulario isoformat fecha_por_defecto db b cedula))
    = cedula /\
  Py.get (Backend.formulario_id isoformat
            (fst (Backend.guardar_formulario isoformat fecha_por_defecto db b cedula)))
         (formularios (snd (Backend.guardar_formulario isoformat fecha_por_defecto db b cedula)))
    = Some (fst (Backend.guardar_formulario isoformat fecha_por_defecto db b cedula)) /\
  In (fst (Backend.guardar_formulario isoformat fecha_por_defecto db b cedula))
     (Backend.obtener_formularios_empresa
        (snd (Backend.guardar_formulario isoformat fecha_por_defecto db b cedula))
        (Backend.b_empresa_ruc b)) /\
  Backend.obtener_matriz_riesgos
    (snd (Backend.guardar_formulario isoformat fecha_por_defecto db b cedula))
    (Backend.b_empresa_ruc b) =
  Backend.obtener_formularios_empresa
    (snd (Backend.guardar_formulario isoformat fecha_por_defecto db b cedula))
    (Backend.b_empresa_ruc b) /\
  empresas (snd (Backend.guardar_formulario isoformat fecha_por_defecto db b cedula))
    = empresas db.
Proof.
  destruct (BackendFacts.guardar_formulario_hechos
              isoformat fecha_por_defecto db b cedula) as (G & I & E).
  split; [reflexivity|]. split; [exact G|]. split; [exact I|].
  split; [reflexivity|exact E].
Qed.

(** X5: Two forms of one company with the same date share one id, so the
    second save replaces the first.  In particular two submissions that
    leave the date out both take the default fixed at start-up: for a
    company without stored forms, after both saves only the second form
    is on record. *)
Theorem guardar_misma_fecha_reemplaza
  (isoformat : Py.datetime -> string) (fecha_por_defecto : Py.datetime)
  (db : Database) (b1 b2 : Backend.FormularioBody) (c1 c2 : string) :
  formularios_de db (Backend.b_empresa_ruc b1) = [] ->
  Backend.b_empresa_ruc b2 = Backend.b_empresa_ruc b1 ->
  Backend.b_fecha b2 = Backend.b_fecha b1 ->
  Backend.obtener_formularios_empresa
    (snd (Backend.guardar_formulario isoformat fecha_por_defecto
            (snd (Backend.guardar_formulario isoformat fecha_por_defecto db b1 c1))
            b2 c2))
    (Backend.b_empresa_ruc b1) =
  [fst (Backend.guardar_formulario isoformat fecha_por_defecto
          (snd (Backend.guardar_formulario isoformat fecha_por_defecto db b1 c1))
          b2 c2)].
Proof.
  intros H0 Hr Hf.
  unfold Backend.guardar_formulario, Backend.obtener_formularios_empresa,
    Backend.parsear_formulario, Backend.formulario_id.
  cbv zeta. cbn [fst snd formularios empresas empresa_ruc fecha preguntas
                 inspector_cedula].
  rewrite Hr, Hf.
  eapply BackendFacts.filter_set_reemplazo.
  - apply PyFacts.get_set_eq.
  - cbn. apply String.eqb_refl.
  - cbn. apply String.eqb_refl.
  - apply BackendFacts.filter_set_primero; [cbn; apply String.eqb_refl|].
    exact H0.
Qed.

Lemma guardar_misma_fecha_reemplaza_witness :
  Backend.obtener_formularios_empresa
    (snd (Backend.guardar_formulario (fun _ => "2024-01-01T00:00:00") (Py.naive 7)
            (snd (Backend.guardar_formulario (fun _ => "2024-01-01T00:00:00") (Py.naive 7)
                    (db_demo [])
                    {| Backend.b_empresa_ruc := RUC_DEMO;
                       Backend.b_inspector_cedula := "";
                       Backend.b_fecha := None;
                       Backend.b_preguntas := preguntas visita_1 |} "1722212253"))
            {| Backend.b_empresa_ruc := RUC_DEMO;
               Backend.b_inspector_cedula := "";
               Backend.b_fecha := None;
               Backend.b_preguntas := preguntas visita_2 |} "1722212253"))
    RUC_DEMO =
  [ {| empresa_ruc := RUC_DEMO; inspector_cedula := "1722212253"; fecha := Py.naive 7;
       preguntas := preguntas visita_2 |} ].
Proof.
  exact (guardar_misma_fecha_reemplaza (fun _ => "2024-01-01T00:00:00") (Py.naive 7)
           (db_demo [])
           {| Backend.b_empresa_ruc := RUC_DEMO; Backend.b_inspector_cedula := "";
              Backend.b_fecha := None; Backend.b_preguntas := preguntas visita_1 |}
           {| Backend.b_empresa_ruc := RUC_DEMO; Backend.b_inspector_cedula := "";
              Backend.b_fecha := None; Backend.b_preguntas := preguntas visita_2 |}
           "1722212253" "1722212253" eq_refl eq_refl eq_refl).
Defined.

(** X6: Once a form is saved for a registered company the report endpoint
    answers with statistics when the dates stored for the company
    compare: it names that company and counts at least one verification;
    when a naive date stands next to one with an offset, the report
    fails with [TypeError].  A form saved for a RUC that is not
    registered is kept all the same, and the report for that RUC is
    still refused with the company-not-found error. *)
Theorem guardar_luego_reporte
  (isoformat : Py.datetime -> string) (fecha_por_defecto : Py.datetime)
  (db : Database) (b : Backend.FormularioBody) (cedula : string) :
  (forall e, Py.get (Backend.b_empresa_ruc b) (empresas db) = Some e ->
     (fechas_comparables
        (map fecha
           (formularios_de
              (snd (Backend.guardar_formulario isoformat fecha_por_defecto
                      db b cedula))
              (Backend.b_empresa_ruc b))) = true ->
      exists r,
        generar_reporte_empresa
          (snd (Backend.guardar_formulario isoformat fecha_por_defecto db b cedula))
          (Backend.b_empresa_ruc b) = Ok r /\
        empresa r = e /\
        1 <= total_verificaciones (estadisticas r)) /\
     (fechas_comparables
        (map fecha
           (formularios_de
              (snd (Backend.guardar_formulario isoformat fecha_por_defecto
                      db b cedula))
              (Backend.b_empresa_ruc b))) = false ->
      generar_reporte_empresa
        (snd (Backend.guardar_formulario isoformat fecha_por_defecto db b cedula))
        (Backend.b_empresa_ruc b) = Falla Py.TypeError)) /\
  (Py.get (Backend.b_empresa_ruc b) (empresas db) = None ->
     generar_reporte_empresa
       (snd (Backend.guardar_formulario isoformat fecha_por_defecto db b cedula))
       (Backend.b_empresa_ruc b) = Raise EMPRESA_NO_ENCONTRADA /\
     Backend.obtener_formularios_empresa
       (snd (Backend.guardar_formulario isoformat fecha_por_defecto db b cedula))
       (Backend.b_empresa_ruc b) <> []).
Proof.
  destruct (BackendFacts.guardar_formulario_hechos
              isoformat fecha_por_defecto db b cedula) as (_ & I & E).
  split.
  - intros e He.
    assert (He' : Py.get (Backend.b_empresa_ruc b)
                    (empresas (snd (Backend.guardar_formulario isoformat
                                      fecha_por_defecto db b cedula))) = Some e)
      by (now rewrite E).
    change (Backend.obtener_formularios_empresa ?d ?r) with (formularios_de d r) in I.
    destruct (formularios_de
                (snd (Backend.guardar_formulario isoformat fecha_por_defecto db b cedula))
                (Backend.b_empresa_ruc b)) as [|f0 rest] eqn:F; [destruct I|].
    split; intros C.
    + destruct (proj1 (Endpoint.max_desde_comparables
                         (fecha f0) (map fecha rest)) C) as [u M].
      rewrite (Endpoint.generar_reporte_empresa_ok _ _ _ _ _ _ He' F M).
      eexists. split; [reflexivity|]. split; [reflexivity|].
      cbn [estadisticas total_verificaciones List.length]. lia.
    + apply (Endpoint.generar_reporte_empresa_falla _ _ _ _ _ He' F).
      now apply (Endpoint.max_desde_no_comparables (fecha f0) (map fecha rest)).
  - intros Hn. split.
    + unfold generar_reporte_empresa. now rewrite E, Hn.
    + intros Z0. rewrite Z0 in I. destruct I.
Qed.

(** ** Properties of the authentication endpoints *)

(** X7: When every user is stored under their own cédula, a login that
    succeeds hands out the user's cédula as the token, and presenting that
    token to the current-user endpoint returns the same user, whose stored
    hash the password verified against.  A login that fails always fails
    with the same 401 response, for an unknown cédula as for a wrong
    password. *)
Theorem login_luego_usuario_actual
  (verificar_password : string -> string -> bool)
  (usuarios : Py.dict Backend.Usuario) (username password : string) :
  Backend.usuarios_coherentes usuarios ->
  (forall tok,
     Backend.login verificar_password usuarios username password = Ok tok ->
     Backend.access_token tok = username /\
     exists u,
       Backend.read_usuario_actual usuarios (Backend.access_token tok) = Ok u /\
       Backend.cedula u = username /\
       Backend.t_nombre tok = Backend.nombre u /\
       Backend.t_rol tok = Backend.rol u /\
       verificar_password password (Backend.hashed_password u) = true) /\
  (forall x,
     Backend.login verificar_password usuarios username password = Raise x ->
     x = Backend.CREDENCIALES_INCORRECTAS /\ status_code x = 401 /\
     (Backend.get_usuario usuarios username = None \/
      exists u, Backend.get_usuario usuarios username = Some u /\
                verificar_password password (Backend.hashed_password u) = false)).
Proof.
  intros C. unfold Backend.login, Backend.read_usuario_actual.
  destruct (Backend.get_usuario usuarios username) as [u|] eqn:G.
  - pose proof (C _ _ G) as K.
    destruct (verificar_password password (Backend.hashed_password u)) eqn:V;
      cbn [negb].
    + split; [|discriminate].
      intros tok [= <-]. cbn [Backend.access_token Backend.t_nombre Backend.t_rol].
      split; [exact K|]. exists u. rewrite K, G. repeat split; auto.
    + split; [discriminate|].
      intros x [= <-]. repeat split. right. exists u. auto.
  - split; [discriminate|].
    intros x [= <-]. repeat split. now left.
Qed.

Lemma login_luego_usuario_actual_witness :
  Backend.usuarios_coherentes (Backend.usuarios_iniciales "hash") /\
  exists tok,
    Backend.login String.eqb (Backend.usuarios_iniciales "hash")
      "1722212253" "hash" = Ok tok /\
    Backend.access_token tok = "1722212253".
Proof.
  assert (C : Backend.usuarios_coherentes (Backend.usuarios_iniciales "hash")).
  { intros k u. unfold Backend.usuarios_iniciales. cbn [Py.get].
    destruct (String.eqb k "1722212253") eqn:E; [|discriminate].
    apply String.eqb_eq in E. intros [= <-]. now rewrite E. }
  split; [exact C|].
  eexists. split; [reflexivity|].
  exact (proj1 (proj1 (login_luego_usuario_actual String.eqb
                         (Backend.usuarios_iniciales "hash")
                         "1722212253" "hash" C) _ eq_refl)).
Defined.

(** ** The grouping loop of the checklist structure *)

Module EstructuraFacts.
Import Py PyFacts Estructura.

Lemma agregar_pregunta_anotar e p :
  agregar_pregunta e p =
  modify (seccion p) (anotar p)
    (if negb (mem (seccion p) e) then set (seccion p) [] e else e).
Proof. unfold agregar_pregunta, anotar. cbv zeta. now rewrite modify_modify. Qed.

Lemma get_agregar_otra s e p :
  seccion p <> s -> get s (agregar_pregunta e p) = get s e.
Proof.
  intros N. assert (N' : s <> seccion p) by congruence.
  rewrite agregar_pregunta_anotar, get_modify_neq by exact N'.
  destruct (negb (mem (seccion p) e)); [now rewrite get_set_neq|reflexivity].
Qed.

Lemma get_agregar_propia e p :
  get (seccion p) (agregar_pregunta e p) =
  Some (anotar p (get_or (get (seccion p) e) [])).
Proof.
  rewrite agregar_pregunta_anotar, get_modify_eq. unfold mem.
  destruct (get (seccion p) e) as [cats|] eqn:G; cbn [negb].
  - now rewrite G.
  - now rewrite get_set_eq.
Qed.

Lemma get_anotar_otra c p cats :
  categoria p <> c -> get c (anotar p cats) = get c cats.
Proof.
  intros N. assert (N' : c <> categoria p) by congruence.
  unfold anotar. rewrite get_modify_neq by exact N'.
  destruct (negb (mem (categoria p) cats)); [now rewrite get_set_neq|reflexivity].
Qed.

Lemma get_anotar_propia p cats :
  get (categoria p) (anotar p cats) =
  Some (get_or (get (categoria p) cats) [] ++ [p])%list.
Proof.
  unfold anotar, mem. rewrite get_modify_eq.
  destruct (get (categoria p) cats) as [l|] eqn:G; cbn [negb].
  - now rewrite G.
  - now rewrite get_set_eq.
Qed.

Lemma grupo_fold s c qs :
  grupo s c (fold_left agregar_pregunta qs []) =
  if existsb (en_grupo s c) qs then Some (filter (en_grupo s c) qs) else None.
Proof.
  induction qs as [|p qs IH] using rev_ind; [reflexivity|].
  rewrite fold_left_app, existsb_app, filter_app.
  change (fold_left agregar_pregunta [p] ?a) with (agregar_pregunta a p).
  set (e := fold_left agregar_pregunta qs []) in *.
  cbn [existsb filter]. rewrite orb_false_r.
  unfold grupo in *.
  destruct (string_dec (seccion p) s) as [Es|Es].
  - subst s. rewrite get_agregar_propia.
    assert (K : get c (get_or (get (seccion p) e) []) =
                if existsb (en_grupo (seccion p) c) qs
                then Some (filter (en_grupo (seccion p) c) qs) else None).
    { rewrite <- IH. now destruct (get (seccion p) e). }
    destruct (string_dec (categoria p) c) as [Ec|Ec].
    + subst c.
      assert (T : en_grupo (seccion p) (categoria p) p = true)
        by (unfold en_grupo; now rewrite !String.eqb_refl).
      rewrite T, get_anotar_propia, K, orb_true_r.
      destruct (existsb (en_grupo (seccion p) (categoria p)) qs) eqn:X;
        cbn [get_or]; [reflexivity|].
      assert (F : filter (en_grupo (seccion p) (categoria p)) qs = []).
      { clear -X. induction qs as [|q qs IH]; [reflexivity|].
        cbn [existsb filter] in *. apply orb_false_iff in X as [X1 X2].
        rewrite X1. auto. }
      now rewrite F.
    + assert (T : en_grupo (seccion p) c p = false).
      { unfold en_grupo. apply String.eqb_neq in Ec. rewrite Ec.
        apply andb_false_r. }
      rewrite T, get_anotar_otra by exact Ec.
      now rewrite K, orb_false_r, app_nil_r.
  - assert (T : en_grupo s c p = false).
    { unfold en_grupo. apply String.eqb_neq in Es. now rewrite Es. }
    rewrite T, get_agregar_otra by exact Es.
    now rewrite IH, orb_false_r, app_nil_r.
Qed.

Lemma cuantas_anotar p cats :
  total_de (fun l : list PreguntaVerificacion => Z.of_nat (List.length l))
           (anotar p cats) =
  total_de (fun l : list PreguntaVerificacion => Z.of_nat (List.length l)) cats + 1.
Proof.
  unfold anotar.
  rewrite (total_de_modify _ _ 1).
  - destruct (mem (categoria p) cats) eqn:M; cbn [negb]; [reflexivity|].
    rewrite total_de_set_new by exact M. cbn. lia.
  - destruct (mem (categoria p) cats) eqn:M; cbn [negb]; [exact M|apply mem_set].
  - intros l. rewrite length_app. cbn. lia.
Qed.

Lemma cuantas_agregar e p : cuantas (agregar_pregunta e p) = cuantas e + 1.
Proof.
  unfold cuantas. rewrite agregar_pregunta_anotar.
  rewrite (total_de_modify _ _ 1).
  - destruct (mem (seccion p) e) eqn:M; cbn [negb]; [reflexivity|].
    rewrite total_de_set_new by exact M.
    change (total_de (fun l : list PreguntaVerificacion =>
                        Z.of_nat (List.length l)) []) with 0.
    now rewrite Z.add_0_r.
  - destruct (mem (seccion p) e) eqn:M; cbn [negb]; [exact M|apply mem_set].
  - intros cats. apply cuantas_anotar.
Qed.

End EstructuraFacts.

(** ** Properties of the checklist structure *)

(** X8: The structure endpoint files every question under its section and its
    category: the list found under a section and a category is exactly
    the questions of the file that carry that section and that category,
    in the order of the file, and a pair that no question carries has no
    entry.  When the file is missing the structure is empty. *)
Theorem estructura_agrupa_por_seccion_y_categoria
  (archivo : option (list PreguntaVerificacion)) (s c : string) :
  Estructura.grupo s c (Estructura.obtener_estructura_formulario archivo) =
    (if existsb (Estructura.en_grupo s c) (Estructura.cargar_preguntas archivo)
     then Some (filter (Estructura.en_grupo s c) (Estructura.cargar_preguntas archivo))
     else None) /\
  (archivo = None -> Estructura.obtener_estructura_formulario archivo = []).
Proof.
  split; [apply EstructuraFacts.grupo_fold|]. now intros ->.
Qed.

(** X9: The structure holds every question of the file exactly once: the
    lists of all categories of all sections add up to the number of
    questions read. *)
Theorem estructura_conserva_las_preguntas
  (archivo : option (list PreguntaVerificacion)) :
  Estructura.cuantas (Estructura.obtener_estructura_formulario archivo) =
  Z.of_nat (List.length (Estructura.cargar_preguntas archivo)).
Proof.
  unfold Estructura.obtener_estructura_formulario.
  induction (Estructura.cargar_preguntas archivo) as [|p qs IH] using rev_ind;
    [reflexivity|].
  rewrite fold_left_app, length_app.
  change (fold_left Estructura.agregar_pregunta [p] ?a)
    with (Estructura.agregar_pregunta a p).
  rewrite EstructuraFacts.cuantas_agregar, IH. cbn. lia.
Qed.

(** ** Stripping, cutting and replacing *)

Module SafeTextFacts.
Import SafeText.

Lemma fold_replace (tbl : list (N * N)) :
  forall t : str,
    fold_left (fun acc kv => replace (fst kv) (snd kv) acc) tbl t =
    map (fun c => fold_left (fun c kv => if (c =? fst kv)%N then snd kv else c)
                            tbl c) t.
Proof.
  induction tbl as [|kv tbl IH]; intros t; cbn [fold_left].
  - now rewrite map_id.
  - rewrite IH. unfold replace. now rewrite map_map.
Qed.

Ltac por_casos c :=
  repeat match goal with
    | |- context [(c =? ?k)%N] =>
        destruct (N.eqb_spec c k) as [->|?]; [reflexivity|]
    end.

Lemma sin_acento_limpio (c : N) : acentuada (sin_acento c) = false.
Proof.
  unfold sin_acento, replacements. cbn [fold_left fst snd].
  por_casos c.
  unfold acentuada, replacements. cbn [existsb fst].
  repeat match goal with
    | H : c <> ?k |- _ => apply N.eqb_neq in H; rewrite H; clear H
    end.
  reflexivity.
Qed.

Lemma sin_acento_fijo (c : N) : acentuada c = false -> sin_acento c = c.
Proof.
  unfold acentuada, replacements. cbn [existsb fst]. intros H.
  repeat (apply orb_false_iff in H; destruct H as [? H]).
  unfold sin_acento, replacements. cbn [fold_left fst snd].
  repeat match goal with
    | E : (c =? ?k)%N = false |- _ => rewrite E; clear E
    end.
  reflexivity.
Qed.

Lemma lstrip_sufijo (l : str) : exists pre, l = (pre ++ lstrip l)%list.
Proof.
  induction l as [|c l [pre IH]]; [now exists []|]. cbn.
  destruct (isspace c); [|now exists []].
  exists (c :: pre). cbn. now rewrite <- IH.
Qed.

Lemma lstrip_idem (l : str) : lstrip (lstrip l) = lstrip l.
Proof.
  induction l as [|c l IH]; [reflexivity|]. cbn.
  destruct (isspace c) eqn:E; [exact IH|]. cbn. now rewrite E.
Qed.

Lemma lstrip_app (a b : str) :
  lstrip (a ++ b)%list = if forallb isspace a then lstrip b else (lstrip a ++ b)%list.
Proof.
  induction a as [|c a IH]; [reflexivity|]. cbn.
  destruct (isspace c); [exact IH|reflexivity].
Qed.

Lemma lstrip_espacios (a : str) : forallb isspace a = true -> lstrip a = [].
Proof.
  induction a as [|c a IH]; [reflexivity|]. cbn.
  destruct (isspace c); [exact IH|discriminate].
Qed.

Lemma forallb_rev_eq (f : N -> bool) (l : str) : forallb f (rev l) = forallb f l.
Proof.
  induction l as [|c l IH]; [reflexivity|]. cbn.
  rewrite forallb_app, IH. cbn. rewrite andb_true_r. apply andb_comm.
Qed.

Lemma rstrip_cons (c : N) (l : str) :
  rstrip (c :: l) =
  if forallb isspace l then (if isspace c then [] else [c]) else c :: rstrip l.
Proof.
  unfold rstrip. cbn [rev]. rewrite lstrip_app, forallb_rev_eq.
  destruct (forallb isspace l).
  - cbn. now destruct (isspace c).
  - now rewrite rev_app_distr.
Qed.

Lemma strip_conmuta (l : str) : lstrip (rstrip l) = rstrip (lstrip l).
Proof.
  induction l as [|c l IH]; [reflexivity|].
  rewrite rstrip_cons. cbn [lstrip].
  destruct (isspace c) eqn:E; destruct (forallb isspace l) eqn:A.
  - now rewrite (lstrip_espacios _ A).
  - cbn [lstrip]. now rewrite E.
  - cbn [lstrip]. now rewrite E, rstrip_cons, A, E.
  - cbn [lstrip]. now rewrite E, rstrip_cons, A.
Qed.

Lemma rstrip_idem (l : str) : rstrip (rstrip l) = rstrip l.
Proof. unfold rstrip. now rewrite rev_involutive, lstrip_idem. Qed.

Lemma strip_idem (l : str) : strip (strip l) = strip l.
Proof.
  unfold strip.
  rewrite (strip_conmuta (lstrip (rstrip l))), lstrip_idem.
  now rewrite <- strip_conmuta, rstrip_idem.
Qed.

Lemma lstrip_Forall (P : N -> Prop) (l : str) : Forall P l -> Forall P (lstrip l).
Proof.
  intros H. destruct (lstrip_sufijo l) as [pre E].
  rewrite E in H. now apply Forall_app in H.
Qed.

Lemma lstrip_length (l : str) : (List.length (lstrip l) <= List.length l)%nat.
Proof.
  destruct (lstrip_sufijo l) as [pre E]. rewrite E at 2.
  rewrite length_app. lia.
Qed.

Lemma strip_Forall (P : N -> Prop) (l : str) : Forall P l -> Forall P (strip l).
Proof.
  intros H. unfold strip, rstrip. apply lstrip_Forall.
  apply Forall_rev, lstrip_Forall, Forall_rev, H.
Qed.

Lemma strip_length (l : str) : (List.length (strip l) <= List.length l)%nat.
Proof.
  unfold strip, rstrip.
  pose proof (lstrip_length (rev (lstrip (rev l)))) as A.
  pose proof (lstrip_length (rev l)) as B.
  rewrite !length_rev in *. lia.
Qed.

Lemma hasta_Forall (P : N -> Prop) (n : Z) (l : str) :
  Forall P l -> Forall P (hasta n l).
Proof.
  intros H. unfold hasta.
  destruct (n <? 0);
    match goal with |- Forall _ (firstn ?k l) =>
      rewrite <- (firstn_skipn k l) in H; now apply Forall_app in H
    end.
Qed.

Lemma hasta_length (n : Z) (l : str) :
  0 <= n -> (List.length (hasta n l) <= Z.to_nat n)%nat.
Proof.
  intros H. unfold hasta. destruct (n <? 0) eqn:E; [apply Z.ltb_lt in E; lia|].
  apply firstn_le_length.
Qed.

Lemma hasta_todo (n : Z) (l : str) :
  0 <= n -> (List.length l <= Z.to_nat n)%nat -> hasta n l = l.
Proof.
  intros H L. unfold hasta. destruct (n <? 0) eqn:E; [apply Z.ltb_lt in E; lia|].
  now apply firstn_all2.
Qed.

(** The three steps of [safe_text] on a text. *)
Lemma safe_text_pasos (t : str) (n : Z) :
  safe_text (Some t) n = strip (hasta n (map sin_acento t)).
Proof.
  unfold safe_text. cbv zeta. now rewrite fold_replace.
Qed.

Lemma sin_acentos (t : str) :
  Forall (fun c => acentuada c = false) (map sin_acento t).
Proof.
  apply Forall_map, Forall_forall. intros c _. apply sin_acento_limpio.
Qed.

Lemma map_sin_acento_fijo (t : str) :
  Forall (fun c => acentuada c = false) t -> map sin_acento t = t.
Proof.
  intros F. induction F as [|c t Hc _ IH]; [reflexivity|].
  cbn [map]. now rewrite IH, (sin_acento_fijo c Hc).
Qed.

End SafeTextFacts.

(** ** Properties of [safe_text] *)

(** X10: Whatever the text and the bound, the result of [safe_text] holds none
    of the fourteen accented letters of the table and neither starts nor
    ends with white space; with a bound that is not negative it is at most
    that many characters long.  No text at all gives the empty text. *)
Theorem safe_text_limpio_y_acotado (text : option SafeText.str) (max_length : Z) :
  Forall (fun c => SafeText.acentuada c = false)
         (SafeText.safe_text text max_length) /\
  SafeText.lstrip (SafeText.safe_text text max_length) =
    SafeText.safe_text text max_length /\
  SafeText.rstrip (SafeText.safe_text text max_length) =
    SafeText.safe_text text max_length /\
  (0 <= max_length ->
   Z.of_nat (List.length (SafeText.safe_text text max_length)) <= max_length) /\
  SafeText.safe_text None max_length = [].
Proof.
  destruct text as [t|]; [|repeat split; try constructor; intros; cbn; lia].
  rewrite SafeTextFacts.safe_text_pasos.
  split.
  { apply SafeTextFacts.strip_Forall, SafeTextFacts.hasta_Forall,
      SafeTextFacts.sin_acentos. }
  split; [unfold SafeText.strip; apply SafeTextFacts.lstrip_idem|].
  split.
  { unfold SafeText.strip. rewrite SafeTextFacts.strip_conmuta.
    apply SafeTextFacts.rstrip_idem. }
  split; [|reflexivity].
  intros H.
  pose proof (SafeTextFacts.strip_length
                (SafeText.hasta max_length (map SafeText.sin_acento t))) as A.
  pose proof (SafeTextFacts.hasta_length max_length
                (map SafeText.sin_acento t) H) as B.
  lia.
Qed.

(** X11: With a bound that is not negative [safe_text] is idempotent: cleaning
    a cleaned text again changes nothing. *)
Theorem safe_text_idempotente (text : option SafeText.str) (max_length : Z) :
  0 <= max_length ->
  SafeText.safe_text (Some (SafeText.safe_text text max_length)) max_length =
  SafeText.safe_text text max_length.
Proof.
  intros H. destruct text as [t|].
  2:{ change (SafeText.safe_text None max_length) with (@nil N).
      rewrite SafeTextFacts.safe_text_pasos. cbn [map].
      unfold SafeText.hasta. destruct (max_length <? 0);
        now rewrite firstn_nil. }
  rewrite !SafeTextFacts.safe_text_pasos.
  set (h := SafeText.hasta max_length (map SafeText.sin_acento t)).
  assert (F : Forall (fun c => SafeText.acentuada c = false) (SafeText.strip h)).
  { apply SafeTextFacts.strip_Forall, SafeTextFacts.hasta_Forall,
      SafeTextFacts.sin_acentos. }
  rewrite (SafeTextFacts.map_sin_acento_fijo _ F).
  rewrite SafeTextFacts.hasta_todo; [apply SafeTextFacts.strip_idem|exact H|].
  pose proof (SafeTextFacts.strip_length h) as A.
  pose proof (SafeTextFacts.hasta_length max_length
                (map SafeText.sin_acento t) H) as B.
  fold h in B. lia.
Qed.

Lemma safe_text_idempotente_witness :
  SafeText.safe_text
    (Some (SafeText.safe_text (Some [32; 243; 241; 65; 32; 66; 32]%N) 6)) 6 =
  [111; 110; 65; 32; 66]%N.
Proof.
  rewrite (safe_text_idempotente (Some [32; 243; 241; 65; 32; 66; 32]%N) 6)
    by discriminate.
  reflexivity.
Defined.

(** ** Building and sending the checklist *)

Module FormularioFacts.
Import Formulario.

Lemma recorrer_Forall2 {A B} (f : A -> option B) (l : list A) :
  forall ys, recorrer f l = Some ys <-> Forall2 (fun x y => f x = Some y) l ys.
Proof.
  induction l as [|x l IH]; intros ys; cbn [recorrer].
  - split; [intros [= <-]; constructor|intros H; now inversion H].
  - destruct (f x) as [y|] eqn:E.
    + destruct (recorrer f l) as [ys'|] eqn:R.
      * split.
        -- intros [= <-]. constructor; [exact E|]. now apply IH.
        -- intros H. inversion H as [|? y0 ? ys0 Hy Hys]; subst.
           rewrite E in Hy. injection Hy as <-.
           apply IH in Hys. now injection Hys as <-.
      * split; [discriminate|].
        intros H. inversion H as [|? y0 ? ys0 Hy Hys]; subst.
        apply IH in Hys. discriminate.
    + split; [discriminate|].
      intros H. inversion H as [|? y0 ? ys0 Hy Hys]; subst. congruence.
Qed.

Lemma recorrer_total {A B} (f : A -> option B) (l : list A) :
  (forall x, In x l -> exists y, f x = Some y) <->
  exists ys, recorrer f l = Some ys.
Proof.
  induction l as [|x l IH]; cbn [recorrer].
  - split; [now exists []|intros _ x []].
  - split.
    + intros H. destruct (H x (or_introl eq_refl)) as [y ->].
      destruct (proj1 IH (fun z Hz => H z (or_intror Hz))) as [ys ->].
      now eexists.
    + intros [ys H] z [<-|Hz].
      * destruct (f x); [now eexists|discriminate].
      * destruct (f x); [|discriminate].
        destruct (recorrer f l) as [ys'|]; [|discriminate].
        apply (proj2 IH); [now eexists|exact Hz].
Qed.

Lemma Forall2_map_eq {A B C} (R : A -> B -> Prop) (g : B -> C) (h : A -> C)
  (l : list A) (ys : list B) :
  Forall2 R l ys -> (forall x y, R x y -> g y = h x) -> map g ys = map h l.
Proof.
  intros F H. induction F as [|x y l ys Rxy _ IH]; [reflexivity|].
  cbn. now rewrite IH, (H _ _ Rxy).
Qed.

(** A field of the built questions, read off the catalog. *)
Lemma campo_construido {C} (ses : session_state) (cat : catalogo)
  (qs : list PreguntaVerificacion)
  (g : PreguntaVerificacion -> C)
  (h : string * SeccionCatalogo -> PreguntaCatalogo -> C) :
  (forall kv p q, construir_pregunta ses (fst kv) (snd kv) p = Some q ->
                  g q = h kv p) ->
  preguntas_respuestas ses cat = Some qs ->
  map g qs = flat_map (fun kv => map (h kv) (questions (snd kv))) cat.
Proof.
  intros H. unfold preguntas_respuestas.
  destruct (recorrer _ cat) as [grupos|] eqn:R; [|discriminate].
  intros [= <-]. apply recorrer_Forall2 in R.
  rewrite concat_map, flat_map_concat_map. f_equal.
  eapply Forall2_map_eq; [exact R|].
  intros kv grupo Rg. cbv beta in Rg. apply recorrer_Forall2 in Rg.
  eapply Forall2_map_eq; [exact Rg|]. intros p q. apply H.
Qed.

(** The section names of the built questions, in order. *)
Lemma secciones_construidas (ses : session_state) (cat : catalogo)
  (qs : list PreguntaVerificacion) :
  preguntas_respuestas ses cat = Some qs ->
  map seccion qs =
  flat_map (fun kv => map (fun _ => fst kv) (questions (snd kv))) cat.
Proof.
  apply (campo_construido ses cat qs seccion (fun kv _ => fst kv)).
  intros kv p q. unfold construir_pregunta. cbv zeta.
  destruct (id_numerico (q_id p)); [|discriminate]. now intros [= <-].
Qed.

Lemma solo_digitos_app (a b : string) :
  solo_digitos (a ++ b) = solo_digitos a ++ solo_digitos b.
Proof.
  induction a as [|c a IH]; [reflexivity|]. cbn.
  destruct (isdigit c); cbn; now rewrite IH.
Qed.

Lemma preguntas_respuestas_total (ses : session_state) (cat : catalogo) :
  ids_validos cat <-> exists qs, preguntas_respuestas ses cat = Some qs.
Proof.
  unfold preguntas_respuestas, ids_validos. split.
  - intros H.
    assert (T : exists grupos,
               recorrer (fun kv => recorrer (construir_pregunta ses (fst kv) (snd kv))
                                            (questions (snd kv))) cat = Some grupos).
    { apply recorrer_total. intros kv Hkv. apply recorrer_total.
      intros p Hp. destruct (H kv p Hkv Hp) as [n Hn].
      unfold construir_pregunta. cbv zeta. rewrite Hn. now eexists. }
    destruct T as [grupos ->]. now eexists.
  - intros [qs H] kv p Hkv Hp.
    destruct (recorrer _ cat) as [grupos|] eqn:R; [|discriminate].
    assert (T : exists g, recorrer (construir_pregunta ses (fst kv) (snd kv))
                                   (questions (snd kv)) = Some g).
    { apply (proj2 (recorrer_total _ cat) (ex_intro _ grupos R) kv Hkv). }
    destruct (proj2 (recorrer_total _ _) T p Hp) as [q Hq].
    unfold construir_pregunta in Hq. cbv zeta in Hq.
    destruct (id_numerico (q_id p)) as [n|]; [now exists n|discriminate].
Qed.

End FormularioFacts.

(** ** Properties of the submitted checklist *)

(** X12: The submission is built exactly when every question id of the catalog
    has a digit string that converts; one id without digits aborts the
    whole submission.  When it is built it holds one question per catalog
    question, in catalog order, each under the name of its section and
    the title of that section as category, with the catalog's prompt and
    citation, and with the answer held by the question's radio, or the
    text for no selection when the radio has no entry. *)
Theorem envio_una_pregunta_por_item
  (ses : Formulario.session_state) (cat : Formulario.catalogo) :
  (Formulario.ids_validos cat <->
   exists qs, Formulario.preguntas_respuestas ses cat = Some qs) /\
  (forall qs,
     Formulario.preguntas_respuestas ses cat = Some qs ->
     map seccion qs =
       flat_map (fun kv => map (fun _ => fst kv) (Formulario.questions (snd kv))) cat /\
     map categoria qs =
       flat_map (fun kv => map (fun _ => Formulario.title (snd kv))
                               (Formulario.questions (snd kv))) cat /\
     map pregunta qs =
       flat_map (fun kv => map Formulario.q_pregunta (Formulario.questions (snd kv))) cat /\
     map normativa qs =
       flat_map (fun kv => map Formulario.q_normativa (Formulario.questions (snd kv))) cat /\
     map respuesta qs =
       flat_map (fun kv =>
                   map (fun p => Formulario.session_get ses
                                   ("opcion_" ++ Formulario.q_id p) NO_SELECCIONADO)
                       (Formulario.questions (snd kv))) cat /\
     map (fun q => Some (id q)) qs =
       flat_map (fun kv => map (fun p => Formulario.id_numerico (Formulario.q_id p))
                               (Formulario.questions (snd kv))) cat).
Proof.
  split; [apply FormularioFacts.preguntas_respuestas_total|].
  intros qs H.
  repeat split;
    (eapply (FormularioFacts.campo_construido ses cat qs); [|exact H]);
    intros kv p q; unfold Formulario.construir_pregunta; cbv zeta;
    destruct (Formulario.id_numerico (Formulario.q_id p));
    try discriminate; intros [= <-]; reflexivity.
Qed.

(** X13: The numeric id sent for a question keeps only the digits of the
    catalog id: two ids that differ in their letters alone are sent under
    the same number, and an id without any digit has no number at all. *)
Theorem id_numerico_ignora_letras (p1 p2 d : string) :
  Formulario.solo_digitos p1 = "" -> Formulario.solo_digitos p2 = "" ->
  Formulario.id_numerico (p1 ++ d) = Formulario.id_numerico (p2 ++ d) /\
  Formulario.id_numerico p1 = None.
Proof.
  intros H1 H2. unfold Formulario.id_numerico.
  rewrite !FormularioFacts.solo_digitos_app, H1, H2. split; reflexivity.
Qed.

Lemma id_numerico_ignora_letras_witness :
  Formulario.id_numerico "ga1" = Some 1 /\
  Formulario.id_numerico "gt1" = Formulario.id_numerico "ga1".
Proof.
  split; [reflexivity|].
  exact (proj1 (id_numerico_ignora_letras "gt" "ga" "1" eq_refl eq_refl)).
Defined.

(** ** From the submitted checklist to the report *)

Module EnvioFacts.
Import Formulario.

(** The report of a registered company after its first saved form. *)
Lemma primer_envio (isoformat : Py.datetime -> string) (fecha_por_defecto : Py.datetime)
  (db : Database) (body : Backend.FormularioBody) (token : string) (e : Empresa) :
  Py.get (Backend.b_empresa_ruc body) (empresas db) = Some e ->
  formularios_de db (Backend.b_empresa_ruc body) = [] ->
  generar_reporte_empresa
    (snd (Backend.guardar_formulario isoformat fecha_por_defecto db body token))
    (Backend.b_empresa_ruc body) =
  Ok {| empresa := e;
        estadisticas :=
          {| total_verificaciones := 1;
             ultima_verificacion := Py.get_or (Backend.b_fecha body) fecha_por_defecto;
             cumplimiento_promedio :=
               ratio_de (contar (respuesta_es CUMPLE) (Backend.b_preguntas body))
                        (Z.of_nat (List.length (Backend.b_preguntas body)));
             secciones :=
               acc_secciones (fold_left procesar_pregunta (Backend.b_preguntas body)
                                        acumulador_inicial) |};
        ultimo_formulario :=
          fst (Backend.guardar_formulario isoformat fecha_por_defecto db body token) |}.
Proof.
  intros He H0.
  destruct (BackendFacts.guardar_formulario_hechos
              isoformat fecha_por_defecto db body token) as (_ & _ & E).
  assert (F : formularios_de
                (snd (Backend.guardar_formulario isoformat fecha_por_defecto db body token))
                (Backend.b_empresa_ruc body) =
              [fst (Backend.guardar_formulario isoformat fecha_por_defecto db body token)]).
  { unfold formularios_de, Backend.guardar_formulario. cbv zeta.
    cbn [fst snd formularios].
    apply BackendFacts.filter_set_primero; [cbn; apply String.eqb_refl|exact H0]. }
  rewrite <- E in He.
  rewrite (Endpoint.generar_reporte_empresa_ok _ _ _ _ _ _ He F eq_refl).
  assert (Q : todas_las_preguntas
                [fst (Backend.guardar_formulario isoformat fecha_por_defecto
                        db body token)] = Backend.b_preguntas body)
    by (unfold todas_las_preguntas; cbn [flat_map]; apply app_nil_r).
  unfold secciones_de.
  rewrite Agregador.procesar_formularios_plano, Q. reflexivity.
Qed.

Lemma propiedad_construida (P : PreguntaVerificacion -> Prop)
  (ses : session_state) (cat : catalogo) (qs : list PreguntaVerificacion) :
  (forall kv p q, In kv cat -> In p (questions (snd kv)) ->
                  construir_pregunta ses (fst kv) (snd kv) p = Some q -> P q) ->
  preguntas_respuestas ses cat = Some qs -> Forall P qs.
Proof.
  intros H. unfold preguntas_respuestas.
  destruct (recorrer _ cat) as [grupos|] eqn:R; [|discriminate].
  intros [= <-]. apply FormularioFacts.recorrer_Forall2 in R.
  assert (G : forall l : list (string * SeccionCatalogo),
             (forall kv, In kv l -> In kv cat) ->
             forall gs, Forall2 (fun kv g =>
                          recorrer (construir_pregunta ses (fst kv) (snd kv))
                                   (questions (snd kv)) = Some g) l gs ->
             Forall P (List.concat gs)).
  { clear R grupos. intros l Hl gs F.
    induction F as [|kv g l gs Rg _ IH]; [constructor|].
    cbn [List.concat]. apply Forall_app. split.
    - apply FormularioFacts.recorrer_Forall2 in Rg.
      assert (Q : forall ps, (forall p, In p ps -> In p (questions (snd kv))) ->
                  forall g', Forall2 (fun p q =>
                               construir_pregunta ses (fst kv) (snd kv) p = Some q)
                                     ps g' -> Forall P g').
      { intros ps Hps g' F'. induction F' as [|p q ps g' Rq _ IH']; constructor.
        - apply (H kv p q); [apply Hl; now left|apply Hps; now left|exact Rq].
        - apply IH'. intros z Hz. apply Hps. now right. }
      apply (Q _ (fun p Hp => Hp) _ Rg).
    - apply IH. intros z Hz. apply Hl. now right. }
  apply (G cat (fun kv Hkv => Hkv) _ R).
Qed.

Lemma contar_en_seccion (s : string) (qs : list PreguntaVerificacion) :
  contar (en_seccion s) qs =
  Z.of_nat (List.length (filter (fun x => String.eqb x s) (map seccion qs))).
Proof.
  unfold contar, en_seccion. f_equal.
  induction qs as [|q qs IH]; [reflexivity|]. cbn.
  destruct (String.eqb (seccion q) s); cbn; now rewrite IH.
Qed.

Lemma filtrar_secciones (s : string) (cat : catalogo) :
  Z.of_nat (List.length
              (filter (fun x => String.eqb x s)
                 (flat_map (fun kv => map (fun _ => fst kv) (questions (snd kv))) cat))) =
  preguntas_en s cat.
Proof.
  unfold preguntas_en. induction cat as [|kv cat IH]; [reflexivity|].
  cbn [flat_map map Py.sum fold_right]. rewrite filter_app, length_app, Nat2Z.inj_add.
  unfold Py.sum in IH. rewrite IH. f_equal.
  destruct (String.eqb (fst kv) s) eqn:E.
  - replace (filter (fun x => String.eqb x s)
               (map (fun _ => fst kv) (questions (snd kv))))
      with (map (fun _ : PreguntaCatalogo => fst kv) (questions (snd kv))).
    + now rewrite length_map.
    + induction (questions (snd kv)) as [|p ps IHp]; [reflexivity|].
      cbn. now rewrite E, <- IHp.
  - replace (filter (fun x => String.eqb x s)
               (map (fun _ => fst kv) (questions (snd kv))))
      with (@nil string); [reflexivity|].
    induction (questions (snd kv)) as [|p ps IHp]; [reflexivity|].
    cbn. now rewrite E.
Qed.

Lemma contar_nada (P Q : PreguntaVerificacion -> bool) (qs : list PreguntaVerificacion) :
  Forall (fun q => Q q = false) qs -> contar (fun p => P p && Q p) qs = 0.
Proof.
  intros F. unfold contar. induction F as [|q qs Hq _ IH]; [reflexivity|].
  cbn. rewrite Hq, andb_false_r. exact IH.
Qed.

Lemma contar_todo (P Q : PreguntaVerificacion -> bool) (qs : list PreguntaVerificacion) :
  Forall (fun q => Q q = true) qs -> contar (fun p => P p && Q p) qs = contar P qs.
Proof.
  intros F. unfold contar. induction F as [|q qs Hq _ IH]; [reflexivity|].
  cbn. rewrite Hq, andb_true_r. destruct (P q); cbn; lia.
Qed.

Lemma ratio_de_cero (n : Z) : ratio_de 0 n = 0%Q.
Proof.
  unfold ratio_de. destruct (n >? 0); [|reflexivity].
  rewrite (Redondeo.binary64_cero (inject_Z 0 / inject_Z n))
    by (unfold Qdiv; ring).
  vm_compute. reflexivity.
Qed.

End EnvioFacts.

(** X14: The first checklist submitted for a registered company gives a report
    of one verification, attributed to the caller, in which every section
    counts as many items as the catalog lists questions under that
    section name, and the items of all sections add up to the size of the
    catalog. *)
Theorem reporte_del_primer_envio
  (isoformat : Py.datetime -> string) (fecha_por_defecto : Py.datetime)
  (ses : Formulario.session_state) (cat : Formulario.catalogo)
  (db : Database) (ruc' cedula' token : string) (e : Empresa)
  (body : Backend.FormularioBody) :
  Formulario.construir_formulario ses cat ruc' cedula' = Some body ->
  Py.get ruc' (empresas db) = Some e ->
  formularios_de db ruc' = [] ->
  exists r,
    generar_reporte_empresa
      (snd (Backend.guardar_formulario isoformat fecha_por_defecto db body token))
      ruc' = Ok r /\
    empresa r = e /\
    total_verificaciones (estadisticas r) = 1 /\
    ultima_verificacion (estadisticas r) = fecha_por_defecto /\
    inspector_cedula (ultimo_formulario r) = token /\
    (forall s d, Py.get s (secciones (estadisticas r)) = Some d ->
                 total d = Formulario.preguntas_en s cat) /\
    Py.total_de total (secciones (estadisticas r)) =
      Py.sum (map (fun kv => Z.of_nat (List.length (Formulario.questions (snd kv)))) cat).
Proof.
  unfold Formulario.construir_formulario.
  destruct (Formulario.preguntas_respuestas ses cat) as [qs|] eqn:B; [|discriminate].
  intros [= <-] He H0.
  pose proof (EnvioFacts.primer_envio isoformat fecha_por_defecto db
                {| Backend.b_empresa_ruc := ruc'; Backend.b_inspector_cedula := cedula';
                   Backend.b_fecha := None; Backend.b_preguntas := qs |}
                token e He H0) as R.
  cbn [Backend.b_empresa_ruc Backend.b_preguntas Backend.b_fecha Py.get_or] in R.
  eexists. split; [exact R|].
  cbn [empresa estadisticas total_verificaciones ultima_verificacion secciones
       ultimo_formulario].
  split; [reflexivity|]. split; [reflexivity|]. split; [reflexivity|].
  split; [reflexivity|].
  pose proof (FormularioFacts.secciones_construidas ses cat qs B) as S.
  split.
  - intros s d G. rewrite Agregador.get_fold_procesar in G. unfold resumen in G.
    destruct (existsb (en_seccion s) qs); [|discriminate].
    injection G as <-. cbn [total cuentas].
    now rewrite EnvioFacts.contar_en_seccion, S, EnvioFacts.filtrar_secciones.
  - destruct (Agregador.totales_fold qs) as [-> _].
    destruct (Agregador.contadores_fold qs) as [-> _].
    rewrite <- (length_map seccion qs), S. clear.
    induction cat as [|kv cat IH]; [reflexivity|].
    cbn [flat_map map Py.sum fold_right].
    rewrite length_app, length_map, Nat2Z.inj_add. unfold Py.sum in IH.
    now rewrite IH.
Qed.

Lemma reporte_del_primer_envio_witness :
  exists body r,
    Formulario.construir_formulario [] Formulario.catalogo_demo RUC_DEMO "1722212253"
      = Some body /\
    generar_reporte_empresa
      (snd (Backend.guardar_formulario (fun _ => "2024-01-01T00:00:00") (Py.naive 0)
              (db_demo []) body "1722212253"))
      RUC_DEMO = Ok r /\
    total_verificaciones (estadisticas r) = 1 /\
    Py.total_de total (secciones (estadisticas r)) = 3.
Proof.
  eexists.
  destruct (reporte_del_primer_envio (fun _ => "2024-01-01T00:00:00") (Py.naive 0)
              [] Formulario.catalogo_demo (db_demo []) RUC_DEMO
              "1722212253" "1722212253" empresa_demo _ eq_refl eq_refl eq_refl)
    as (r & H & _ & T & _ & _ & _ & S).
  exists r. split; [reflexivity|]. split; [exact H|]. split; [exact T|exact S].
Defined.

(** X15: A checklist submitted without any selection counts every item as not
    applicable: in the report of that first submission no section has a
    compliant or a non-compliant item, the not-applicable count of every
    section equals its total, every section percentage is 0 and the
    overall ratio is 0. *)
Theorem formulario_en_blanco
  (isoformat : Py.datetime -> string) (fecha_por_defecto : Py.datetime)
  (ses : Formulario.session_state) (cat : Formulario.catalogo)
  (db : Database) (ruc' cedula' token : string) (e : Empresa)
  (body : Backend.FormularioBody) :
  Formulario.sin_seleccion ses cat ->
  Formulario.construir_formulario ses cat ruc' cedula' = Some body ->
  Py.get ruc' (empresas db) = Some e ->
  formularios_de db ruc' = [] ->
  exists r,
    generar_reporte_empresa
      (snd (Backend.guardar_formulario isoformat fecha_por_defecto db body token))
      ruc' = Ok r /\
    (cumplimiento_promedio (estadisticas r) == 0)%Q /\
    estado_de (cumplimiento_promedio (estadisticas r)) = INSUFICIENTE /\
    (forall s d, Py.get s (secciones (estadisticas r)) = Some d ->
                 cumple d = 0 /\ no_cumple d = 0 /\ no_aplica d = total d /\
                 porcentaje (datos_json d) = Py.Val (Py.Finito 0)).
Proof.
  intros Hs. unfold Formulario.construir_formulario.
  destruct (Formulario.preguntas_respuestas ses cat) as [qs|] eqn:B; [|discriminate].
  intros [= <-] He H0.
  pose proof (EnvioFacts.primer_envio isoformat fecha_por_defecto db
                {| Backend.b_empresa_ruc := ruc'; Backend.b_inspector_cedula := cedula';
                   Backend.b_fecha := None; Backend.b_preguntas := qs |}
                token e He H0) as R.
  cbn [Backend.b_empresa_ruc Backend.b_preguntas Backend.b_fecha Py.get_or] in R.
  eexists. split; [exact R|].
  cbn [estadisticas cumplimiento_promedio secciones].
  assert (F : Forall (fun q => respuesta_es CUMPLE q = false /\
                               respuesta_es NO_CUMPLE q = false) qs).
  { apply (EnvioFacts.propiedad_construida _ ses cat qs); [|exact B].
    intros kv p q Hkv Hp.
    unfold Formulario.construir_pregunta, Formulario.session_get. cbv zeta.
    destruct (Hs kv p Hkv Hp) as [E | E]; rewrite E;
      (destruct (Formulario.id_numerico (Formulario.q_id p)); [|discriminate]);
      intros [= <-]; split; reflexivity. }
  assert (FC : Forall (fun q => respuesta_es CUMPLE q = false) qs)
    by (eapply Forall_impl; [|exact F]; now intros q [? ?]).
  assert (FN : Forall (fun q => respuesta_es NO_CUMPLE q = false) qs)
    by (eapply Forall_impl; [|exact F]; now intros q [? ?]).
  assert (FO : Forall (fun q => es_otro q = true) qs).
  { eapply Forall_impl; [|exact F]. intros q [A C]. unfold es_otro.
    now rewrite A, C. }
  assert (P0 : (ratio_de (contar (respuesta_es CUMPLE) qs)
                          (Z.of_nat (List.length qs)) == 0)%Q).
  { replace (contar (respuesta_es CUMPLE) qs) with 0;
      [now rewrite EnvioFacts.ratio_de_cero|].
    symmetry. pose proof (EnvioFacts.contar_nada (fun _ => true) _ qs FC) as K.
    exact K. }
  split; [exact P0|]. split.
  { unfold estado_de.
    destruct (Qle_bool 80 _) eqn:X;
      [apply Qle_bool_iff in X; rewrite P0 in X; exfalso; lra|].
    destruct (Qle_bool 50 _) eqn:Y;
      [apply Qle_bool_iff in Y; rewrite P0 in Y; exfalso; lra|].
    reflexivity. }
  intros s d G. rewrite Agregador.get_fold_procesar in G. unfold resumen in G.
  destruct (existsb (en_seccion s) qs); [|discriminate].
  injection G as <-. unfold porcentaje, total_aplicable.
  cbn [datos_json d_total d_no_aplica d_cumple Py.get_or
       total cumple no_cumple no_aplica cuentas].
  rewrite (EnvioFacts.contar_nada _ _ qs FC), (EnvioFacts.contar_nada _ _ qs FN),
    (EnvioFacts.contar_todo _ _ qs FO).
  repeat split.
  rewrite Z.sub_diag. reflexivity.
Qed.

Lemma formulario_en_blanco_witness :
  exists body r,
    Formulario.construir_formulario [] Formulario.catalogo_demo RUC_DEMO "1722212253"
      = Some body /\
    generar_reporte_empresa
      (snd (Backend.guardar_formulario (fun _ => "2024-01-01T00:00:00") (Py.naive 0)
              (db_demo []) body "1722212253"))
      RUC_DEMO = Ok r /\
    (cumplimiento_promedio (estadisticas r) == 0)%Q /\
    estado_de (cumplimiento_promedio (estadisticas r)) = INSUFICIENTE.
Proof.
  eexists.
  destruct (formulario_en_blanco (fun _ => "2024-01-01T00:00:00") (Py.naive 0)
              [] Formulario.catalogo_demo (db_demo []) RUC_DEMO
              "1722212253" "1722212253" empresa_demo _
              (fun kv p _ _ => or_introl eq_refl) eq_refl eq_refl eq_refl)
    as (r & H & P & E & _).
  exists r. split; [reflexivity|]. split; [exact H|]. split; [exact P|exact E].
Defined.

(** X16: Through the checklist page the history of a company does not grow:
    the page sends no date, so every submission takes the date fixed at
    start-up and is stored under the same id.  After two submissions for
    a registered company the report counts one verification and is
    computed from the answers of the second submission alone. *)
Theorem segundo_envio_reemplaza_al_primero
  (isoformat : Py.datetime -> string) (fecha_por_defecto : Py.datetime)
  (ses1 ses2 : Formulario.session_state) (cat : Formulario.catalogo)
  (db : Database) (ruc' c1 c2 t1 t2 : string) (e : Empresa)
  (b1 b2 : Backend.FormularioBody) :
  Formulario.construir_formulario ses1 cat ruc' c1 = Some b1 ->
  Formulario.construir_formulario ses2 cat ruc' c2 = Some b2 ->
  Py.get ruc' (empresas db) = Some e ->
  formularios_de db ruc' = [] ->
  exists r,
    generar_reporte_empresa
      (snd (Backend.guardar_formulario isoformat fecha_por_defecto
              (snd (Backend.guardar_formulario isoformat fecha_por_defecto db b1 t1))
              b2 t2))
      ruc' = Ok r /\
    total_verificaciones (estadisticas r) = 1 /\
    preguntas (ultimo_formulario r) = Backend.b_preguntas b2 /\
    inspector_cedula (ultimo_formulario r) = t2 /\
    (forall s, Py.get s (secciones (estadisticas r)) =
               resumen s (Backend.b_preguntas b2)) /\
    cumplimiento_promedio (estadisticas r) =
      ratio_de (contar (respuesta_es CUMPLE) (Backend.b_preguntas b2))
               (Z.of_nat (List.length (Backend.b_preguntas b2))).
Proof.
  unfold Formulario.construir_formulario.
  destruct (Formulario.preguntas_respuestas ses1 cat) as [qs1|]; [|discriminate].
  destruct (Formulario.preguntas_respuestas ses2 cat) as [qs2|]; [|discriminate].
  intros [= <-] [= <-] He H0.
  set (b1 := {| Backend.b_empresa_ruc := ruc'; Backend.b_inspector_cedula := c1;
                Backend.b_fecha := None; Backend.b_preguntas := qs1 |}).
  set (b2 := {| Backend.b_empresa_ruc := ruc'; Backend.b_inspector_cedula := c2;
                Backend.b_fecha := None; Backend.b_preguntas := qs2 |}).
  set (db1 := snd (Backend.guardar_formulario isoformat fecha_por_defecto db b1 t1)).
  set (f2 := fst (Backend.guardar_formulario isoformat fecha_por_defecto db1 b2 t2)).
  assert (F : formularios_de
                (snd (Backend.guardar_formulario isoformat fecha_por_defecto db1 b2 t2))
                ruc' = [f2]).
  { unfold formularios_de, f2, db1, Backend.guardar_formulario,
      Backend.parsear_formulario, Backend.formulario_id.
    cbv zeta. cbn [fst snd formularios empresas empresa_ruc fecha preguntas
                   inspector_cedula b1 b2 Backend.b_empresa_ruc Backend.b_fecha
                   Backend.b_preguntas].
    eapply BackendFacts.filter_set_reemplazo.
    - apply PyFacts.get_set_eq.
    - cbn. apply String.eqb_refl.
    - cbn. apply String.eqb_refl.
    - apply BackendFacts.filter_set_primero; [cbn; apply String.eqb_refl|].
      exact H0. }
  assert (He' : Py.get ruc'
                  (empresas (snd (Backend.guardar_formulario isoformat
                                    fecha_por_defecto db1 b2 t2))) = Some e)
    by exact He.
  rewrite (Endpoint.generar_reporte_empresa_ok _ _ _ _ _ _ He' F eq_refl).
  eexists. split; [reflexivity|].
  cbn [estadisticas total_verificaciones ultimo_formulario secciones
       cumplimiento_promedio last List.length].
  split; [reflexivity|]. split; [reflexivity|]. split; [reflexivity|].
  assert (Q : todas_las_preguntas [f2] = qs2)
    by (unfold todas_las_preguntas; cbn [flat_map]; apply app_nil_r).
  split.
  - intros s. rewrite Agregador.get_secciones_de, Q. reflexivity.
  - now rewrite Q.
Qed.

Lemma segundo_envio_reemplaza_al_primero_witness :
  exists b1 b2 r,
    Formulario.construir_formulario [("opcion_ga1", Some CUMPLE)]
      Formulario.catalogo_demo RUC_DEMO "1722212253" = Some b1 /\
    Formulario.construir_formulario [("opcion_ga1", Some NO_CUMPLE)]
      Formulario.catalogo_demo RUC_DEMO "1722212253" = Some b2 /\
    generar_reporte_empresa
      (snd (Backend.guardar_formulario (fun _ => "2024-01-01T00:00:00") (Py.naive 0)
              (snd (Backend.guardar_formulario (fun _ => "2024-01-01T00:00:00") (Py.naive 0)
                      (db_demo []) b1 "1722212253"))
              b2 "1722212253"))
      RUC_DEMO = Ok r /\
    total_verificaciones (estadisticas r) = 1.
Proof.
  eexists. eexists.
  destruct (segundo_envio_reemplaza_al_primero (fun _ => "2024-01-01T00:00:00") (Py.naive 0)
              [("opcion_ga1", Some CUMPLE)] [("opcion_ga1", Some NO_CUMPLE)]
              Formulario.catalogo_demo (db_demo []) RUC_DEMO
              "1722212253" "1722212253" "1722212253" "1722212253" empresa_demo
              _ _ eq_refl eq_refl eq_refl eq_refl)
    as (r & H & T & _).
  exists r. split; [reflexivity|]. split; [reflexivity|]. split; [exact H|exact T].
Defined.

(** ** The figures of the report against the stored history *)

Module CifrasFacts.
Import Py PyFacts Agregador.

(** One iteration adds the question to exactly one of the two remaining
    buckets summed over sections, or to neither. *)
Lemma otros_procesar_pregunta a p :
  let a' := procesar_pregunta a p in
  total_de no_cumple (acc_secciones a') =
    total_de no_cumple (acc_secciones a)
    + (if respuesta_es NO_CUMPLE p then 1 else 0) /\
  total_de no_aplica (acc_secciones a') =
    total_de no_aplica (acc_secciones a) + (if es_otro p then 1 else 0).
Proof.
  cbv zeta. rewrite procesar_pregunta_contar_en.
  set (s0 := acc_secciones a).
  set (s1 := if negb (mem (seccion p) s0)
             then set (seccion p) seccion_vacia s0 else s0).
  assert (M1 : mem (seccion p) s1 = true).
  { subst s1. destruct (mem (seccion p) s0) eqn:M; simpl; auto.
    apply mem_set. }
  assert (T1 : forall g, g seccion_vacia = 0 -> total_de g s1 = total_de g s0).
  { intros g G. subst s1. destruct (mem (seccion p) s0) eqn:M; simpl; auto.
    rewrite total_de_set_new by exact M. lia. }
  assert (GN : forall v, no_cumple (contar_en p v) =
                         no_cumple v + (if respuesta_es NO_CUMPLE p then 1 else 0)).
  { intros v. unfold contar_en.
    destruct (respuesta_es CUMPLE p) eqn:C.
    - rewrite (cumple_excluye_no_cumple _ C). simpl. lia.
    - destruct (respuesta_es NO_CUMPLE p); simpl; lia. }
  assert (GO : forall v, no_aplica (contar_en p v) =
                         no_aplica v + (if es_otro p then 1 else 0)).
  { intros v. unfold contar_en, es_otro.
    destruct (respuesta_es CUMPLE p); [|destruct (respuesta_es NO_CUMPLE p)];
      simpl; lia. }
  rewrite (@total_de_modify _ no_cumple _ _ _ _ M1 GN).
  rewrite (@total_de_modify _ no_aplica _ _ _ _ M1 GO).
  rewrite !T1 by reflexivity. split; reflexivity.
Qed.

Lemma otros_fold qs :
  let a := fold_left procesar_pregunta qs acumulador_inicial in
  total_de no_cumple (acc_secciones a) = contar (respuesta_es NO_CUMPLE) qs /\
  total_de no_aplica (acc_secciones a) = contar es_otro qs.
Proof.
  induction qs as [|p qs IH] using rev_ind; [split; reflexivity|].
  cbv zeta in *. rewrite fold_left_app, !contar_snoc.
  change (fold_left procesar_pregunta [p] ?a) with (procesar_pregunta a p).
  destruct (otros_procesar_pregunta
              (fold_left procesar_pregunta qs acumulador_inicial) p) as [N O].
  destruct IH as [IN IO]. rewrite N, O, IN, IO. split; reflexivity.
Qed.

(** The sums the report takes over the JSON sections are the sums over
    the sections of the statistics record. *)
Lemma suma_json (e : Estadisticas) :
  Render.suma d_total (estadisticas_json e) = total_de total (secciones e) /\
  Render.suma d_cumple (estadisticas_json e) = total_de cumple (secciones e) /\
  Render.suma d_no_cumple (estadisticas_json e) = total_de no_cumple (secciones e) /\
  Render.suma d_no_aplica (estadisticas_json e) = total_de no_aplica (secciones e).
Proof.
  unfold Render.suma, Render.secciones_json, estadisticas_json, total_de, values.
  cbn [j_secciones get_or].
  repeat split; rewrite !map_map; reflexivity.
Qed.

(** A form of the history contributes all its matching answers. *)
Lemma contar_de_un_formulario (P : PreguntaVerificacion -> bool)
  (fs : list FormularioVerificacion) (f : FormularioVerificacion) :
  In f fs -> contar P (preguntas f) <= contar P (todas_las_preguntas fs).
Proof.
  unfold contar, todas_las_preguntas.
  induction fs as [|g fs IH]; [contradiction|].
  intros [-> | H]; cbn [flat_map]; rewrite filter_app, length_app.
  - lia.
  - specialize (IH H). lia.
Qed.



(** The three buckets split the answers. *)
Lemma contar_particion (qs : list PreguntaVerificacion) :
  contar (respuesta_es CUMPLE) qs + contar (respuesta_es NO_CUMPLE) qs
  + contar es_otro qs = Z.of_nat (List.length qs).
Proof.
  unfold contar, es_otro. induction qs as [|p qs IH]; [reflexivity|].
  cbn [filter List.length].
  destruct (respuesta_es CUMPLE p) eqn:C.
  - rewrite (cumple_excluye_no_cumple _ C). cbn [negb andb List.length]. lia.
  - destruct (respuesta_es NO_CUMPLE p); cbn [negb andb List.length]; lia.
Qed.

Lemma keys_modify {V} (k : string) (f : V -> V) (d : dict V) :
  keys (modify k f d) = keys d.
Proof.
  unfold keys. induction d as [|[k' v] d IH]; [reflexivity|].
  cbn [modify]. destruct (String.eqb k k'); cbn [map fst]; [reflexivity|].
  now rewrite IH.
Qed.

Lemma keys_set_new {V} (k : string) (v : V) (d : dict V) :
  mem k d = false -> keys (set k v d) = (keys d ++ [k])%list.
Proof.
  unfold mem, keys. induction d as [|[k' v'] d IH]; [reflexivity|].
  cbn [get set]. destruct (String.eqb k k'); [discriminate|].
  intros M. cbn [map fst app]. now rewrite IH.
Qed.

Lemma mem_In_keys {V} (k : string) (d : dict V) :
  mem k d = true <-> In k (keys d).
Proof.
  unfold mem, keys. induction d as [|[k' v] d IH]; cbn [get map fst In].
  - split; [discriminate|contradiction].
  - destruct (String.eqb k k') eqn:E.
    + apply String.eqb_eq in E. subst. split; auto.
    + apply String.eqb_neq in E. rewrite IH. split; [auto|].
      intros [H|H]; [congruence|exact H].
Qed.

(** A section enters the dict when its first question is processed, at
    the end; later questions leave the order alone. *)
Lemma keys_procesar_pregunta a p :
  keys (acc_secciones (procesar_pregunta a p)) =
  if mem (seccion p) (acc_secciones a) then keys (acc_secciones a)
  else (keys (acc_secciones a) ++ [seccion p])%list.
Proof.
  rewrite procesar_pregunta_contar_en, keys_modify.
  destruct (mem (seccion p) (acc_secciones a)) eqn:M; cbn [negb]; [reflexivity|].
  now apply keys_set_new.
Qed.

Lemma keys_fold qs :
  keys (acc_secciones (fold_left procesar_pregunta qs acumulador_inicial)) =
  rev (nodup string_dec (rev (map seccion qs))).
Proof.
  induction qs as [|p qs IH] using rev_ind; [reflexivity|].
  rewrite fold_left_app, map_app, rev_app_distr.
  change (fold_left procesar_pregunta [p] ?a) with (procesar_pregunta a p).
  cbn [map rev app nodup].
  rewrite keys_procesar_pregunta.
  set (a := fold_left procesar_pregunta qs acumulador_inicial) in *.
  destruct (in_dec string_dec (seccion p) (rev (map seccion qs))) as [I|I].
  - assert (M : mem (seccion p) (acc_secciones a) = true).
    { apply mem_In_keys. rewrite IH. apply in_rev. rewrite rev_involutive.
      now apply nodup_In. }
    now rewrite M.
  - assert (M : mem (seccion p) (acc_secciones a) = false).
    { destruct (mem (seccion p) (acc_secciones a)) eqn:M; [|reflexivity].
      exfalso. apply I. apply mem_In_keys in M. rewrite IH in M.
      apply in_rev in M. now apply nodup_In in M. }
    rewrite M. cbn [rev]. now rewrite IH.
Qed.

End CifrasFacts.

(** X17: The figures the report prints in its executive summary and draws in
    its first chart describe the stored history of the company: the item
    count is the number of answers of all stored forms, the three slices
    are the answers that comply, that do not comply and all the others,
    and the slices add up to the item count. *)
Theorem cifras_del_resumen (db : Database) (ruc' : string) (r : Reporte) :
  generar_reporte_empresa db ruc' = Ok r ->
  let est := estadisticas_json (estadisticas r) in
  let qs := todas_las_preguntas (formularios_de db ruc') in
  Render.suma d_total est = Z.of_nat (List.length qs) /\
  Render.suma d_cumple est = contar (respuesta_es CUMPLE) qs /\
  Render.suma d_no_cumple est = contar (respuesta_es NO_CUMPLE) qs /\
  Render.suma d_no_aplica est = contar es_otro qs /\
  Render.suma d_cumple est + Render.suma d_no_cumple est
    + Render.suma d_no_aplica est = Render.suma d_total est.
Proof.
  intros H.
  destruct (Endpoint.generar_reporte_empresa_inv _ _ _ H)
    as (e & f0 & rest & u & E & F & M).
  rewrite (Endpoint.generar_reporte_empresa_ok _ _ _ _ _ _ E F M) in H.
  injection H as <-. cbv zeta. cbn [estadisticas]. rewrite F.
  match goal with
  | |- context [estadisticas_json ?e] =>
      destruct (CifrasFacts.suma_json e) as (-> & -> & -> & ->)
  end.
  cbn [secciones]. unfold secciones_de.
  rewrite Agregador.procesar_formularios_plano.
  set (qs := todas_las_preguntas (f0 :: rest)).
  destruct (Agregador.totales_fold qs) as [-> ->].
  destruct (Agregador.contadores_fold qs) as [-> ->].
  destruct (CifrasFacts.otros_fold qs) as [-> ->].
  repeat split. apply CifrasFacts.contar_particion.
Qed.

Lemma cifras_del_resumen_witness :
  exists r,
    generar_reporte_empresa db_escenario_a RUC_DEMO = Ok r /\
    Render.suma d_total (estadisticas_json (estadisticas r)) = 6 /\
    Render.suma d_no_cumple (estadisticas_json (estadisticas r)) = 1.
Proof.
  destruct (generar_reporte_empresa db_escenario_a RUC_DEMO) as [r|x|x] eqn:G;
    [|vm_compute in G; discriminate G..].
  exists r. split; [reflexivity|].
  destruct (cifras_del_resumen db_escenario_a RUC_DEMO r G) as (T & _ & N & _).
  split; [exact T|exact N].
Defined.

(** X18: The percentage the report computes for a section of the
    statistics is the share of compliant answers among the compliant and
    non-compliant ones, whatever the number of other answers, as the
    float operations give it (the quotient rounded to a double, times
    100, rounded to a double); it is 0 for a section without any such
    answer, and it lies between 0 and 100. *)
Theorem porcentaje_de_seccion_agregada
  (fs : list FormularioVerificacion) (s : string) (d : SeccionStats) :
  Py.get s (secciones_de fs) = Some d ->
  exists q,
    porcentaje (datos_json d) = Py.Val (Py.Finito q) /\
    (0 <= q)%Q /\ (q <= 100)%Q /\
    (cumple d + no_cumple d = 0 -> q = 0%Q) /\
    (0 < cumple d + no_cumple d ->
     q = Py.binary64
           (Py.binary64 (inject_Z (cumple d)
                         / inject_Z (cumple d + no_cumple d)) * 100)).
Proof.
  intros G.
  destruct (total_aplicable_agregado fs s d G) as [T T0].
  assert (W : bien_formada d).
  { unfold secciones_de in G. rewrite Agregador.procesar_formularios_plano in G.
    apply Endpoint.get_Some_In in G.
    pose proof (Agregador.bien_formadas_fold (todas_las_preguntas fs)) as F.
    rewrite Forall_forall in F. exact (F _ G). }
  destruct W as (_ & C0 & N0 & _).
  destruct (Z.eq_dec (cumple d + no_cumple d) 0) as [Z0|Z0].
  - exists 0%Q.
    split; [apply PorcentajeFacts.porcentaje_sin_aplicables; lia|].
    split; [lra|]. split; [lra|]. split; [reflexivity|intros; lia].
  - assert (P : 0 < total_aplicable (datos_json d)) by lia.
    assert (C : 0 <= Py.get_or (d_cumple (datos_json d)) 0
                <= total_aplicable (datos_json d))
      by (cbn [datos_json d_cumple Py.get_or]; lia).
    destruct (PorcentajeFacts.porcentaje_en_rango (datos_json d) P C)
      as (E & A & B).
    rewrite T in E, A, B. cbn [datos_json d_cumple Py.get_or] in E, A, B.
    eexists. split; [exact E|]. split; [exact A|]. split; [exact B|].
    split; [intros; lia|reflexivity].
Qed.

Lemma porcentaje_de_seccion_agregada_witness :
  exists q,
    porcentaje (datos_json {| total := 3; cumple := 2; no_cumple := 1; no_aplica := 0 |})
      = Py.Val (Py.Finito q) /\
    q = Py.binary64 (Py.binary64 (inject_Z 2 / inject_Z 3) * 100) /\
    (q <= 100)%Q.
Proof.
  destruct (porcentaje_de_seccion_agregada [visita_escenario_a] "A"
              {| total := 3; cumple := 2; no_cumple := 1; no_aplica := 0 |} eq_refl)
    as (q & H & _ & B & _ & E).
  exists q. split; [exact H|]. split; [apply E; reflexivity|exact B].
Defined.



(** X20: The sections of the statistics are kept in the order in which the
    answers of the history first name them, each section once. *)
Theorem secciones_en_orden_de_aparicion (fs : list FormularioVerificacion) :
  Py.keys (secciones_de fs) =
    rev (nodup string_dec (rev (map seccion (todas_las_preguntas fs)))) /\
  NoDup (Py.keys (secciones_de fs)) /\
  (forall s, In s (Py.keys (secciones_de fs)) <->
             exists p, In p (todas_las_preguntas fs) /\ seccion p = s).
Proof.
  unfold secciones_de. rewrite Agregador.procesar_formularios_plano.
  rewrite CifrasFacts.keys_fold.
  split; [reflexivity|]. split.
  - apply NoDup_rev, NoDup_nodup.
  - intros s. rewrite <- in_rev, nodup_In, <- in_rev, in_map_iff.
    split; intros (p & A & B); exists p; auto.
Qed.

(** ** Temporary files of the chart blocks *)

Module ArchivosFacts.
Import Render Archivos.

Lemma inerte_ret {A} (a : A) : inerte (ret a).
Proof. intros w. split; reflexivity. Qed.

Lemma inerte_raise {A} (e : Py.excepcion) : inerte (@raise A e).
Proof. intros w. split; reflexivity. Qed.

Lemma inerte_registrar (o : Op) (x : Z) : inerte (registrar o x).
Proof. intros w. split; reflexivity. Qed.

Lemma inerte_cell env w h txt nx : inerte (cell env w h txt nx).
Proof.
  intros m. unfold cell. destruct (codificable env txt); split; reflexivity.
Qed.

Lemma inerte_multi_cell env w h txt nx : inerte (multi_cell env w h txt nx).
Proof.
  intros m. unfold multi_cell.
  destruct (codificable env txt); [destruct (_ && _)|]; split; reflexivity.
Qed.

Lemma inerte_text env x y txt : inerte (text env x y txt).
Proof.
  intros m. unfold text. destruct (codificable env txt); split; reflexivity.
Qed.

Lemma inerte_line : inerte line.
Proof. intros w. split; reflexivity. Qed.

Lemma inerte_image img x y w : inerte (image img x y w).
Proof. intros m. split; reflexivity. Qed.

Lemma inerte_print (prefijo : string) (e : Py.excepcion) : inerte (print prefijo e).
Proof. intros w. split; reflexivity. Qed.

Lemma inerte_nuevo_pdf : inerte nuevo_pdf.
Proof. intros w. split; reflexivity. Qed.

Lemma inerte_evaluar {A} (r : Py.salida A) : inerte (evaluar r).
Proof. intros w. destruct r; split; reflexivity. Qed.

Lemma inerte_procesar_imagen (env : Entorno) (u : Upload) :
  inerte (procesar_imagen env u).
Proof.
  intros w. unfold procesar_imagen. destruct (decodifica env u); split; reflexivity.
Qed.

Lemma inerte_bind {A B} (m : M A) (f : A -> M B) :
  inerte m -> (forall a, inerte (f a)) -> inerte (bind m f).
Proof.
  intros Hm Hf w. unfold bind. destruct (Hm w) as [A1 S1].
  destruct (m w) as [[a|e] w1]; cbn [snd] in *.
  - destruct (Hf a w1) as [A2 S2]. split; congruence.
  - split; assumption.
Qed.

Lemma inerte_try {A} (body : M A) (handler : Py.excepcion -> M A) :
  inerte body -> (forall e, inerte (handler e)) -> inerte (try_except body handler).
Proof.
  intros Hb Hh w. unfold try_except. destruct (Hb w) as [A1 S1].
  destruct (body w) as [[a|e] w1]; cbn [snd] in *.
  - split; assumption.
  - destruct (Hh e w1) as [A2 S2]. split; congruence.
Qed.

Lemma inerte_for_each {X} (l : list X) (f : X -> M unit) :
  (forall x, inerte (f x)) -> inerte (for_each l f).
Proof.
  intros H. induction l as [|x l IH]; cbn [for_each].
  - apply inerte_ret.
  - apply inerte_bind; auto.
Qed.

Lemma inerte_series_barras (l : Py.dict DatosSeccion) : inerte (series_barras l).
Proof.
  induction l as [|[s d] l IH]; cbn [series_barras].
  - apply inerte_ret.
  - apply inerte_bind; [apply inerte_evaluar|intros q].
    apply inerte_bind; [exact IH|intros r]. apply inerte_ret.
Qed.

Lemma quieto_ret : quieto (ret tt).
Proof. intros w. repeat split. Qed.

Lemma quieto_registrar (o : Op) (x : Z) : quieto (registrar o x).
Proof. intros w. repeat split. Qed.

(** A cell whose text is in latin-1 is written. *)
Lemma quieto_cell env w h txt nx :
  codificable env txt = true -> quieto (cell env w h txt nx).
Proof. intros C m. unfold cell. rewrite C. repeat split. Qed.

Lemma quieto_bind (m k : M unit) :
  quieto m -> quieto k -> quieto (bind m (fun _ => k)).
Proof.
  intros Hm Hk w. unfold bind. destruct (Hm w) as (V1 & A1 & S1).
  destruct (m w) as [r w1]; cbn [fst snd] in *. subst r.
  destruct (Hk w1) as (V2 & A2 & S2). repeat split; congruence.
Qed.

Lemma deja_inerte (ok : Prop) {A} (m : M A) : inerte m -> deja ok m.
Proof.
  intros H w _. destruct (H w) as [A1 S1]. exists [].
  rewrite A1, S1, app_nil_r. repeat split; [constructor|lia].
Qed.

(** Freshness is kept along the way. *)
Lemma fresco_despues (w w' : Mundo) (nuevos : list nat) :
  fresco w ->
  archivos w' = (archivos w ++ nuevos)%list ->
  Forall (fun n => (siguiente w <= n < siguiente w')%nat) nuevos ->
  (siguiente w <= siguiente w')%nat ->
  fresco w'.
Proof.
  unfold fresco. intros F E N S. rewrite E. apply Forall_app. split.
  - eapply Forall_impl; [|exact F]. cbv beta. intros; lia.
  - eapply Forall_impl; [|exact N]. cbv beta. intros; lia.
Qed.

Lemma deja_seguido (ok : Prop) (w w1 w2 : Mundo) (n1 n2 : list nat) :
  archivos w1 = (archivos w ++ n1)%list ->
  Forall (fun n => (siguiente w <= n < siguiente w1)%nat) n1 ->
  (siguiente w <= siguiente w1)%nat ->
  (ok -> n1 = []) ->
  archivos w2 = (archivos w1 ++ n2)%list ->
  Forall (fun n => (siguiente w1 <= n < siguiente w2)%nat) n2 ->
  (siguiente w1 <= siguiente w2)%nat ->
  (ok -> n2 = []) ->
  archivos w2 = (archivos w ++ (n1 ++ n2))%list /\
  Forall (fun n => (siguiente w <= n < siguiente w2)%nat) (n1 ++ n2)%list /\
  (siguiente w <= siguiente w2)%nat /\
  (ok -> (n1 ++ n2)%list = []).
Proof.
  intros E1 F1 S1 O1 E2 F2 S2 O2.
  split; [now rewrite E2, E1, app_assoc|].
  split.
  { apply Forall_app. split.
    - eapply Forall_impl; [|exact F1]. cbv beta. intros; lia.
    - eapply Forall_impl; [|exact F2]. cbv beta. intros; lia. }
  split; [lia|]. intros K. now rewrite (O1 K), (O2 K).
Qed.

Lemma deja_bind (ok : Prop) {A B} (m : M A) (f : A -> M B) :
  deja ok m -> (forall a, deja ok (f a)) -> deja ok (bind m f).
Proof.
  intros Hm Hf w Fw. unfold bind.
  destruct (Hm w Fw) as (n1 & E1 & F1 & S1 & O1).
  destruct (m w) as [[a|e] w1]; cbn [snd] in *.
  - assert (Fw1 : fresco w1) by (eapply fresco_despues; eassumption).
    destruct (Hf a w1 Fw1) as (n2 & E2 & F2 & S2 & O2).
    exists (n1 ++ n2)%list. eapply deja_seguido; eassumption.
  - exists n1. auto.
Qed.

Lemma deja_try (ok : Prop) {A} (body : M A) (handler : Py.excepcion -> M A) :
  deja ok body -> (forall e, deja ok (handler e)) ->
  deja ok (try_except body handler).
Proof.
  intros Hb Hh w Fw. unfold try_except.
  destruct (Hb w Fw) as (n1 & E1 & F1 & S1 & O1).
  destruct (body w) as [[a|e] w1]; cbn [snd] in *.
  - exists n1. auto.
  - assert (Fw1 : fresco w1) by (eapply fresco_despues; eassumption).
    destruct (Hh e w1 Fw1) as (n2 & E2 & F2 & S2 & O2).
    exists (n1 ++ n2)%list. eapply deja_seguido; eassumption.
Qed.

Lemma deja_for_each (ok : Prop) {X} (l : list X) (f : X -> M unit) :
  (forall x, deja ok (f x)) -> deja ok (for_each l f).
Proof.
  intros H. induction l as [|x l IH]; cbn [for_each].
  - apply deja_inerte, inerte_ret.
  - apply deja_bind; auto.
Qed.

(** Removing the file just created gives back the files from before. *)
Lemma quitar_el_nuevo (l : list nat) (n : nat) :
  Forall (fun m => (m < n)%nat) l -> quitar n (l ++ [n]) = l.
Proof.
  intros F. unfold quitar. rewrite filter_app. cbn [filter].
  rewrite Nat.eqb_refl. cbn [negb]. rewrite app_nil_r.
  apply forallb_filter_id. apply forallb_forall. intros m Hm.
  rewrite Forall_forall in F. specialize (F m Hm).
  apply negb_true_iff, Nat.eqb_neq. lia.
Qed.

(** The body of a chart block: the figure is computed without touching
    the disk, and what follows the embedding cannot fail. *)
Lemma deja_cuerpo_grafico env g (f : M Figura) x y w despues :
  inerte f -> quieto despues ->
  deja (sin_fallo_tardio env) (cuerpo_grafico env g f x y w despues).
Proof.
  intros Hf Hd m Fm.
  unfold cuerpo_grafico, dibujar, savefig, image_archivo, paso, bind.
  destruct (Hf m) as [A1 S1].
  destruct (f m) as [[fig|e] m1]; cbn [snd] in A1, S1.
  2:{ exists []. cbn. rewrite A1, S1, app_nil_r.
      repeat split; [constructor|lia]. }
  destruct (falla env g) as [[| |]|] eqn:Fg.
  - exists []. cbn. rewrite A1, S1, app_nil_r. repeat split; [constructor|lia].
  - exists [siguiente m]. cbn. rewrite A1, S1.
    split; [reflexivity|]. split; [repeat constructor; lia|]. split; [lia|].
    intros K. destruct (K g) as [K1|K1]; rewrite Fg in K1; discriminate.
  - exists [siguiente m]. cbn. rewrite A1, S1.
    split; [reflexivity|]. split; [repeat constructor; lia|]. split; [lia|].
    intros K. destruct (K g) as [K1|K1]; rewrite Fg in K1; discriminate.
  - exists []. unfold ret, NamedTemporaryFile, image, registrar.
    cbn [etapa_eqb pdf abscisa archivos siguiente stdout].
    match goal with
    | |- context [despues ?w0] =>
        destruct (Hd w0) as (V2 & A2 & S2); destruct (despues w0) as [r2 m2]
    end.
    cbn [fst snd pdf abscisa archivos siguiente stdout] in V2, A2, S2. subst r2.
    unfold unlink. rewrite A2.
    assert (X : existsb (Nat.eqb (siguiente m1)) (archivos m1 ++ [siguiente m1]) = true).
    { rewrite existsb_app. cbn [existsb]. now rewrite Nat.eqb_refl, orb_true_r. }
    rewrite X. cbn [snd archivos siguiente].
    rewrite quitar_el_nuevo by (rewrite A1, S1; exact Fm).
    rewrite A1, S2, S1, app_nil_r. repeat split; [constructor|lia].
Qed.

(** One chart block: the line of text that replaces a chart touches no
    file. *)
Lemma deja_bloque_grafico env g (f : M Figura) x y w despues a1 a2 :
  inerte f -> quieto despues ->
  deja (sin_fallo_tardio env) (bloque_grafico env g f x y w despues a1 a2).
Proof.
  intros Hf Hd. unfold bloque_grafico.
  apply deja_try; [now apply deja_cuerpo_grafico|].
  intros e. apply deja_inerte.
  apply inerte_bind; [apply inerte_print|intros _; apply inerte_multi_cell].
Qed.

End ArchivosFacts.

(** ** Temporary files of the whole report *)

Module InformeArchivos.
Import Render Archivos ArchivosFacts.

(** One syntax-directed step per shape of computation. *)
Ltac archivar :=
  repeat match goal with
    | |- deja _ (bind _ _) => apply deja_bind; [|intros]
    | |- deja _ (try_except _ _) => apply deja_try; [|intros]
    | |- deja _ (for_each _ _) => apply deja_for_each; intros
    | |- deja _ (bloque_grafico _ _ _ _ _ _ _ _ _) => apply deja_bloque_grafico
    | |- deja _ (ret _) => apply deja_inerte, inerte_ret
    | |- deja _ (cell _ _ _ _ _) => apply deja_inerte, inerte_cell
    | |- deja _ (multi_cell _ _ _ _ _) => apply deja_inerte, inerte_multi_cell
    | |- deja _ (text _ _ _ _) => apply deja_inerte, inerte_text
    | |- deja _ (ln _) => apply deja_inerte, inerte_registrar
    | |- deja _ add_page => apply deja_inerte, inerte_registrar
    | |- deja _ (set_y _) => apply deja_inerte, inerte_registrar
    | |- deja _ line => apply deja_inerte, inerte_line
    | |- deja _ (image _ _ _ _) => apply deja_inerte, inerte_image
    | |- deja _ (print _ _) => apply deja_inerte, inerte_print
    | |- deja _ nuevo_pdf => apply deja_inerte, inerte_nuevo_pdf
    | |- deja _ (evaluar _) => apply deja_inerte, inerte_evaluar
    | |- deja _ (procesar_imagen _ _) => apply deja_inerte, inerte_procesar_imagen
    | |- deja _ (fila_tabla _ _ _ _) => unfold fila_tabla
    | |- deja _ (indicadores _ _) => unfold indicadores
    | |- deja _ (no_conformidad _ _) => unfold no_conformidad
    | |- deja _ (pie _) => unfold pie
    | |- inerte (bind _ _) => apply inerte_bind; [|intros]
    | |- inerte (ret _) => apply inerte_ret
    | |- inerte (series_barras _) => apply inerte_series_barras
    | |- quieto (bind _ _) => apply quieto_bind
    | |- quieto (ln _) => apply quieto_registrar
    | |- quieto (cell _ _ _ _ _) => apply quieto_cell; reflexivity
    | |- quieto (ret tt) => apply quieto_ret
    end.

Section Bloques.
Variable env : Entorno.

Lemma deja_logo nombre subido x alternativo :
  deja (sin_fallo_tardio env) (logo env nombre subido x alternativo).
Proof. unfold logo. destruct subido; archivar. Qed.

Lemma deja_encabezado empresa logo_empresa logo_sesaco :
  deja (sin_fallo_tardio env) (encabezado env empresa logo_empresa logo_sesaco).
Proof. unfold encabezado. archivar; apply deja_logo. Qed.

Lemma deja_informacion_general empresa user :
  deja (sin_fallo_tardio env) (informacion_general env empresa user).
Proof. unfold informacion_general. archivar. Qed.

Lemma deja_resumen_ejecutivo est :
  deja (sin_fallo_tardio env) (resumen_ejecutivo env est).
Proof. unfold resumen_ejecutivo. cbv zeta. archivar. Qed.

Lemma deja_estadisticas_detalladas est :
  deja (sin_fallo_tardio env) (estadisticas_detalladas env est).
Proof. unfold estadisticas_detalladas, figura_barras. archivar. Qed.

Lemma deja_no_conformidades preguntas s :
  deja (sin_fallo_tardio env) (no_conformidades env preguntas s).
Proof.
  unfold no_conformidades.
  destruct (preguntas_no_cumplen preguntas s); archivar.
  destruct (con_observaciones _); archivar.
Qed.

Lemma deja_detalle_seccion est preguntas sd :
  deja (sin_fallo_tardio env) (detalle_seccion env est preguntas sd).
Proof.
  unfold detalle_seccion. cbv zeta.
  apply deja_bind; [destruct (_ >? _); archivar|intros].
  archivar. apply deja_no_conformidades.
Qed.

Lemma deja_detalle_por_seccion est preguntas :
  deja (sin_fallo_tardio env) (detalle_por_seccion env est preguntas).
Proof. unfold detalle_por_seccion. archivar. apply deja_detalle_seccion. Qed.

Lemma deja_cierre empresa est obs user :
  deja (sin_fallo_tardio env) (cierre env empresa est obs user).
Proof. unfold cierre. cbv zeta. archivar. Qed.

Lemma deja_cuerpo empresa est preguntas obs logo_empresa logo_sesaco user :
  deja (sin_fallo_tardio env)
       (cuerpo env empresa est preguntas obs logo_empresa logo_sesaco user).
Proof.
  unfold cuerpo, resto.
  apply deja_bind; [apply deja_inerte, inerte_nuevo_pdf|intros _].
  apply deja_bind; [apply deja_inerte, inerte_registrar|intros _].
  apply deja_bind; [apply deja_encabezado|intros _].
  apply deja_bind; [apply deja_informacion_general|intros _].
  apply deja_bind; [apply deja_resumen_ejecutivo|intros _].
  apply deja_bind; [apply deja_estadisticas_detalladas|intros _].
  apply deja_bind; [apply deja_detalle_por_seccion|intros _].
  apply deja_cierre.
Qed.

Lemma deja_pdf_de_error e : deja (sin_fallo_tardio env) (pdf_de_error env e).
Proof. unfold pdf_de_error. archivar. Qed.

Lemma deja_generate_pdf_report
  empresa est preguntas obs logo_empresa logo_sesaco user :
  deja (sin_fallo_tardio env) (generate_pdf_report env empresa est preguntas obs
             logo_empresa logo_sesaco user).
Proof.
  assert (D : deja (sin_fallo_tardio env)
                (try_except
                   (cuerpo env empresa est preguntas obs logo_empresa logo_sesaco user)
                   (pdf_de_error env) ;;
                 (fun w' => (Py.Val (pdf w'), w')))).
  { apply deja_bind.
    - apply deja_try; [apply deja_cuerpo|intros; apply deja_pdf_de_error].
    - intros _. apply deja_inerte. intros w0. split; reflexivity. }
  exact D.
Qed.

End Bloques.

End InformeArchivos.

(** X21: Whatever fails while a report is rendered, the call removes no file
    that was on disk before and leaves behind only temporary files it
    created itself; when no chart fails after its temporary file has been
    created, the disk holds exactly the files from before. *)
Theorem archivos_temporales_del_informe
  (env : Render.Entorno) (empresa : EmpresaJson) (est : EstadisticasJson)
  (preguntas : list PreguntaVerificacion) (obs : string)
  (logo_empresa logo_sesaco : option Render.Upload) (user : UserInfo)
  (w : Render.Mundo) :
  Archivos.fresco w ->
  exists nuevos,
    Render.archivos
      (snd (Render.generate_pdf_report env empresa est preguntas obs
              logo_empresa logo_sesaco user w)) =
      (Render.archivos w ++ nuevos)%list /\
    Forall (fun n => (Render.siguiente w <= n)%nat) nuevos /\
    (Archivos.sin_fallo_tardio env -> nuevos = []).
Proof.
  intros Fw.
  destruct (InformeArchivos.deja_generate_pdf_report env empresa est preguntas obs
              logo_empresa logo_sesaco user w Fw) as (nuevos & E & F & _ & O).
  exists nuevos. split; [exact E|]. split; [|exact O].
  eapply Forall_impl; [|exact F]. cbv beta. intros; lia.
Qed.

Lemma archivos_temporales_del_informe_witness :
  Render.archivos
    (snd (Render.generate_pdf_report Render.todo_bien
            (empresa_json empresa_demo) RenderSpec.estadisticas_conforme
            (preguntas visita_conforme) "" None None
            RenderSpec.usuario_demo Render.mundo_inicial)) = [].
Proof.
  destruct (archivos_temporales_del_informe Render.todo_bien
              (empresa_json empresa_demo) RenderSpec.estadisticas_conforme
              (preguntas visita_conforme) "" None None
              RenderSpec.usuario_demo Render.mundo_inicial (Forall_nil _))
    as (nuevos & E & _ & O).
  rewrite E, (O (fun g => or_introl eq_refl)). reflexivity.
Defined.
